(** * opensqt_market_maker: pre-trade safety, configuration, take-profit
      monitor, logger and the startup and loops of [main.go]

    A shallow embedding of the Go sources

    - [safety/safety.go]            ([CheckAccountSafety]),
    - the [config] package          ([Config.Validate], [LoadConfig]),
    - the [logger] package          ([ParseLogLevel], the levels and the
      log file),
    - the take-profit monitor of the [safety] package
      ([TakeProfitMonitor]),
    - [main.go]                     (the wait for the first price, the
      safety check, the price-event and status goroutines,
      [closeAllPositionsMarket]),

    together with the properties the specification states about them,
    and with properties read off the code itself.

    Numbers are modelled as the code has them: Go's [float64] is IEEE 754
    binary64, which is Rocq's primitive [float] (same format, same
    round-to-nearest-even operations, same comparisons on NaN), each
    operation rounded on its own, as the compiler does on amd64; Go's
    [int] is a [Z] (the code only compares integers and converts them to
    [float64]; where it multiplies, for the period of a ticker, the
    wrap-around on 64 bits is written out).

    The model comes first, one module for each Go package or type; the
    properties follow, in modules named after them. *)

From Stdlib Require Import ZArith List String Ascii Bool Lia QArith Qfield Floats.
From stdpp Require Import gmap strings.

Local Open Scope string_scope.
Local Open Scope Z_scope.

(** ** Go values *)

(** [float64]. *)
Abbreviation float64 := float (only parsing).

(** The conversion [float64(n)] of an [int]: the nearest binary64 value,
    ties to even. *)
Definition float64_of_int (n : Z) : float64 :=
  SF2Prim (binary_normalize prec emax n 0 false).

(** Go's [x != y] on [float64]: true as soon as one side is NaN. *)
Definition float_neq (x y : float64) : bool := negb (x =? y)%float.

(** Go's [x > y] and [x >= y] on [float64]. *)
Definition float_gtb (x y : float64) : bool := (y <? x)%float.
Definition float_geb (x y : float64) : bool := (y <=? x)%float.

(** The rational number a finite [float64] stands for. *)
Definition exact (x : float64) : option Q :=
  match Prim2SF x with
  | S754_zero _ => Some 0%Q
  | S754_finite s m e =>
    Some (inject_Z (if s then Z.neg m else Z.pos m) * Qpower 2 e)%Q
  | S754_infinity _ | S754_nan => None
  end.

(** A Go result [(v, err)]: either a value or an error. *)
Inductive Result (E A : Type) : Type :=
| Ok (v : A)
| Err (e : E).
Arguments Ok {E A} v.
Arguments Err {E A} e.

(** An error returned by the venue; the code only wraps or logs it. *)
Definition VenueError := string.

(** ** The venue, as [CheckAccountSafety] and the take-profit monitor use it

    The [exchange] package is outside the sources at hand; the records
    below carry the fields the code reads ([account.AvailableBalance],
    [p.Symbol], ...), with the types the code uses them at. *)

Module Account.
Record t : Type := mk {
  TotalWalletBalance : float64;
  TotalMarginBalance : float64;
  AvailableBalance : float64;
  AccountLeverage : Z
}.
End Account.

Module Position.
Record t : Type := mk {
  Symbol : string;
  Size : float64;
  Leverage : Z
}.
End Position.

(** The constants of the [exchange] package that [main.go] names; each
    of the three types has other members, which this code never builds. *)
Module Exchange.
Inductive Side : Type := SideSell.
Inductive OrderType : Type := OrderTypeMarket.
Inductive TimeInForce : Type := TimeInForceIOC.
End Exchange.

(** [exchange.OrderRequest], with the fields [closeAllPositionsMarket]
    sets (the others keep their zero value), and [exchange.Order], with
    the fields it logs. *)
Module OrderRequest.
Record t : Type := mk {
  Symbol : string;
  Side : Exchange.Side;
  Type' : Exchange.OrderType;
  TimeInForce : Exchange.TimeInForce;
  Quantity : float64;
  ReduceOnly : bool
}.
End OrderRequest.

Module Order.
Record t : Type := mk {
  OrderID : Z;
  Quantity : float64
}.
End Order.

(** [exchange.IExchange], restricted to the methods called here. A call
    made with the same arguments during one run of a function gets the
    reply stored in the record. *)
Module IExchange.
Record t : Type := mk {
  GetName : string;
  GetQuoteAsset : string;
  GetAccount : Result VenueError Account.t;
  GetPositions : string -> Result VenueError (list Position.t)
}.
End IExchange.

(** ** Exact and floating-point arithmetic

    The fee analysis of [CheckAccountSafety] is written once over the four
    arithmetic operations, and read at two instances: binary64, which is
    what the code computes, and the rationals, which is what the formula
    of the specification means. *)

Class Arith (F : Type) : Type := {
  Fadd : F -> F -> F;
  Fsub : F -> F -> F;
  Fmul : F -> F -> F;
  Fdiv : F -> F -> F
}.

#[export] Instance float64_arith : Arith float64 :=
  {| Fadd := PrimFloat.add; Fsub := PrimFloat.sub;
     Fmul := PrimFloat.mul; Fdiv := PrimFloat.div |}.

#[export] Instance Q_arith : Arith Q :=
  {| Fadd := Qplus; Fsub := Qminus; Fmul := Qmult; Fdiv := Qdiv |}.

Declare Scope arith_scope.
Delimit Scope arith_scope with F.
Infix "+" := Fadd : arith_scope.
Infix "-" := Fsub : arith_scope.
Infix "*" := Fmul : arith_scope.
Infix "/" := Fdiv : arith_scope.

(** ** [safety/safety.go] *)

Module Safety.

(** The values computed by section 6 of [CheckAccountSafety]
    (lines 116-158), under the names the code gives them. *)
Record FeeAnalysis (F : Type) : Type := mkFeeAnalysis {
  buyAmount : F;
  sellAmount : F;
  profitPerTrade : F;
  buyFee : F;
  sellFee : F;
  totalFee : F;
  netProfit : F
}.
Arguments mkFeeAnalysis {F}.
Arguments buyAmount {F}.
Arguments sellAmount {F}.
Arguments profitPerTrade {F}.
Arguments buyFee {F}.
Arguments sellFee {F}.
Arguments totalFee {F}.
Arguments netProfit {F}.

Definition feeAnalysis {F : Type} `{Arith F}
    (currentPrice orderAmount priceInterval feeRate : F) : FeeAnalysis F :=
  let buyFeeRate := feeRate in
  let sellFeeRate := feeRate in
  let buyPrice := currentPrice in
  let sellPrice := (currentPrice + priceInterval)%F in
  let buyQuantity := (orderAmount / buyPrice)%F in
  let sellQuantity := buyQuantity in
  let buyAmount := orderAmount in
  let sellAmount := (sellPrice * sellQuantity)%F in
  let profitPerTrade := (sellAmount - buyAmount)%F in
  let buyFee := (buyAmount * buyFeeRate)%F in
  let sellFee := (sellAmount * sellFeeRate)%F in
  let totalFee := (buyFee + sellFee)%F in
  let netProfit := (profitPerTrade - totalFee)%F in
  mkFeeAnalysis buyAmount sellAmount profitPerTrade buyFee sellFee totalFee
    netProfit.

(** The errors [CheckAccountSafety] returns, one constructor for each
    [fmt.Errorf], with the values its message prints. *)
Inductive SafetyError : Type :=
| ErrGetAccount (cause : VenueError)
| ErrBalance (accountBalance : float64)
| ErrLeverage (leverage maxLeverage : Z)
| ErrCapacity (requiredPositions : Z) (maxPositions : float64)
| ErrNetProfit (netProfit : float64).

(** Go's [error]: [None] is [nil]. *)
Definition error := option SafetyError.

(** [tryGetBinanceLeverage]: the code returns 0 whatever it is given. *)
Definition tryGetBinanceLeverage (ex : IExchange.t) (symbol : string) : Z := 0.

(** Lines 35-50: the loop over the positions stops at the first entry of
    the symbol; it gives the pair [(positionAmt, leverage)]. A failed
    [GetPositions] leaves the defaults [(0, 1)]. *)
Definition scanPositions (r : Result VenueError (list Position.t))
    (symbol : string) : float64 * Z :=
  match r with
  | Err _ => (0%float, 1)
  | Ok positions =>
    match List.find (fun p => String.eqb (Position.Symbol p) symbol) positions with
    | Some p =>
      (Position.Size p,
       if 0 <? Position.Leverage p then Position.Leverage p else 1)
    | None => (0%float, 1)
    end
  end.

(** Lines 52-56: the account leverage replaces a leverage of 1. *)
Definition accountLeverageFallback (leverage : Z) (account : Account.t) : Z :=
  if (leverage =? 1) && (0 <? Account.AccountLeverage account)
  then Account.AccountLeverage account
  else leverage.

(** Lines 69-76. *)
Definition binanceLeverageFallback (ex : IExchange.t) (symbol : string)
    (leverage : Z) : Z :=
  if (leverage =? 1) && String.eqb (IExchange.GetName ex) "Binance"
  then
    let binanceLeverage := tryGetBinanceLeverage ex symbol in
    if 0 <? binanceLeverage then binanceLeverage else leverage
  else leverage.

(** The leverage the checks use (lines 35-76). *)
Definition determinedLeverage (ex : IExchange.t) (symbol : string)
    (account : Account.t) : Z :=
  binanceLeverageFallback ex symbol
    (accountLeverageFallback
       (snd (scanPositions (IExchange.GetPositions ex symbol) symbol)) account).

(** Line 92. *)
Definition maxPositions (accountBalance : float64) (leverage : Z)
    (orderAmount : float64) : float64 :=
  let maxAvailableMargin := (accountBalance * float64_of_int leverage)%float in
  let costPerPosition := orderAmount in
  (maxAvailableMargin / costPerPosition)%float.

Definition CheckAccountSafety (ex : IExchange.t) (symbol : string)
    (currentPrice orderAmount priceInterval feeRate : float64)
    (requiredPositions priceDecimals maxLeverage : Z) : error :=
  match IExchange.GetAccount ex with
  | Err err => Some (ErrGetAccount err)
  | Ok account =>
    let '(positionAmt, leverage) :=
      scanPositions (IExchange.GetPositions ex symbol) symbol in
    let leverage := accountLeverageFallback leverage account in
    if float_neq positionAmt 0 then None
    else
      let accountBalance := Account.AvailableBalance account in
      if (accountBalance <=? 0)%float then Some (ErrBalance accountBalance)
      else
        let leverage := binanceLeverageFallback ex symbol leverage in
        if maxLeverage <? leverage then Some (ErrLeverage leverage maxLeverage)
        else
          let maxPositions := maxPositions accountBalance leverage orderAmount in
          if (maxPositions <? float64_of_int requiredPositions)%float
          then Some (ErrCapacity requiredPositions maxPositions)
          else
            let netProfit :=
              netProfit (feeAnalysis currentPrice orderAmount priceInterval feeRate) in
            if (netProfit <=? 0)%float then Some (ErrNetProfit netProfit)
            else None
  end.

(** [positionAmt] at line 59. *)
Definition positionAmt (ex : IExchange.t) (symbol : string) : float64 :=
  fst (scanPositions (IExchange.GetPositions ex symbol) symbol).

(** *** The specification's reading of the check

    Two definitions that follow the words of the specification, to be
    compared with the code above. *)

(** "the determined leverage (position leverage if positive, else account
    leverage if positive, else 1)". *)
Definition specLeverage (positionLeverage : option Z) (account : Account.t) : Z :=
  match positionLeverage with
  | Some l =>
    if 0 <? l then l
    else if 0 <? Account.AccountLeverage account
         then Account.AccountLeverage account else 1
  | None =>
    if 0 <? Account.AccountLeverage account
    then Account.AccountLeverage account else 1
  end.

(** The leverage field of the position the venue reports for the symbol,
    when it reports one. *)
Definition reportedLeverage (r : Result VenueError (list Position.t))
    (symbol : string) : option Z :=
  match r with
  | Err _ => None
  | Ok positions =>
    option_map Position.Leverage
      (List.find (fun p => String.eqb (Position.Symbol p) symbol) positions)
  end.

(** "(Δ · N/P)": the profit of one cycle at price P, order notional N and
    grid step Δ. *)
Definition referenceProfit {F : Type} `{Arith F}
    (currentPrice orderAmount priceInterval : F) : F :=
  (priceInterval * (orderAmount / currentPrice))%F.

(** "(Δ · N/P) − (buy_fee + sell_fee)" with "buy_fee = N·feeRate" and
    "sell_fee = (P+Δ)·(N/P)·feeRate". *)
Definition referenceNetProfit {F : Type} `{Arith F}
    (currentPrice orderAmount priceInterval feeRate : F) : F :=
  let buy_fee := (orderAmount * feeRate)%F in
  let sell_fee :=
    ((currentPrice + priceInterval) * (orderAmount / currentPrice) * feeRate)%F in
  (referenceProfit currentPrice orderAmount priceInterval - (buy_fee + sell_fee))%F.

(** The reference net profit at the rationals the four [float64]
    arguments stand for. *)
Definition exactReferenceNetProfit
    (currentPrice orderAmount priceInterval feeRate : float64) : option Q :=
  match exact currentPrice, exact orderAmount, exact priceInterval,
        exact feeRate with
  | Some P, Some N, Some D, Some r => Some (referenceNetProfit P N D r)
  | _, _, _, _ => None
  end.

(** The four conditions under which, by the specification, a call that
    sees no position returns [nil]. *)
Definition specSafe (ex : IExchange.t) (symbol : string) (account : Account.t)
    (currentPrice orderAmount priceInterval feeRate : float64)
    (requiredPositions maxLeverage : Z) : bool :=
  let leverage :=
    specLeverage (reportedLeverage (IExchange.GetPositions ex symbol) symbol)
      account in
  let availableBalance := Account.AvailableBalance account in
  (leverage <=? maxLeverage)
  && float_gtb availableBalance 0
  && float_geb (availableBalance * float64_of_int leverage / orderAmount)%float
       (float64_of_int requiredPositions)
  && float_gtb
       (netProfit (feeAnalysis currentPrice orderAmount priceInterval feeRate)) 0.

End Safety.

(** ** The [config] package *)

Module ExchangeConfig.
Record t : Type := mk {
  APIKey : string;
  SecretKey : string;
  Passphrase : string;
  FeeRate : float64
}.
End ExchangeConfig.

Module App.
Record t : Type := mk { CurrentExchange : string }.
End App.

Module TakeProfit.
Record t : Type := mk {
  Enabled : bool;
  TargetProfit : float64;
  CheckInterval : Z;
  BalanceMode : string
}.
End TakeProfit.

Module Trading.
Record t : Type := mk {
  Symbol : string;
  PriceInterval : float64;
  OrderQuantity : float64;
  MinOrderValue : float64;
  BuyWindowSize : Z;
  SellWindowSize : Z;
  ReconcileInterval : Z;
  OrderCleanupThreshold : Z;
  CleanupBatchSize : Z;
  MarginLockDurationSec : Z;
  PositionSafetyCheck : Z;
  MaxLeverage : Z;
  TakeProfit : TakeProfit.t
}.
End Trading.

Module System.
Record t : Type := mk {
  LogLevel : string;
  CancelOnExit : bool
}.
End System.

Module RiskControl.
Record t : Type := mk {
  Enabled : bool;
  MonitorSymbols : list string;
  Interval : string;
  VolumeMultiplier : float64;
  AverageWindow : Z;
  RecoveryThreshold : Z
}.
End RiskControl.

Module Timing.
Record t : Type := mk {
  WebSocketReconnectDelay : Z;
  WebSocketWriteWait : Z;
  WebSocketPongWait : Z;
  WebSocketPingInterval : Z;
  ListenKeyKeepAliveInterval : Z;
  PriceSendInterval : Z;
  RateLimitRetryDelay : Z;
  OrderRetryDelay : Z;
  PricePollInterval : Z;
  StatusPrintInterval : Z;
  OrderCleanupInterval : Z
}.
End Timing.

Module Config.

Record t : Type := mk {
  App : App.t;
  Exchanges : gmap string ExchangeConfig.t;
  Trading : Trading.t;
  System : System.t;
  RiskControl : RiskControl.t;
  Timing : Timing.t
}.

(** The errors of [Validate], one constructor for each [fmt.Errorf]. *)
Inductive ConfigError : Type :=
| ErrNoCurrentExchange
| ErrNoExchanges
| ErrExchangeMissing (name : string)
| ErrAPIIncomplete (name : string)
| ErrNegativeFeeRate (name : string)
| ErrEmptySymbol
| ErrOrderQuantity
| ErrBuyWindowSize
| ErrTargetProfit
| ErrCheckInterval
| ErrBalanceMode.

Definition error := option ConfigError.

(** [if v <= 0 { v = d }] on an [int] field. *)
Definition orDefault (v d : Z) : Z := if v <=? 0 then d else v.

(** Lines 109-141: the checks that return before any field is written. *)
Definition requiredFields (c : t) : error :=
  let name := App.CurrentExchange (App c) in
  if String.eqb name "" then Some ErrNoCurrentExchange
  else if (size (Exchanges c) =? 0)%nat then Some ErrNoExchanges
  else
    match Exchanges c !! name with
    | None => Some (ErrExchangeMissing name)
    | Some exchangeCfg =>
      if String.eqb (ExchangeConfig.APIKey exchangeCfg) ""
         || String.eqb (ExchangeConfig.SecretKey exchangeCfg) ""
      then Some (ErrAPIIncomplete name)
      else if (ExchangeConfig.FeeRate exchangeCfg <? 0)%float
      then Some (ErrNegativeFeeRate name)
      else if String.eqb (Trading.Symbol (Trading c)) "" then Some ErrEmptySymbol
      else if (Trading.OrderQuantity (Trading c) <=? 0)%float
      then Some ErrOrderQuantity
      else if Trading.BuyWindowSize (Trading c) <=? 0 then Some ErrBuyWindowSize
      else None
    end.

(** Lines 142-155: the defaults of the [trading] section. *)
Definition tradingDefaults (tr : Trading.t) : Trading.t :=
  {| Trading.Symbol := Trading.Symbol tr;
     Trading.PriceInterval := Trading.PriceInterval tr;
     Trading.OrderQuantity := Trading.OrderQuantity tr;
     Trading.MinOrderValue :=
       if (Trading.MinOrderValue tr <=? 0)%float then 20%float
       else Trading.MinOrderValue tr;
     Trading.BuyWindowSize := Trading.BuyWindowSize tr;
     Trading.SellWindowSize :=
       orDefault (Trading.SellWindowSize tr) (Trading.BuyWindowSize tr);
     Trading.ReconcileInterval := Trading.ReconcileInterval tr;
     Trading.OrderCleanupThreshold := Trading.OrderCleanupThreshold tr;
     Trading.CleanupBatchSize := orDefault (Trading.CleanupBatchSize tr) 10;
     Trading.MarginLockDurationSec := Trading.MarginLockDurationSec tr;
     Trading.PositionSafetyCheck := Trading.PositionSafetyCheck tr;
     Trading.MaxLeverage := orDefault (Trading.MaxLeverage tr) 10;
     Trading.TakeProfit := Trading.TakeProfit tr |}.

(** Lines 157-190: the defaults of the [timing] section. *)
Definition timingDefaults (tm : Timing.t) : Timing.t :=
  {| Timing.WebSocketReconnectDelay :=
       orDefault (Timing.WebSocketReconnectDelay tm) 5;
     Timing.WebSocketWriteWait := orDefault (Timing.WebSocketWriteWait tm) 10;
     Timing.WebSocketPongWait := orDefault (Timing.WebSocketPongWait tm) 60;
     Timing.WebSocketPingInterval :=
       orDefault (Timing.WebSocketPingInterval tm) 20;
     Timing.ListenKeyKeepAliveInterval :=
       orDefault (Timing.ListenKeyKeepAliveInterval tm) 30;
     Timing.PriceSendInterval := orDefault (Timing.PriceSendInterval tm) 50;
     Timing.RateLimitRetryDelay := orDefault (Timing.RateLimitRetryDelay tm) 1;
     Timing.OrderRetryDelay := orDefault (Timing.OrderRetryDelay tm) 500;
     Timing.PricePollInterval := orDefault (Timing.PricePollInterval tm) 500;
     Timing.StatusPrintInterval := orDefault (Timing.StatusPrintInterval tm) 1;
     Timing.OrderCleanupInterval :=
       orDefault (Timing.OrderCleanupInterval tm) 60 |}.

(** Line 203. *)
Definition defaultMonitorSymbols : list string :=
  ["BTCUSDT"; "ETHUSDT"; "SOLUSDT"; "XRPUSDT"; "DOGEUSDT"].

(** Lines 206-214, with [monitorCount] the length of the list after its
    default was applied. *)
Definition recoveryThreshold (RecoveryThreshold monitorCount : Z) : Z :=
  if RecoveryThreshold <=? 0 then 3
  else if RecoveryThreshold <? 1 then 1
  else if monitorCount <? RecoveryThreshold then monitorCount
  else RecoveryThreshold.

(** Lines 192-214: the defaults of the [risk_control] section. *)
Definition riskControlDefaults (rc : RiskControl.t) : RiskControl.t :=
  let MonitorSymbols :=
    if (length (RiskControl.MonitorSymbols rc) =? 0)%nat
    then defaultMonitorSymbols else RiskControl.MonitorSymbols rc in
  let monitorCount := Z.of_nat (length MonitorSymbols) in
  {| RiskControl.Enabled := RiskControl.Enabled rc;
     RiskControl.MonitorSymbols := MonitorSymbols;
     RiskControl.Interval :=
       if String.eqb (RiskControl.Interval rc) "" then "1m"
       else RiskControl.Interval rc;
     RiskControl.VolumeMultiplier :=
       if (RiskControl.VolumeMultiplier rc <=? 0)%float then 3%float
       else RiskControl.VolumeMultiplier rc;
     RiskControl.AverageWindow := orDefault (RiskControl.AverageWindow rc) 20;
     RiskControl.RecoveryThreshold :=
       recoveryThreshold (RiskControl.RecoveryThreshold rc) monitorCount |}.

(** Lines 218-226: the three tests of the [take_profit] section. *)
Definition takeProfitError (tp : TakeProfit.t) : error :=
  if (TakeProfit.TargetProfit tp <=? 0)%float then Some ErrTargetProfit
  else if (TakeProfit.CheckInterval tp <? 10)
          || (300 <? TakeProfit.CheckInterval tp)
  then Some ErrCheckInterval
  else if negb (String.eqb (TakeProfit.BalanceMode tp) "auto")
          && negb (String.eqb (TakeProfit.BalanceMode tp) "precise")
  then Some ErrBalanceMode
  else None.

(** Lines 228-234: the defaults written after the three tests passed. *)
Definition takeProfitDefaults (tp : TakeProfit.t) : TakeProfit.t :=
  {| TakeProfit.Enabled := TakeProfit.Enabled tp;
     TakeProfit.TargetProfit := TakeProfit.TargetProfit tp;
     TakeProfit.CheckInterval := orDefault (TakeProfit.CheckInterval tp) 30;
     TakeProfit.BalanceMode :=
       if String.eqb (TakeProfit.BalanceMode tp) "" then "auto"
       else TakeProfit.BalanceMode tp |}.

Definition withTakeProfit (tr : Trading.t) (tp : TakeProfit.t) : Trading.t :=
  {| Trading.Symbol := Trading.Symbol tr;
     Trading.PriceInterval := Trading.PriceInterval tr;
     Trading.OrderQuantity := Trading.OrderQuantity tr;
     Trading.MinOrderValue := Trading.MinOrderValue tr;
     Trading.BuyWindowSize := Trading.BuyWindowSize tr;
     Trading.SellWindowSize := Trading.SellWindowSize tr;
     Trading.ReconcileInterval := Trading.ReconcileInterval tr;
     Trading.OrderCleanupThreshold := Trading.OrderCleanupThreshold tr;
     Trading.CleanupBatchSize := Trading.CleanupBatchSize tr;
     Trading.MarginLockDurationSec := Trading.MarginLockDurationSec tr;
     Trading.PositionSafetyCheck := Trading.PositionSafetyCheck tr;
     Trading.MaxLeverage := Trading.MaxLeverage tr;
     Trading.TakeProfit := tp |}.

(** [func (c *Config) Validate() error]. The method writes defaults into
    the receiver; the model returns the receiver as the call leaves it
    together with the error. An error of [requiredFields] comes before any
    write; an error of the [take_profit] section comes after the defaults
    of the other sections were written. *)
Definition Validate (c : t) : t * error :=
  match requiredFields c with
  | Some err => (c, Some err)
  | None =>
    let c :=
      {| App := App c;
         Exchanges := Exchanges c;
         Trading := tradingDefaults (Trading c);
         System := System c;
         RiskControl := riskControlDefaults (RiskControl c);
         Timing := timingDefaults (Timing c) |} in
    let tp := Trading.TakeProfit (Trading c) in
    if TakeProfit.Enabled tp then
      match takeProfitError tp with
      | Some err => (c, Some err)
      | None =>
        ({| App := App c;
            Exchanges := Exchanges c;
            Trading := withTakeProfit (Trading c) (takeProfitDefaults tp);
            System := System c;
            RiskControl := RiskControl c;
            Timing := Timing c |}, None)
      end
    else (c, None)
  end.

(** The errors of [LoadConfig] (lines 89-105), one for each step that can
    fail, with the error it wraps. *)
Inductive LoadError : Type :=
| ErrReadFile (cause : string)
| ErrUnmarshal (cause : string)
| ErrValidate (cause : ConfigError).

Section Load.

(** [yaml.Unmarshal(data, &cfg)] on a zero [Config]: the configuration
    the text describes, or the error of the parser. *)
Variable Unmarshal : string -> Result string t.

(** [LoadConfig], given what [os.ReadFile(configPath)] returns. The
    configuration handed to the caller is the one [Validate] has written
    its defaults into. *)
Definition LoadConfig (ReadFile : Result string string) : Result LoadError t :=
  match ReadFile with
  | Err err => Err (ErrReadFile err)
  | Ok data =>
    match Unmarshal data with
    | Err err => Err (ErrUnmarshal err)
    | Ok cfg =>
      match Validate cfg with
      | (_, Some err) => Err (ErrValidate err)
      | (cfg, None) => Ok cfg
      end
    end
  end.

End Load.

(** *** The specification's reading of the two sections *)

(** The number of monitored symbols after validation. *)
Definition monitorCount (c : Config.t) : Z :=
  Z.of_nat (length (RiskControl.MonitorSymbols (RiskControl c))).

(** "Defaults apply for unset numeric fields": the fields [Validate] has
    a default for hold a usable value. *)
Definition defaultsApplied (c : t) : Prop :=
  let tr := Trading c in
  let rc := RiskControl c in
  let tm := Timing c in
  (0 < Trading.BuyWindowSize tr /\ 0 < Trading.SellWindowSize tr /\
   0 < Trading.CleanupBatchSize tr /\ 0 < Trading.MaxLeverage tr /\
   (Trading.MinOrderValue tr <=? 0)%float = false) /\
  (RiskControl.MonitorSymbols rc <> [] /\ RiskControl.Interval rc <> "" /\
   (RiskControl.VolumeMultiplier rc <=? 0)%float = false /\
   0 < RiskControl.AverageWindow rc /\ 0 < RiskControl.RecoveryThreshold rc) /\
  (0 < Timing.WebSocketReconnectDelay tm /\ 0 < Timing.WebSocketWriteWait tm /\
   0 < Timing.WebSocketPongWait tm /\ 0 < Timing.WebSocketPingInterval tm /\
   0 < Timing.ListenKeyKeepAliveInterval tm /\ 0 < Timing.PriceSendInterval tm /\
   0 < Timing.RateLimitRetryDelay tm /\ 0 < Timing.OrderRetryDelay tm /\
   0 < Timing.PricePollInterval tm /\ 0 < Timing.StatusPrintInterval tm /\
   0 < Timing.OrderCleanupInterval tm).

(** "target_profit <= 0, or check_interval is outside [10, 300], or
    balance_mode is neither auto nor precise". *)
Definition takeProfitRejected (tp : TakeProfit.t) : Prop :=
  (TakeProfit.TargetProfit tp <=? 0)%float = true \/
  ~ (10 <= TakeProfit.CheckInterval tp <= 300) \/
  (TakeProfit.BalanceMode tp <> "auto" /\ TakeProfit.BalanceMode tp <> "precise").

(** What the checks of lines 109-141 ask of a file: the exchange named
    by [app.current_exchange] is configured with an API key, a secret key
    and a fee rate that is not negative, and the file names a symbol, an
    order quantity that is not [<= 0] and a positive buy window. *)
Definition requiredFieldsPresent (c : t) : Prop :=
  let name := App.CurrentExchange (App c) in
  name <> "" /\
  (exists exchangeCfg,
     Exchanges c !! name = Some exchangeCfg /\
     ExchangeConfig.APIKey exchangeCfg <> "" /\
     ExchangeConfig.SecretKey exchangeCfg <> "" /\
     (ExchangeConfig.FeeRate exchangeCfg <? 0)%float = false) /\
  Trading.Symbol (Trading c) <> "" /\
  (Trading.OrderQuantity (Trading c) <=? 0)%float = false /\
  0 < Trading.BuyWindowSize (Trading c).

End Config.

(** ** The take-profit monitor of the [safety] package *)

(** The outcome of a Go call that may panic. *)
Inductive Run (A : Type) : Type :=
| Returns (a : A)
| Panics.
Arguments Returns {A} a.
Arguments Panics {A}.

(** ** The [time] package, as the tickers use it

    A [time.Duration] is an [int64] count of nanoseconds, and Go's [int]
    is 64 bits wide on the platforms the program is built for: the
    conversion [time.Duration(n)] keeps the value, and the product of two
    durations wraps around. [time.NewTicker] panics on a period that is
    not positive. *)

Module Time.

(** The value of an integer in two's complement on 64 bits. *)
Definition wrap64 (z : Z) : Z := (z + 2 ^ 63) mod 2 ^ 64 - 2 ^ 63.

Definition Duration (n : Z) : Z := wrap64 n.

Definition Millisecond : Z := 1000000.
Definition Second : Z := 1000000000.
Definition Minute : Z := 60000000000.

(** [d * e] on two durations. *)
Definition mul (d e : Z) : Z := wrap64 (d * e).

(** [time.NewTicker(d)]: the ticker, known by its period. *)
Definition NewTicker (d : Z) : Run Z :=
  if d <=? 0 then Panics else Returns d.

End Time.

Module TakeProfitMonitor.

(** The struct. An [atomic.Value] holds nothing until the first [Store];
    [Load().(float64)] on an empty one panics. The [exchange] field is the
    venue; its reply to each [GetAccount] is an argument of the method
    that asks. *)
Record t : Type := mk {
  cfg : Config.t;
  initialBalance : option float64;
  lastBalance : option float64;
  triggered : bool;
  isBalanceSet : bool
}.

Definition NewTakeProfitMonitor (cfg : Config.t) : t :=
  {| cfg := cfg; initialBalance := None; lastBalance := None;
     triggered := false; isBalanceSet := false |}.

(** [t.cfg.Trading.TakeProfit.Enabled], [.TargetProfit] and
    [.BalanceMode]. *)
Definition Enabled (m : t) : bool :=
  TakeProfit.Enabled (Trading.TakeProfit (Config.Trading (cfg m))).

Definition TargetProfit (m : t) : float64 :=
  TakeProfit.TargetProfit (Trading.TakeProfit (Config.Trading (cfg m))).

Definition BalanceMode (m : t) : string :=
  TakeProfit.BalanceMode (Trading.TakeProfit (Config.Trading (cfg m))).

Definition getEffectiveBalance (m : t) (account : Account.t) : float64 :=
  let balance := Account.TotalMarginBalance account in
  if float_gtb balance 0 then balance
  else if float_gtb (Account.TotalWalletBalance account) 0
       then Account.TotalWalletBalance account
       else Account.AvailableBalance account.

Inductive BalanceError : Type :=
| ErrInitialBalance (cause : VenueError)
| ErrInvalidBalance (balance : float64).

(** [SetInitialBalance], given the venue's reply to [GetAccount]. *)
Definition SetInitialBalance (m : t) (reply : Result VenueError Account.t)
    : t * option BalanceError :=
  match reply with
  | Err err => (m, Some (ErrInitialBalance err))
  | Ok account =>
    let balance := getEffectiveBalance m account in
    if (balance <=? 0)%float then (m, Some (ErrInvalidBalance balance))
    else
      ({| cfg := cfg m; initialBalance := Some balance;
          lastBalance := Some balance; triggered := triggered m;
          isBalanceSet := true |}, None)
  end.

(** [checkProfitAndTrigger], given the reply the venue has for the
    [GetAccount] of line 94; the call is not made when the monitor has
    already triggered. It returns the boolean and the monitor as the call
    leaves it. *)
Definition checkProfitAndTrigger (m : t) (reply : Result VenueError Account.t)
    : Run (bool * t) :=
  if triggered m then Returns (false, m)
  else
    match reply with
    | Err _ => Returns (false, m)
    | Ok account =>
      let currentBalance := getEffectiveBalance m account in
      let m := {| cfg := cfg m; initialBalance := initialBalance m;
                  lastBalance := Some currentBalance;
                  triggered := triggered m;
                  isBalanceSet := isBalanceSet m |} in
      match initialBalance m with
      | None => Panics
      | Some initialBalance =>
        let totalProfit := (currentBalance - initialBalance)%float in
        if float_geb totalProfit (TargetProfit m) then
          Returns (true,
                   {| cfg := cfg m; initialBalance := TakeProfitMonitor.initialBalance m;
                      lastBalance := lastBalance m; triggered := true;
                      isBalanceSet := isBalanceSet m |})
        else Returns (false, m)
      end
    end.

(** What the [select] of [Start] receives: the context is cancelled, or
    the ticker fires and the venue has the given reply for the account. *)
Inductive Event : Type :=
| CtxDone
| Tick (reply : Result VenueError Account.t).

Inductive Status : Type :=
| Returned     (* [Start] has returned *)
| Waiting      (* [Start] is blocked in its [select] *)
| Panicked.

(** A run of [Start] over the events it receives: the monitor as the run
    leaves it, how many times [onTrigger] was called, where the run
    stands, and the events it has not received. *)
Record StartRun : Type := mkRun {
  monitor : t;
  onTriggerCalls : nat;
  status : Status;
  unreceived : list Event
}.

(** The [for { select { ... } }] of lines 67-83. *)
Fixpoint loop (m : t) (events : list Event) : StartRun :=
  match events with
  | [] => mkRun m 0 Waiting []
  | CtxDone :: rest => mkRun m 0 Returned rest
  | Tick reply :: rest =>
    if negb (isBalanceSet m) then loop m rest
    else
      match checkProfitAndTrigger m reply with
      | Panics => mkRun m 0 Panicked rest
      | Returns (true, m') => mkRun m' 1 Returned rest
      | Returns (false, m') => loop m' rest
      end
  end.

(** [Start], for a call whose ticker was created: it returns at once
    when take-profit is not enabled, and runs the loop over the events
    otherwise; the period of the ticker is the time between two [Tick]
    events. The creation of the ticker (lines 56-65), on which
    [time.NewTicker] can panic, is [ticker] below, and the call with it
    [StartWithTicker]. *)
Definition Start (m : t) (events : list Event) : StartRun :=
  if negb (Enabled m)
  then mkRun m 0 Returned events
  else loop m events.

(** Several calls of [Start] on the same monitor, one after the other,
    each with the events it receives: the monitor at the end and the
    total number of calls of [onTrigger]. *)
Fixpoint Starts (m : t) (runs : list (list Event)) : t * nat :=
  match runs with
  | [] => (m, 0%nat)
  | events :: runs =>
    let r := Start m events in
    let '(m', n) := Starts (monitor r) runs in
    (m', (onTriggerCalls r + n)%nat)
  end.

(** The monitors a program reaches through the constructor and the two
    exported methods that write to a monitor. *)
Inductive Reachable : t -> Prop :=
| Reachable_new (cfg : Config.t) : Reachable (NewTakeProfitMonitor cfg)
| Reachable_SetInitialBalance (m : t) (reply : Result VenueError Account.t) :
    Reachable m -> Reachable (fst (SetInitialBalance m reply))
| Reachable_Start (m : t) (events : list Event) :
    Reachable m -> Reachable (monitor (Start m events)).

Definition panicked (s : Status) : bool :=
  match s with Panicked => true | Returned | Waiting => false end.

(** The condition under which a check fires: the monitor has not
    triggered, the account was fetched, and the profit has reached the
    target. *)
Definition fires (m : t) (initial : float64)
    (reply : Result VenueError Account.t) : Prop :=
  triggered m = false /\
  exists account, reply = Ok account /\
    float_geb (getEffectiveBalance m account - initial)%float (TargetProfit m)
    = true.

(** Lines 56-64 of [Start]: the ticker the loop waits on, which [Start]
    creates once it has found take-profit enabled. *)
Definition ticker (m : t) : Run Z :=
  let checkInterval :=
    TakeProfit.CheckInterval (Trading.TakeProfit (Config.Trading (cfg m))) in
  let checkInterval := if checkInterval <=? 0 then 30 else checkInterval in
  Time.NewTicker (Time.mul (Time.Duration checkInterval) Time.Second).

(** [Start] with the creation of its ticker: a panic of [time.NewTicker]
    ends the call before the loop is entered, with no event received and
    the monitor as it was. *)
Definition StartWithTicker (m : t) (events : list Event) : StartRun :=
  if negb (Enabled m)
  then mkRun m 0 Returned events
  else
    match ticker m with
    | Panics => mkRun m 0 Panicked events
    | Returns _ => loop m events
    end.

Definition IsTriggered (m : t) : bool := triggered m.

(** [GetCurrentProfit]: the two type assertions panic on an
    [atomic.Value] nothing was stored in. *)
Definition GetCurrentProfit (m : t) : Run (float64 * float64 * float64) :=
  match initialBalance m with
  | None => Panics
  | Some initialBalance =>
    match lastBalance m with
    | None => Panics
    | Some currentBalance =>
      let profit := (currentBalance - initialBalance)%float in
      Returns (initialBalance, currentBalance, profit)
    end
  end.

(** The calls of a program that write to a monitor, and a sequence of
    them, one after the other: the monitor at the end and the number of
    calls of [onTrigger]. *)
Inductive Use : Type :=
| UseSetInitialBalance (reply : Result VenueError Account.t)
| UseStart (events : list Event).

Fixpoint uses (m : t) (calls : list Use) : t * nat :=
  match calls with
  | [] => (m, 0%nat)
  | UseSetInitialBalance reply :: calls =>
    uses (fst (SetInitialBalance m reply)) calls
  | UseStart events :: calls =>
    let r := Start m events in
    let '(m', n) := uses (monitor r) calls in
    (m', (onTriggerCalls r + n)%nat)
  end.

(** The effective balance of the last account the venue sent in reply to
    a tick among [events], or [previous] when no tick got one. *)
Fixpoint lastFetched (m : t) (events : list Event)
    (previous : option float64) : option float64 :=
  match events with
  | [] => previous
  | Tick (Ok account) :: events =>
    lastFetched m events (Some (getEffectiveBalance m account))
  | _ :: events => lastFetched m events previous
  end.

End TakeProfitMonitor.

(** ** The [logger] package *)

Module Logger.

(** *** [ParseLogLevel] *)

Inductive LogLevel : Type := DEBUG | INFO | WARN | ERROR | FATAL.

(** [func (l LogLevel) String() string]. *)
Definition LogLevel_String (l : LogLevel) : string :=
  match l with
  | DEBUG => "DEBUG"
  | INFO => "INFO"
  | WARN => "WARN"
  | ERROR => "ERROR"
  | FATAL => "FATAL"
  end.

Section Parse.

(** [strings.TrimSpace] and [strings.ToUpper] of Go's standard library. *)
Variables TrimSpace ToUpper : string -> string.

Definition ParseLogLevel (level : string) : LogLevel :=
  let level := ToUpper (TrimSpace level) in
  if String.eqb level "DEBUG" then DEBUG
  else if String.eqb level "INFO" then INFO
  else if String.eqb level "WARN" || String.eqb level "WARNING" then WARN
  else if String.eqb level "ERROR" then ERROR
  else if String.eqb level "FATAL" then FATAL
  else INFO.

End Parse.


(** *** The two library functions on ASCII text

    On a string of ASCII bytes, [strings.ToUpper] maps the bytes [a]-[z]
    to [A]-[Z] and keeps the others, and [strings.TrimSpace] removes the
    leading and trailing bytes among tab, line feed, vertical tab, form
    feed, carriage return and space. On other text the two functions of
    Go do more ([ToUpper] takes U+0131 to [I], [TrimSpace] removes
    U+00A0): the functions below stand for them on ASCII strings only. *)


Definition isLowerByte (c : ascii) : bool :=
  (97 <=? nat_of_ascii c)%nat && (nat_of_ascii c <=? 122)%nat.

Definition toUpperByte (c : ascii) : ascii :=
  if isLowerByte c then ascii_of_nat (nat_of_ascii c - 32) else c.

Fixpoint asciiToUpper (s : string) : string :=
  match s with
  | EmptyString => EmptyString
  | String c s => String (toUpperByte c) (asciiToUpper s)
  end.

Definition isSpaceByte (c : ascii) : bool :=
  ((9 <=? nat_of_ascii c)%nat && (nat_of_ascii c <=? 13)%nat)
  || (nat_of_ascii c =? 32)%nat.

Fixpoint trimLeft (s : string) : string :=
  match s with
  | EmptyString => EmptyString
  | String c s' => if isSpaceByte c then trimLeft s' else s
  end.

Fixpoint trimRight (s : string) : string :=
  match s with
  | EmptyString => EmptyString
  | String c s' =>
    match trimRight s' with
    | EmptyString => if isSpaceByte c then EmptyString else String c EmptyString
    | r => String c r
    end
  end.

Definition asciiTrimSpace (s : string) : string := trimRight (trimLeft s).

(** Equality of two ASCII strings up to the case of their letters: same
    length, and byte by byte the same letter in either case, or the same
    byte. *)
Definition eqFoldByte (c d : ascii) : bool :=
  Ascii.eqb c d
  || (isLowerByte c && Ascii.eqb (toUpperByte c) d)
  || (isLowerByte d && Ascii.eqb c (toUpperByte d)).

Fixpoint EqualFold (s t : string) : bool :=
  match s, t with
  | EmptyString, EmptyString => true
  | String c s, String d t => eqFoldByte c d && EqualFold s t
  | _, _ => false
  end.

(** *** The level and the log file

    The package keeps its state in the variables [globalLevel],
    [fileLogger], [logFile] and [currentDate]. The functions below are
    the bodies the package runs under its locks [mu] and [fileMu], for
    calls made one after the other. What a call does to the outside is
    recorded, oldest first, next to the variables. *)

(** The integer a level is ([DEBUG LogLevel = iota]). *)
Definition LogLevel_int (l : LogLevel) : Z :=
  match l with
  | DEBUG => 0
  | INFO => 1
  | WARN => 2
  | ERROR => 3
  | FATAL => 4
  end.

(** An [*os.File] that [os.OpenFile] returned: the path it was opened
    at, and how many files the package had opened before it. *)
Record File : Type := mkFile {
  fileName : string;
  fileNumber : nat
}.

(** A line on the standard logger of the [log] package: a message of
    [logf], or one of the three notices of [initFileLogger]. *)
Inductive ConsoleLine : Type :=
| Message (message : string)
| WarnMkdirAll
| WarnOpenFile
| InfoFileLogging (logFileName : string).

Inductive Effect : Type :=
| Console (line : ConsoleLine)
| MkdirAll (ok : bool)
| OpenFile (name : string) (file : option File)
| FileClose (file : File)
| FilePrintf (file : File) (line : string).

(** [fileLogger] is known by the file it writes to. *)
Record State : Type := mkState {
  globalLevel : LogLevel;
  fileLogger : option File;
  logFile : option File;
  currentDate : string;
  effects : list Effect
}.

(** The variables as the package declares them. *)
Definition initial : State :=
  {| globalLevel := INFO; fileLogger := None; logFile := None;
     currentDate := ""; effects := [] |}.

(** What a call finds outside: [time.Now()] formatted as "2006-01-02"
    and as "2006/01/02 15:04:05", and whether [os.MkdirAll] and
    [os.OpenFile] succeed if the call gets to them. *)
Record Env : Type := mkEnv {
  today : string;
  clock : string;
  mkdirOk : bool;
  openOk : bool
}.

Definition does (s : State) (es : list Effect) : State :=
  {| globalLevel := globalLevel s; fileLogger := fileLogger s;
     logFile := logFile s; currentDate := currentDate s;
     effects := (effects s ++ es)%list |}.

(** The number of files opened so far. *)
Definition opened (es : list Effect) : nat :=
  length (List.filter
            (fun e => match e with OpenFile _ (Some _) => true | _ => false end)
            es).

(** [filepath.Join(logDir, fmt.Sprintf("opensqt-%s.log", today))] with
    [logDir = "log"]. *)
Definition logFileName (today : string) : string :=
  "log/opensqt-" ++ today ++ ".log".

(** [if logFile != nil { logFile.Close(); logFile = nil }]. *)
Definition closeOld (s : State) : State :=
  match logFile s with
  | Some file =>
    {| globalLevel := globalLevel s; fileLogger := fileLogger s;
       logFile := None; currentDate := currentDate s;
       effects := (effects s ++ [FileClose file])%list |}
  | None => s
  end.

(** The three assignments that end [initFileLogger] and
    [checkAndRotateLog]. *)
Definition useFile (s : State) (file : File) (today : string)
    (es : list Effect) : State :=
  {| globalLevel := globalLevel s; fileLogger := Some file;
     logFile := Some file; currentDate := today;
     effects := (effects s ++ es)%list |}.

Definition initFileLogger (e : Env) (s : State) : State :=
  if (match fileLogger s with Some _ => true | None => false end)
     && String.eqb (currentDate s) (today e)
  then s
  else
    let s := closeOld s in
    if negb (mkdirOk e) then does s [MkdirAll false; Console WarnMkdirAll]
    else
      let logFileName := logFileName (today e) in
      if negb (openOk e)
      then does s [MkdirAll true; OpenFile logFileName None; Console WarnOpenFile]
      else
        let file := mkFile logFileName (opened (effects s)) in
        useFile s file (today e)
          [MkdirAll true; OpenFile logFileName (Some file);
           Console (InfoFileLogging logFileName)].

Definition closeFileLogger (s : State) : State :=
  match logFile s with
  | Some file =>
    {| globalLevel := globalLevel s; fileLogger := None; logFile := None;
       currentDate := ""; effects := (effects s ++ [FileClose file])%list |}
  | None => s
  end.

Definition checkAndRotateLog (e : Env) (s : State) : State :=
  if negb (String.eqb (currentDate s) (today e)) then
    let s := closeOld s in
    if negb (mkdirOk e) then does s [MkdirAll false]
    else
      let logFileName := logFileName (today e) in
      if negb (openOk e) then does s [MkdirAll true; OpenFile logFileName None]
      else
        let file := mkFile logFileName (opened (effects s)) in
        useFile s file (today e) [MkdirAll true; OpenFile logFileName (Some file)]
  else s.

Definition SetLevel (e : Env) (level : LogLevel) (s : State) : State :=
  let s :=
    {| globalLevel := level; fileLogger := fileLogger s; logFile := logFile s;
       currentDate := currentDate s; effects := effects s |} in
  match level with
  | DEBUG => initFileLogger e s
  | _ => closeFileLogger s
  end.

Definition Close (s : State) : State := closeFileLogger s.

Definition GetLevel (s : State) : LogLevel := globalLevel s.

Definition shouldLog (level : LogLevel) (s : State) : bool :=
  LogLevel_int (globalLevel s) <=? LogLevel_int level.

(** [logf(level, format, args...)], with [text] the formatted
    [format]. The prefix holds no verb, so the message is the prefix
    followed by [text]. [Debug], [Info], [Warn], [Error] and [Fatal] are
    [logf] at their level, [Fatal] leaving the program after the call;
    [logln] and its wrappers differ from them in the text of the line
    only. *)
Definition logf (e : Env) (level : LogLevel) (text : string) (s : State)
    : State :=
  if negb (shouldLog level s) then s
  else
    let prefix := "[" ++ LogLevel_String level ++ "] " in
    let message := prefix ++ text in
    let s := does s [Console (Message message)] in
    match globalLevel s with
    | DEBUG =>
      let s := checkAndRotateLog e s in
      match fileLogger s with
      | Some file => does s [FilePrintf file (clock e ++ " " ++ message)]
      | None => s
      end
    | _ => s
    end.

(** The exported functions a program calls, and a program as the calls it
    makes, each with what it finds outside. *)
Inductive Call : Type :=
| CallSetLevel (level : LogLevel)
| CallLog (level : LogLevel) (text : string)
| CallClose.

Definition call (s : State) (c : Env * Call) : State :=
  match c with
  | (e, CallSetLevel level) => SetLevel e level s
  | (e, CallLog level text) => logf e level text s
  | (_, CallClose) => Close s
  end.

Definition run (calls : list (Env * Call)) : State :=
  fold_left call calls initial.

(** *** Reading a record of effects *)

Definition File_eqb (f g : File) : bool :=
  String.eqb (fileName f) (fileName g) && (fileNumber f =? fileNumber g)%nat.

(** The files open after an effect, from those open before it. *)
Definition openAfter (open : list File) (ef : Effect) : list File :=
  match ef with
  | OpenFile _ (Some file) => file :: open
  | FileClose file => List.filter (fun g => negb (File_eqb file g)) open
  | _ => open
  end.

Definition openFiles (es : list Effect) : list File :=
  fold_left openAfter es [].

(** A record is orderly when every [Close] is of a file that is open,
    and every file is opened at the path asked for, while no other file
    is open, and is numbered by the files opened before it. *)
Fixpoint orderlyFrom (open : list File) (next : nat) (es : list Effect) : bool :=
  match es with
  | [] => true
  | ef :: es =>
    match ef with
    | FileClose file => existsb (File_eqb file) open
    | OpenFile name (Some file) =>
      match open with [] => true | _ => false end
      && String.eqb (fileName file) name
      && (fileNumber file =? next)%nat
    | _ => true
    end
    && orderlyFrom (openAfter open ef)
         (match ef with OpenFile _ (Some _) => S next | _ => next end) es
  end.

Definition orderly (es : list Effect) : bool := orderlyFrom [] 0 es.

(** The lines written to files that were not open when written. *)
Fixpoint lostFrom (open : list File) (es : list Effect) : list string :=
  match es with
  | [] => []
  | ef :: es =>
    match ef with
    | FilePrintf file line =>
      if existsb (File_eqb file) open then [] else [line]
    | _ => []
    end ++ lostFrom (openAfter open ef) es
  end.

Definition lost (es : list Effect) : list string := lostFrom [] es.

(** The variables agree with the record: the record is orderly, the
    file it leaves open is [logFile] and no other, and a file is open
    only at the level DEBUG, with [fileLogger] writing to it and its path
    that of [currentDate]. *)
Definition consistent (s : State) : Prop :=
  orderly (effects s) = true /\
  openFiles (effects s)
  = match logFile s with Some file => [file] | None => [] end /\
  (forall file, logFile s = Some file ->
     globalLevel s = DEBUG /\ fileLogger s = Some file /\
     fileName file = logFileName (currentDate s)).

(** [fileLogger] writes to the open file when there is one and is [nil]
    otherwise, [currentDate] is empty when no file is open, and no line
    was written to a file that was not open. *)
Definition healthy (s : State) : Prop :=
  fileLogger s = logFile s /\
  (logFile s = None -> currentDate s = "") /\
  lost (effects s) = [].

(** A call finds nothing failing outside, and a date to name the file
    by. *)
Definition succeeds (e : Env) : Prop :=
  mkdirOk e = true /\ openOk e = true /\ today e <> "".

End Logger.

(** ** [main.go] *)

Module Main.

(** *** The price-event goroutine (lines 299-329) *)

(** The event received from [priceMonitor.Subscribe()]; the loop reads its
    [NewPrice] only. *)
Record PriceChange : Type := mkPriceChange {
  OldPrice : float64;
  NewPrice : float64
}.

(** The calls the loop makes on the position manager. *)
Inductive Call : Type :=
| CancelAllBuyOrders
| AdjustOrders (price : float64).

(** One iteration of the [for priceChange := range priceCh] body, given
    the value [riskMonitor.IsTriggered()] returns at line 305: the new
    value of [lastTriggered] and the calls made, in order. An error
    returned by [AdjustOrders] is logged and changes nothing. *)
Definition iteration (lastTriggered : bool) (priceChange : PriceChange)
    (isTriggered : bool) : bool * list Call :=
  if isTriggered then
    if negb lastTriggered
    then (true, [CancelAllBuyOrders])
    else (lastTriggered, [])
  else
    let lastTriggered := if lastTriggered then false else lastTriggered in
    (lastTriggered, [AdjustOrders (NewPrice priceChange)]).

(** The loop over the events the channel delivers before it is closed,
    each with the risk monitor's answer at that event: the calls made at
    each event. *)
Fixpoint priceLoop (lastTriggered : bool)
    (events : list (PriceChange * bool)) : list (list Call) :=
  match events with
  | [] => []
  | (priceChange, isTriggered) :: events =>
    let '(lastTriggered, calls) :=
      iteration lastTriggered priceChange isTriggered in
    calls :: priceLoop lastTriggered events
  end.

(** The goroutine: [var lastTriggered bool] starts false. *)
Definition priceEventLoop (events : list (PriceChange * bool))
    : list (list Call) :=
  priceLoop false events.

(** The risk monitor's answer at event [i]. *)
Definition triggeredAt (events : list (PriceChange * bool)) (i : nat) : bool :=
  match nth_error events i with
  | Some (_, isTriggered) => isTriggered
  | None => false
  end.

(** A rising edge at event [i]: triggered there, and untriggered at the
    event before (or [i] is the first event). *)
Definition risingEdge (events : list (PriceChange * bool)) (i : nat) : bool :=
  triggeredAt events i
  && match i with
     | O => true
     | S j => negb (triggeredAt events j)
     end.

(** The two kinds of call. *)
Definition isCancel (c : Call) : bool :=
  match c with CancelAllBuyOrders => true | AdjustOrders _ => false end.

Definition isAdjust (c : Call) : bool :=
  match c with CancelAllBuyOrders => false | AdjustOrders _ => true end.

(** [lastTriggered] when event [i] is received. *)
Definition lastTriggeredAt (initial : bool) (events : list (PriceChange * bool))
    (i : nat) : bool :=
  match i with
  | O => initial
  | S j => triggeredAt events j
  end.

(** The number of rising edges in a sequence of answers that follows the
    answer [previous]. *)
Fixpoint risingEdges (previous : bool) (events : list (PriceChange * bool)) : nat :=
  match events with
  | [] => 0
  | (_, isTriggered) :: events =>
    ((if isTriggered && negb previous then 1 else 0)
     + risingEdges isTriggered events)%nat
  end.

(** The prices handed to [AdjustOrders] by a sequence of calls, in
    order. *)
Definition adjustedPrices (calls : list Call) : list float64 :=
  flat_map (fun c => match c with
                     | AdjustOrders price => [price]
                     | CancelAllBuyOrders => []
                     end) calls.

(** *** Startup: the first price (lines 71-87) *)

(** A step of [main] either lets the program go on, or ends it in
    [logger.Fatalf] ([os.Exit(1)] after the message). *)
Inductive Startup (A : Type) : Type :=
| Proceeds (a : A)
| Fatal.
Arguments Proceeds {A} a.
Arguments Fatal {A}.

(** The loop of lines 76-83, from iteration [i] with [fuel] iterations to
    go: [GetLastPrice i] is what [priceMonitor.GetLastPrice()] returns
    at iteration [i], and [sleeps] counts the calls of [time.Sleep]. The
    result is [currentPrice] as the loop leaves it, with that count. *)
Fixpoint pollPrice (GetLastPrice : nat -> float64) (i fuel : nat)
    (currentPrice : float64) (sleeps : nat) : float64 * nat :=
  match fuel with
  | O => (currentPrice, sleeps)
  | S fuel =>
    let currentPrice := GetLastPrice i in
    if float_gtb currentPrice 0 then (currentPrice, sleeps)
    else pollPrice GetLastPrice (S i) fuel currentPrice (S sleeps)
  end.

(** Lines 73-87: [var currentPrice float64] starts at 0, the loop runs
    [for i := 0; i < 10; i++], and the test after it ends the program. *)
Definition firstPrice (GetLastPrice : nat -> float64) : Startup float64 * nat :=
  let '(currentPrice, sleeps) := pollPrice GetLastPrice 0 10 0 0 in
  if (currentPrice <=? 0)%float then (Fatal, sleeps)
  else (Proceeds currentPrice, sleeps).

(** *** Startup: the safety check (lines 95-119) *)

Definition requiredPositions (cfg : Config.t) : Z :=
  let requiredPositions := Trading.PositionSafetyCheck (Config.Trading cfg) in
  if requiredPositions <=? 0 then 100 else requiredPositions.

(** Lines 102-103: a name the map does not hold gives the zero
    [ExchangeConfig], whose fee rate is 0. *)
Definition feeRate (cfg : Config.t) : float64 :=
  match Config.Exchanges cfg !! App.CurrentExchange (Config.App cfg) with
  | Some exchangeCfg => ExchangeConfig.FeeRate exchangeCfg
  | None => 0%float
  end.

Definition safetyCheck (cfg : Config.t) (ex : IExchange.t)
    (currentPrice : float64) (priceDecimals : Z) : Startup unit :=
  match
    Safety.CheckAccountSafety ex (Trading.Symbol (Config.Trading cfg))
      currentPrice (Trading.OrderQuantity (Config.Trading cfg))
      (Trading.PriceInterval (Config.Trading cfg)) (feeRate cfg)
      (requiredPositions cfg) priceDecimals
      (Trading.MaxLeverage (Config.Trading cfg))
  with
  | Some err => Fatal
  | None => Proceeds tt
  end.

(** *** Startup: the take-profit monitor (lines 139 and 220-226) *)

(** The monitor [main] goes on with, given the venue's reply to the
    account request of [SetInitialBalance]. *)
Definition setupTakeProfit (cfg : Config.t)
    (reply : Result VenueError Account.t) : Startup TakeProfitMonitor.t :=
  let takeProfitMonitor := TakeProfitMonitor.NewTakeProfitMonitor cfg in
  if TakeProfit.Enabled (Trading.TakeProfit (Config.Trading cfg)) then
    match TakeProfitMonitor.SetInitialBalance takeProfitMonitor reply with
    | (_, Some err) => Fatal
    | (takeProfitMonitor, None) => Proceeds takeProfitMonitor
    end
  else Proceeds takeProfitMonitor.

(** *** The status goroutine (lines 331-354) *)

(** Lines 333-334: the ticker of the goroutine. *)
Definition statusTicker (cfg : Config.t) : Run Z :=
  let statusInterval :=
    Time.mul (Time.Duration (Timing.StatusPrintInterval (Config.Timing cfg)))
      Time.Minute in
  Time.NewTicker statusInterval.

(** What one tick prints. *)
Inductive StatusLine : Type :=
| PrintPositions
| TakeProfitStatus (initialBalance currentBalance profit percent : float64).

(** The body of [case <-ticker.C], given what [riskMonitor.IsTriggered()]
    returns and the take-profit monitor as the tick finds it. *)
Definition statusTick (cfg : Config.t) (riskTriggered : bool)
    (takeProfitMonitor : TakeProfitMonitor.t) : Run (list StatusLine) :=
  let positions := if negb riskTriggered then [PrintPositions] else [] in
  if TakeProfit.Enabled (Trading.TakeProfit (Config.Trading cfg)) then
    match TakeProfitMonitor.GetCurrentProfit takeProfitMonitor with
    | Panics => Panics
    | Returns (initialBalance, currentBalance, profit) =>
      Returns
        (positions ++
         [TakeProfitStatus initialBalance currentBalance profit
            (profit / initialBalance * 100)%float])%list
    end
  else Returns positions.

(** *** [closeAllPositionsMarket] (lines 513-546) *)

(** What the function does to the outside: the orders it places, the
    lines it logs, and its sleep at the end. *)
Inductive CloseEffect : Type :=
| PlaceOrder (orderReq : OrderRequest.t)
| LogNothingToClose
| LogClosing (count : nat)
| LogCloseFailed (err : VenueError)
| LogClosePlaced (OrderID : Z) (Quantity : float64)
| Sleep (d : Z).

(** Lines 526-533. *)
Definition marketCloseRequest (symbol : string) (pos : Position.t)
    : OrderRequest.t :=
  {| OrderRequest.Symbol := symbol;
     OrderRequest.Side := Exchange.SideSell;
     OrderRequest.Type' := Exchange.OrderTypeMarket;
     OrderRequest.TimeInForce := Exchange.TimeInForceIOC;
     OrderRequest.Quantity := Position.Size pos;
     OrderRequest.ReduceOnly := true |}.

(** The loop of lines 524-542. [PlaceOrder n orderReq] is the venue's
    reply to the [n]-th order the function places; [placed] counts the
    orders placed so far. *)
Fixpoint closeLoop
    (PlaceOrder' : nat -> OrderRequest.t -> Result VenueError Order.t)
    (symbol : string) (positions : list Position.t) (placed : nat)
    : list CloseEffect :=
  match positions with
  | [] => []
  | pos :: positions =>
    if float_gtb (Position.Size pos) 0 then
      let orderReq := marketCloseRequest symbol pos in
      match PlaceOrder' placed orderReq with
      | Err err =>
        PlaceOrder orderReq :: LogCloseFailed err
          :: closeLoop PlaceOrder' symbol positions (S placed)
      | Ok order =>
        PlaceOrder orderReq
          :: LogClosePlaced (Order.OrderID order) (Order.Quantity order)
          :: closeLoop PlaceOrder' symbol positions (S placed)
      end
    else closeLoop PlaceOrder' symbol positions placed
  end.

(** The function, given the venue's reply to [GetPositions]: the error it
    returns and what it did. *)
Definition closeAllPositionsMarket
    (GetPositions : Result VenueError (list Position.t))
    (PlaceOrder' : nat -> OrderRequest.t -> Result VenueError Order.t)
    (symbol : string) : option VenueError * list CloseEffect :=
  match GetPositions with
  | Err _ => (None, [LogNothingToClose])
  | Ok positions =>
    if (length positions =? 0)%nat then (None, [LogNothingToClose])
    else
      (None,
       (LogClosing (length positions)
          :: closeLoop PlaceOrder' symbol positions 0
          ++ [Sleep (Time.mul 2 Time.Second)])%list)
  end.

(** The orders among the effects, in the order they were placed. *)
Definition ordersPlaced (effects : list CloseEffect) : list OrderRequest.t :=
  flat_map (fun e => match e with PlaceOrder r => [r] | _ => [] end) effects.

(** The orders the venue refused, and those it took. *)
Definition closeFailures (effects : list CloseEffect) : nat :=
  length (List.filter
            (fun e => match e with LogCloseFailed _ => true | _ => false end)
            effects).

Definition closeSuccesses (effects : list CloseEffect) : nat :=
  length (List.filter
            (fun e => match e with LogClosePlaced _ _ => true | _ => false end)
            effects).

End Main.

(** ** Sample inputs *)

Module Sample.

(** A venue named Bitget whose account has the given balance (wallet,
    margin and available alike) and leverage, and that reports the given
    positions whatever the symbol asked. *)
Definition venue (availableBalance : float64) (accountLeverage : Z)
    (positions : list Position.t) : IExchange.t :=
  IExchange.mk "Bitget" "USDT"
    (Ok (Account.mk availableBalance availableBalance availableBalance
           accountLeverage))
    (fun _ => Ok positions).

(** A configuration file that sets the required fields and nothing else,
    but for the [risk_control] and [take_profit] sections given. *)
Definition minimal (rc : RiskControl.t) (tp : TakeProfit.t) : Config.t :=
  {| Config.App := App.mk "bitget";
     Config.Exchanges :=
       {[ "bitget" := ExchangeConfig.mk "key" "secret" "pass" 0.000244140625 ]};
     Config.Trading := Trading.mk "ETHUSDT" 1 30 0 10 0 0 0 0 0 0 0 tp;
     Config.System := System.mk "" false;
     Config.RiskControl := rc;
     Config.Timing := Timing.mk 0 0 0 0 0 0 0 0 0 0 0 |}.

(** A [take_profit] section left out of the file. *)
Definition takeProfitOff : TakeProfit.t := TakeProfit.mk false 0 0 "".

(** A monitor for a configuration with the given [take_profit] section,
    with or without a recorded initial balance. *)
Definition monitorOf (tp : TakeProfit.t) (initial : option float64)
    (triggered : bool) : TakeProfitMonitor.t :=
  {| TakeProfitMonitor.cfg := minimal (RiskControl.mk true [] "" 0 0 0) tp;
     TakeProfitMonitor.initialBalance := initial;
     TakeProfitMonitor.lastBalance := initial;
     TakeProfitMonitor.triggered := triggered;
     TakeProfitMonitor.isBalanceSet :=
       match initial with Some _ => true | None => false end |}.

End Sample.

(** * Properties *)

(** ** Comparisons of binary64 values

    [x <= y] is false exactly when [y < x], unless one side is NaN: then
    both are false. *)

Section FloatOrder.

Lemma SFcompare_antisym (a b : spec_float) :
  SFcompare b a = option_map CompOpp (SFcompare a b).
Proof.
  destruct a as [sa|sa| |sa ma ea], b as [sb|sb| |sb mb eb]; simpl;
    try reflexivity;
    try (destruct sa; reflexivity); try (destruct sb; reflexivity);
    try (destruct sa, sb; reflexivity).
  destruct sa, sb; simpl; try reflexivity;
    rewrite (Z.compare_antisym ea eb);
    destruct (ea ?= eb)%Z; simpl; try reflexivity;
    rewrite !Pos.compare_cont_spec; simpl;
    rewrite (Pos.compare_antisym ma mb);
    destruct (ma ?= mb)%positive; reflexivity.
Qed.

Lemma SFcompare_refl (a : spec_float) :
  a <> S754_nan -> SFcompare a a = Some Eq.
Proof.
  destruct a as [s|s| |s m e]; simpl; intros Hn; try congruence.
  - destruct s; reflexivity.
  - destruct s; rewrite Z.compare_refl, Pos.compare_cont_refl; reflexivity.
Qed.

Lemma is_nan_false (x : float64) :
  is_nan x = false <-> Prim2SF x <> S754_nan.
Proof.
  unfold is_nan. rewrite FloatAxioms.eqb_spec. unfold SFeqb. split.
  - intros H Hn. rewrite Hn in H. discriminate H.
  - intros H. rewrite (SFcompare_refl _ H). reflexivity.
Qed.

Lemma SFcompare_total (a b : spec_float) :
  a <> S754_nan -> b <> S754_nan -> exists c, SFcompare a b = Some c.
Proof.
  destruct a, b; simpl; intros Ha Hb; try congruence; eauto.
Qed.

Lemma float_leb_false (x y : float64) :
  is_nan x = false -> is_nan y = false ->
  (x <=? y)%float = false <-> (y <? x)%float = true.
Proof.
  intros Hx%is_nan_false Hy%is_nan_false.
  rewrite FloatAxioms.leb_spec, FloatAxioms.ltb_spec. unfold SFleb, SFltb.
  rewrite (SFcompare_antisym (Prim2SF x) (Prim2SF y)).
  destruct (SFcompare_total _ _ Hx Hy) as [c ->].
  destruct c; simpl; split; congruence.
Qed.

Lemma float_ltb_false (x y : float64) :
  is_nan x = false -> is_nan y = false ->
  (x <? y)%float = false <-> (y <=? x)%float = true.
Proof.
  intros Hx%is_nan_false Hy%is_nan_false.
  rewrite FloatAxioms.leb_spec, FloatAxioms.ltb_spec. unfold SFleb, SFltb.
  rewrite (SFcompare_antisym (Prim2SF x) (Prim2SF y)).
  destruct (SFcompare_total _ _ Hx Hy) as [c ->].
  destruct c; simpl; split; congruence.
Qed.

(** Rounding a non-negative mantissa never produces NaN, so the conversion
    of an [int] to [float64] is always a number. *)

Lemma shr_1_nonneg (mrs : shr_record) : 0 <= shr_m mrs -> 0 <= shr_m (shr_1 mrs).
Proof.
  destruct mrs as [m r s]; simpl.
  destruct m as [|p|p]; [| destruct p | destruct p]; simpl; lia.
Qed.

Lemma iter_pos_shr_1_nonneg (p : positive) (mrs : shr_record) :
  0 <= shr_m mrs -> 0 <= shr_m (SpecFloat.iter_pos shr_1 p mrs).
Proof.
  revert mrs. induction p as [p IH|p IH|]; simpl; intros mrs H.
  - apply IH, IH, shr_1_nonneg, H.
  - apply IH, IH, H.
  - apply shr_1_nonneg, H.
Qed.

Lemma shr_fexp_nonneg (m e : Z) (l : location) :
  0 <= m -> 0 <= shr_m (fst (shr_fexp prec emax m e l)).
Proof.
  intros H. unfold shr_fexp, shr.
  assert (H0 : 0 <= shr_m (shr_record_of_loc m l))
    by (destruct l as [|[]]; exact H).
  destruct (_ - e)%Z; simpl; auto using iter_pos_shr_1_nonneg.
Qed.

Lemma round_nearest_even_nonneg (m : Z) (l : location) :
  0 <= m -> 0 <= round_nearest_even m l.
Proof.
  intros H. destruct l as [|[]]; simpl; try lia.
  destruct (Z.even m); lia.
Qed.

Lemma binary_round_aux_not_nan (sx : bool) (mx ex : Z) (lx : location) :
  0 <= mx -> binary_round_aux prec emax sx mx ex lx <> S754_nan.
Proof.
  intros H. unfold binary_round_aux.
  pose proof (shr_fexp_nonneg mx ex lx H) as H1.
  destruct (shr_fexp prec emax mx ex lx) as [mrs' e']. simpl in H1.
  pose proof (shr_fexp_nonneg _ e' loc_Exact
                (round_nearest_even_nonneg _ (loc_of_shr_record mrs') H1)) as H2.
  destruct (shr_fexp prec emax _ e' loc_Exact) as [mrs'' e'']. simpl in H2.
  destruct (shr_m mrs'') as [|m|m]; [discriminate | | lia].
  destruct (e'' <=? emax - prec)%Z; discriminate.
Qed.

Lemma binary_round_not_nan (sx : bool) (mx : positive) (ex : Z) :
  binary_round prec emax sx mx ex <> S754_nan.
Proof.
  unfold binary_round. destruct (shl_align _ _ _) as [mz ez].
  apply binary_round_aux_not_nan. lia.
Qed.

Lemma binary_normalize_not_nan (m e : Z) (szero : bool) :
  binary_normalize prec emax m e szero <> S754_nan.
Proof.
  destruct m; simpl; [discriminate | |]; apply binary_round_not_nan.
Qed.

Lemma SF2Prim_not_nan (sf : spec_float) :
  sf <> S754_nan -> is_nan (SF2Prim sf) = false.
Proof.
  destruct sf as [[]|[]| |s m e]; intros Hn; try reflexivity; [congruence|].
  unfold SF2Prim.
  assert (Hl : is_nan (Z.ldexp (of_uint63 (Uint63.of_Z (Z.pos m))) e) = false).
  { apply is_nan_false. unfold Z.ldexp.
    rewrite ldshiftexp_spec, of_uint63_spec. unfold SFldexp.
    destruct (binary_normalize prec emax _ 0 false) eqn:Hb;
      try discriminate.
    - exfalso. exact (binary_normalize_not_nan _ _ _ Hb).
    - apply binary_round_not_nan. }
  destruct s; [| exact Hl].
  apply is_nan_false. rewrite opp_spec.
  apply is_nan_false in Hl.
  destruct (Prim2SF _); simpl; congruence.
Qed.

Lemma float64_of_int_not_nan (n : Z) : is_nan (float64_of_int n) = false.
Proof. apply SF2Prim_not_nan, binary_normalize_not_nan. Qed.

End FloatOrder.

(** The rationals some values stand for: 4999, 1/2, -3/4, and the
    nearest binary64 value to 0.0002, which is a little above it. *)
Example exact_values :
  option_map (Qeq_bool 4999) (exact 4999) = Some true /\
  option_map (Qeq_bool (1 # 2)) (exact 0.5) = Some true /\
  option_map (Qeq_bool (- 3 # 4)) (exact (-0.75)) = Some true /\
  option_map (Qeq_bool (7378697629483821 # 36893488147419103232))
    (exact 0x1.a36e2eb1c432dp-13) = Some true /\
  option_map (Qle_bool (1 # 5000)) (exact 0x1.a36e2eb1c432dp-13) = Some true /\
  exact infinity = None /\ exact nan = None.
Proof. vm_compute. repeat split. Qed.

(** ** [CheckAccountSafety] *)

Module SafetyFacts.
Import Safety Sample.

Section Checks.

Variables (ex : IExchange.t) (symbol : string).
Variables (currentPrice orderAmount priceInterval feeRate : float64).
Variables (requiredPositions priceDecimals maxLeverage : Z).

(** With a position of size zero (or none), the four checks run in the
    order balance, leverage, capacity, net profit. *)
Lemma CheckAccountSafety_zero_position (account : Account.t) :
  IExchange.GetAccount ex = Ok account ->
  float_neq (positionAmt ex symbol) 0 = false ->
  let accountBalance := Account.AvailableBalance account in
  let leverage := determinedLeverage ex symbol account in
  let capacity := maxPositions accountBalance leverage orderAmount in
  let net := netProfit (feeAnalysis currentPrice orderAmount priceInterval feeRate) in
  CheckAccountSafety ex symbol currentPrice orderAmount priceInterval feeRate
    requiredPositions priceDecimals maxLeverage
  = if (accountBalance <=? 0)%float then Some (ErrBalance accountBalance)
    else if maxLeverage <? leverage then Some (ErrLeverage leverage maxLeverage)
    else if (capacity <? float64_of_int requiredPositions)%float
         then Some (ErrCapacity requiredPositions capacity)
    else if (net <=? 0)%float then Some (ErrNetProfit net)
    else None.
Proof.
  unfold CheckAccountSafety, positionAmt, determinedLeverage.
  intros -> Hzero.
  destruct (scanPositions (IExchange.GetPositions ex symbol) symbol)
    as [amt lev] eqn:Hscan.
  simpl in Hzero |- *. rewrite Hzero. reflexivity.
Qed.

(** The code returns [nil] exactly when none of its four tests fires. *)
Lemma CheckAccountSafety_nil_iff (account : Account.t) :
  IExchange.GetAccount ex = Ok account ->
  float_neq (positionAmt ex symbol) 0 = false ->
  let accountBalance := Account.AvailableBalance account in
  let leverage := determinedLeverage ex symbol account in
  let capacity := maxPositions accountBalance leverage orderAmount in
  let net := netProfit (feeAnalysis currentPrice orderAmount priceInterval feeRate) in
  CheckAccountSafety ex symbol currentPrice orderAmount priceInterval feeRate
    requiredPositions priceDecimals maxLeverage = None <->
    (accountBalance <=? 0)%float = false /\
    leverage <= maxLeverage /\
    (capacity <? float64_of_int requiredPositions)%float = false /\
    (net <=? 0)%float = false.
Proof.
  intros Hacc Hzero. cbv zeta.
  rewrite (CheckAccountSafety_zero_position account Hacc Hzero). cbv zeta.
  destruct (Account.AvailableBalance account <=? 0)%float;
    [split; [discriminate | intros [? _]; discriminate] |].
  destruct (Z.ltb_spec maxLeverage (determinedLeverage ex symbol account));
    [split; [discriminate | intros (_ & ? & _); lia] |].
  destruct (_ <? float64_of_int requiredPositions)%float;
    [split; [discriminate | intros (_ & _ & ? & _); discriminate] |].
  destruct (_ <=? 0)%float;
    [split; [discriminate | intros (_ & _ & _ & ?); discriminate] |].
  split; auto.
Qed.

(** When the balance, the capacity and the net profit are numbers (not
    NaN), the tests of the code are the comparisons [>] and [>=]. *)
Lemma CheckAccountSafety_nil_iff_numbers (account : Account.t) :
  IExchange.GetAccount ex = Ok account ->
  float_neq (positionAmt ex symbol) 0 = false ->
  let accountBalance := Account.AvailableBalance account in
  let leverage := determinedLeverage ex symbol account in
  let capacity := maxPositions accountBalance leverage orderAmount in
  let net := netProfit (feeAnalysis currentPrice orderAmount priceInterval feeRate) in
  is_nan accountBalance = false -> is_nan capacity = false ->
  is_nan net = false ->
  CheckAccountSafety ex symbol currentPrice orderAmount priceInterval feeRate
    requiredPositions priceDecimals maxLeverage = None <->
    leverage <= maxLeverage /\
    float_gtb accountBalance 0 = true /\
    float_geb capacity (float64_of_int requiredPositions) = true /\
    float_gtb net 0 = true.
Proof.
  intros Hacc Hzero. cbv zeta. intros Hb Hc Hn.
  rewrite (CheckAccountSafety_nil_iff account Hacc Hzero). cbv zeta.
  unfold float_gtb, float_geb.
  pose proof (float64_of_int_not_nan requiredPositions) as Hreq.
  rewrite (float_leb_false _ 0%float Hb eq_refl).
  rewrite (float_ltb_false _ _ Hc Hreq).
  rewrite (float_leb_false _ 0%float Hn eq_refl).
  tauto.
Qed.

End Checks.

(** The leverage of the code is the one the specification describes,
    except when the venue reports a position leverage of exactly 1 and an
    account leverage that is positive and not 1: the test [leverage == 1]
    of line 53 cannot tell a reported 1 from the default 1. *)
Lemma determinedLeverage_spec (ex : IExchange.t) (symbol : string)
    (account : Account.t) :
  (reportedLeverage (IExchange.GetPositions ex symbol) symbol = Some 1 ->
   Account.AccountLeverage account <= 1) ->
  determinedLeverage ex symbol account =
  specLeverage (reportedLeverage (IExchange.GetPositions ex symbol) symbol) account.
Proof.
  unfold determinedLeverage, binanceLeverageFallback, tryGetBinanceLeverage,
    accountLeverageFallback, scanPositions, reportedLeverage, specLeverage.
  destruct (IExchange.GetPositions ex symbol) as [positions|e]; simpl.
  - destruct (List.find _ positions) as [p|]; simpl; intros H.
    + destruct (Z.ltb_spec 0 (Position.Leverage p)).
      * destruct (Z.eqb_spec (Position.Leverage p) 1) as [E|E]; simpl.
        -- rewrite E in H. specialize (H eq_refl).
           destruct (Z.ltb_spec 0 (Account.AccountLeverage account)); simpl.
           ++ replace (Account.AccountLeverage account) with 1 by lia.
              simpl. destruct (String.eqb _ _); simpl; lia.
           ++ rewrite E. simpl. destruct (String.eqb _ _); reflexivity.
        -- apply Z.eqb_neq in E. rewrite E. reflexivity.
      * simpl. destruct (Z.ltb_spec 0 (Account.AccountLeverage account)); simpl.
        -- destruct (Z.eqb_spec (Account.AccountLeverage account) 1) as [E|E];
             simpl; [destruct (String.eqb _ _)|]; reflexivity.
        -- destruct (String.eqb _ _); reflexivity.
    + destruct (Z.ltb_spec 0 (Account.AccountLeverage account)); simpl.
      * destruct (Z.eqb_spec (Account.AccountLeverage account) 1) as [E|E];
          simpl; [destruct (String.eqb _ _)|]; reflexivity.
      * destruct (String.eqb _ _); reflexivity.
  - intros _.
    destruct (Z.ltb_spec 0 (Account.AccountLeverage account)); simpl.
    + destruct (Z.eqb_spec (Account.AccountLeverage account) 1) as [E|E];
        simpl; [destruct (String.eqb _ _)|]; reflexivity.
    + destruct (String.eqb _ _); reflexivity.
Qed.

(** X2. Outside that case, and for balances, capacities and net profits
    that are numbers (not NaN), a call that fetched the account and sees
    no position returns [nil] exactly under the four conditions of the
    specification. *)
Lemma CheckAccountSafety_nil_iff_specSafe (ex : IExchange.t) (symbol : string)
    (account : Account.t)
    (currentPrice orderAmount priceInterval feeRate : float64)
    (requiredPositions priceDecimals maxLeverage : Z) :
  IExchange.GetAccount ex = Ok account ->
  float_neq (positionAmt ex symbol) 0 = false ->
  (reportedLeverage (IExchange.GetPositions ex symbol) symbol = Some 1 ->
   Account.AccountLeverage account <= 1) ->
  let accountBalance := Account.AvailableBalance account in
  let leverage := determinedLeverage ex symbol account in
  is_nan accountBalance = false ->
  is_nan (maxPositions accountBalance leverage orderAmount) = false ->
  is_nan (netProfit (feeAnalysis currentPrice orderAmount priceInterval feeRate))
    = false ->
  CheckAccountSafety ex symbol currentPrice orderAmount priceInterval feeRate
    requiredPositions priceDecimals maxLeverage = None <->
  specSafe ex symbol account currentPrice orderAmount priceInterval feeRate
    requiredPositions maxLeverage = true.
Proof.
  intros Hacc Hzero Hlev. cbv zeta. intros Hb Hc Hn.
  rewrite (CheckAccountSafety_nil_iff_numbers _ _ _ _ _ _ _ priceDecimals _
             account Hacc Hzero Hb Hc Hn).
  unfold specSafe. rewrite <- (determinedLeverage_spec ex symbol account Hlev).
  unfold maxPositions. rewrite !andb_true_iff, Z.leb_le. tauto.
Qed.

(** No position, a balance of 3000 at leverage 1, 100 positions of 30
    required. *)
Lemma CheckAccountSafety_nil_iff_specSafe_witness :
  CheckAccountSafety (venue 3000 0 []) "ETHUSDT" 3000 30 1 0 100 2 10 = None <->
  specSafe (venue 3000 0 []) "ETHUSDT" (Account.mk 3000 3000 3000 0)
    3000 30 1 0 100 10 = true.
Proof.
  apply (CheckAccountSafety_nil_iff_specSafe (venue 3000 0 []) "ETHUSDT"
           (Account.mk 3000 3000 3000 0) 3000 30 1 0 100 2 10).
  - reflexivity.
  - reflexivity.
  - intros H. discriminate H.
  - reflexivity.
  - reflexivity.
  - reflexivity.
Defined.

(** C1 (the code departs from the claim). A venue that reports no open
    position, a position leverage of 1 and an account leverage of 20: with
    a maximum leverage of 10 the four conditions of the specification hold
    (leverage 1, balance 3000, capacity 3000/30 = 100, positive net
    profit), and the call returns the leverage error for 20x. In the other
    direction, with a balance of 600 and an account leverage of 5 the
    capacity at the position's leverage 1 is 20 < 100, and the call
    returns [nil], having computed the capacity at 5x. *)
Theorem CheckAccountSafety_leverage_one_overridden :
  let ex1 := venue 3000 20 [Position.mk "ETHUSDT" 0 1] in
  let ex2 := venue 600 5 [Position.mk "ETHUSDT" 0 1] in
  (specSafe ex1 "ETHUSDT" (Account.mk 3000 3000 3000 20) 3000 30 1 0 100 10 = true /\
   CheckAccountSafety ex1 "ETHUSDT" 3000 30 1 0 100 2 10
     = Some (ErrLeverage 20 10)) /\
  (specSafe ex2 "ETHUSDT" (Account.mk 600 600 600 5) 3000 30 1 0 100 10 = false /\
   CheckAccountSafety ex2 "ETHUSDT" 3000 30 1 0 100 2 10 = None).
Proof. vm_compute. repeat split. Qed.

(** A balance that is NaN passes the balance and capacity tests as well:
    both comparisons are false on NaN. *)
Lemma CheckAccountSafety_nan_balance :
  CheckAccountSafety (venue nan 0 []) "ETHUSDT" 3000 30 1 0 100 2 10 = None.
Proof. vm_compute. reflexivity. Qed.

(** C3 (the claim as stated fails). The venue reports a position of 0.5
    in the symbol, and the call returns an error, in two ways. The list
    has an entry of size 0 for the symbol before the one of size 0.5: the
    loop of lines 41-49 stops at the first entry of the symbol, the
    position is taken as zero, and with no balance the call returns the
    balance error. The account request fails: the call returns its error
    at line 31, before the positions are asked for. *)
Lemma held_position_counterexample :
  let positions := [Position.mk "ETHUSDT" 0 50; Position.mk "ETHUSDT" 0.5 50] in
  (In (Position.mk "ETHUSDT" 0.5 50) positions /\
   float_neq (Position.Size (Position.mk "ETHUSDT" 0.5 50)) 0 = true) /\
  CheckAccountSafety (venue 0 50 positions) "ETHUSDT" 3000 30 1 0 100 2 10
  = Some (ErrBalance 0) /\
  CheckAccountSafety
    (IExchange.mk "Bitget" "USDT" (Err "timeout")
       (fun _ => Ok [Position.mk "ETHUSDT" 0.5 50]))
    "ETHUSDT" 3000 30 1 0 100 2 10
  = Some (ErrGetAccount "timeout").
Proof. vm_compute. repeat split. right. left. reflexivity. Qed.

(** C3, amended. When the account fetch succeeded and the first entry of
    the symbol in the list the venue reports (the entry the loop of lines
    41-49 stops at) has a size different from zero, [CheckAccountSafety]
    returns [nil], whatever the balance, the leverage, the order amount,
    the required positions, the price, the grid step and the fee rate
    are: none of the four checks is evaluated. *)
Theorem CheckAccountSafety_held_position_skips (ex : IExchange.t)
    (symbol : string) (account : Account.t) (positions : list Position.t)
    (p : Position.t)
    (currentPrice orderAmount priceInterval feeRate : float64)
    (requiredPositions priceDecimals maxLeverage : Z) :
  IExchange.GetAccount ex = Ok account ->
  IExchange.GetPositions ex symbol = Ok positions ->
  List.find (fun q => String.eqb (Position.Symbol q) symbol) positions = Some p ->
  float_neq (Position.Size p) 0 = true ->
  CheckAccountSafety ex symbol currentPrice orderAmount priceInterval feeRate
    requiredPositions priceDecimals maxLeverage = None.
Proof.
  intros Hacc Hpos Hfind Hsize.
  unfold CheckAccountSafety, scanPositions.
  rewrite Hacc, Hpos, Hfind, Hsize. reflexivity.
Qed.

(** A held position of 0.5 with no balance, 50x leverage against a
    maximum of 10, and a grid step that cannot pay the fees. *)
Lemma CheckAccountSafety_held_position_skips_witness :
  CheckAccountSafety (venue 0 50 [Position.mk "ETHUSDT" 0.5 50]) "ETHUSDT"
    3000 30 0 0.5 100 2 10 = None.
Proof.
  apply (CheckAccountSafety_held_position_skips _ _
           (Account.mk 0 0 0 50) [Position.mk "ETHUSDT" 0.5 50]
           (Position.mk "ETHUSDT" 0.5 50));
    reflexivity.
Defined.

(** *** The net-profit check *)

(** Over the rationals, with a price that is not zero, the profit of the
    code is the reference term and its net profit the reference net
    profit. *)
Lemma feeAnalysis_exact (P N D feeRate : Q) :
  ~ (P == 0)%Q ->
  (profitPerTrade (feeAnalysis P N D feeRate) == referenceProfit P N D)%Q /\
  (netProfit (feeAnalysis P N D feeRate) == referenceNetProfit P N D feeRate)%Q.
Proof.
  intros HP. unfold referenceNetProfit, referenceProfit, feeAnalysis; simpl.
  split; field; exact HP.
Qed.

(** C2 (the claim as stated fails in binary64). At price 3000, order
    amount 30 and grid step 1 the code's [profitPerTrade] is
    0x1.47ae147ae18p-7 (0.010000000000001563) and the reference term
    1 * (30 / 3000) is 0x1.47ae147ae147bp-7 (the binary64 value of 0.01).
    At price 4999, order amount 50, grid step 2 and the binary64 value of
    the fee rate 0.0002, with no position, a balance of 5000 and leverage
    1, every earlier check passes and the step pays the two fees exactly:
    the reference net profit is 0 at the fee rate 1/5000, is 0 when
    computed in binary64, and is below 0 at the rationals the arguments
    stand for. The code computes 0x1.02cp-48 (3.59e-15) and returns
    [nil]. *)
Lemma netProfit_reference_counterexample :
  let fee := 0x1.a36e2eb1c432dp-13%float in
  ((profitPerTrade (feeAnalysis 3000 30 1 0) =? referenceProfit 3000 30 1)%float
     = false /\
   profitPerTrade (feeAnalysis 3000 30 1 0)%float = 0x1.47ae147ae18p-7%float /\
   referenceProfit 3000%float 30%float 1%float = 0x1.47ae147ae147bp-7%float) /\
  ((2 / 10000)%float = fee /\
   float_neq (positionAmt (venue 5000 0 []) "ETHUSDT") 0 = false /\
   (referenceNetProfit (F:=Q) 4999 50 2 (1 # 5000) == 0)%Q /\
   (referenceNetProfit 4999 50 2 fee <=? 0)%float = true /\
   option_map (fun q => negb (Qle_bool 0 q))
     (exactReferenceNetProfit 4999 50 2 fee) = Some true /\
   netProfit (feeAnalysis 4999 50 2 fee)%float = 0x1.02cp-48%float /\
   CheckAccountSafety (venue 5000 0 []) "ETHUSDT" 4999 50 2 fee 100 2 10 = None).
Proof. vm_compute. repeat split. Qed.

(** With a grid step of 0 and no fee the reference net profit is 0, and
    the call returns [nil] at price 29: 29 * (30 / 29) rounds to a value
    above 30. *)
Example netProfit_zero_step_passes :
  (referenceNetProfit 29 30 0 0 <=? 0)%float = true /\
  (referenceNetProfit (F:=Q) 29 30 0 0 == 0)%Q /\
  CheckAccountSafety (venue 3000 0 []) "ETHUSDT" 29 30 0 0 100 2 10 = None.
Proof. vm_compute. repeat split. Qed.

(** C2, amended. For a call that sees no position and passes the balance,
    leverage and capacity checks, the result is decided by the net profit
    the code computes in binary64,
    [((P+D)*(N/P) - N) - (N*feeRate + (P+D)*(N/P)*feeRate)]: an error when
    it is [<= 0], [nil] otherwise. Over exact (rational) arithmetic and a
    price different from zero, the code's [profitPerTrade] equals the
    reference term [D*(N/P)] and its net profit the reference net
    profit. *)
Theorem CheckAccountSafety_netProfit_decides (ex : IExchange.t)
    (symbol : string) (account : Account.t)
    (currentPrice orderAmount priceInterval feeRate : float64)
    (requiredPositions priceDecimals maxLeverage : Z)
    (P N D r : Q) :
  IExchange.GetAccount ex = Ok account ->
  float_neq (positionAmt ex symbol) 0 = false ->
  (Account.AvailableBalance account <=? 0)%float = false ->
  determinedLeverage ex symbol account <= maxLeverage ->
  (maxPositions (Account.AvailableBalance account)
     (determinedLeverage ex symbol account) orderAmount
   <? float64_of_int requiredPositions)%float = false ->
  ~ (P == 0)%Q ->
  let net := netProfit (feeAnalysis currentPrice orderAmount priceInterval feeRate) in
  CheckAccountSafety ex symbol currentPrice orderAmount priceInterval feeRate
    requiredPositions priceDecimals maxLeverage
  = (if (net <=? 0)%float then Some (ErrNetProfit net) else None) /\
  (profitPerTrade (feeAnalysis P N D r) == referenceProfit P N D)%Q /\
  (netProfit (feeAnalysis P N D r) == referenceNetProfit P N D r)%Q.
Proof.
  intros Hacc Hzero Hbal Hlev Hcap HP net. split.
  - rewrite (CheckAccountSafety_zero_position _ _ _ _ _ _ _ _ _ account Hacc Hzero).
    cbv zeta. rewrite Hbal, Hcap.
    apply Z.ltb_ge in Hlev. rewrite Hlev. reflexivity.
  - apply feeAnalysis_exact, HP.
Qed.

(** The same venue at price 3000, grid step 1 and fee rate 0: the net
    profit is positive and the call returns [nil]; over the rationals at
    fee rate 1/5000. *)
Lemma CheckAccountSafety_netProfit_decides_witness :
  CheckAccountSafety (venue 3000 0 []) "ETHUSDT" 3000 30 1 0 100 2 10 = None /\
  (profitPerTrade (feeAnalysis 3000 30 1 (1 # 5000))%Q
   == referenceProfit 3000 30 1)%Q /\
  (netProfit (feeAnalysis 3000 30 1 (1 # 5000))%Q
   == referenceNetProfit 3000 30 1 (1 # 5000))%Q.
Proof.
  apply (CheckAccountSafety_netProfit_decides (venue 3000 0 []) "ETHUSDT"
           (Account.mk 3000 3000 3000 0) 3000 30 1 0 100 2 10
           3000%Q 30%Q 1%Q (1 # 5000)%Q).
  - reflexivity.
  - reflexivity.
  - reflexivity.
  - vm_compute. discriminate.
  - reflexivity.
  - intros H. vm_compute in H. discriminate H.
Defined.

End SafetyFacts.

(** ** [Config.Validate] *)

Module ConfigFacts.
Import Config Sample.

Lemma Validate_error_requiredFields (c : Config.t) (err : ConfigError) :
  requiredFields c = Some err -> Validate c = (c, Some err).
Proof. unfold Validate. intros ->. reflexivity. Qed.

(** A call that returns [nil] got past the required fields and left the
    [risk_control] section with its defaults applied. *)
Lemma Validate_accepted (c c' : Config.t) :
  Validate c = (c', None) ->
  requiredFields c = None /\
  RiskControl c' = riskControlDefaults (RiskControl c).
Proof.
  unfold Validate. destruct (requiredFields c) as [err|]; [discriminate|].
  simpl.
  destruct (TakeProfit.Enabled _).
  - destruct (takeProfitError _); [discriminate|].
    intros [= <-]. split; reflexivity.
  - intros [= <-]. split; reflexivity.
Qed.

Lemma recoveryThreshold_lower (rt n : Z) : 1 <= n -> 1 <= recoveryThreshold rt n.
Proof. unfold recoveryThreshold. intros H. repeat case_match; lia. Qed.

Lemma recoveryThreshold_upper (rt n : Z) :
  0 < rt \/ 3 <= n -> recoveryThreshold rt n <= n.
Proof. unfold recoveryThreshold. intros H. repeat case_match; lia. Qed.

Lemma recoveryThreshold_unset (rt n : Z) : rt <= 0 -> recoveryThreshold rt n = 3.
Proof. unfold recoveryThreshold. intros H. repeat case_match; lia. Qed.

Lemma riskControlDefaults_monitorCount (rc : RiskControl.t) :
  1 <= Z.of_nat (length (RiskControl.MonitorSymbols (riskControlDefaults rc))).
Proof.
  unfold riskControlDefaults; simpl.
  destruct (RiskControl.MonitorSymbols rc); simpl; lia.
Qed.

(** X3. What the code guarantees about the threshold of an accepted
    configuration: it is at least 1; it is at most the number of monitored
    symbols when the file set a positive threshold, or when at least three
    symbols are monitored; an unset threshold becomes 3 whatever that
    number is. *)
Lemma Validate_recoveryThreshold (c c' : Config.t) :
  Validate c = (c', None) ->
  let rt := RiskControl.RecoveryThreshold (RiskControl c) in
  let rt' := RiskControl.RecoveryThreshold (RiskControl c') in
  1 <= rt' /\
  (0 < rt \/ 3 <= monitorCount c' -> rt' <= monitorCount c') /\
  (rt <= 0 -> rt' = 3).
Proof.
  intros [_ Hrc]%Validate_accepted. cbv zeta. unfold monitorCount.
  rewrite Hrc.
  pose proof (riskControlDefaults_monitorCount (RiskControl c)) as Hn.
  unfold riskControlDefaults in *; simpl in *.
  split; [apply recoveryThreshold_lower, Hn|].
  split; [apply recoveryThreshold_upper | apply recoveryThreshold_unset].
Qed.

(** Two monitored symbols and a threshold of 5. *)
Lemma Validate_recoveryThreshold_witness :
  let c := minimal (RiskControl.mk true ["BTCUSDT"; "ETHUSDT"] "" 0 0 5)
             takeProfitOff in
  let rt := RiskControl.RecoveryThreshold (RiskControl c) in
  let rt' := RiskControl.RecoveryThreshold (RiskControl (fst (Validate c))) in
  1 <= rt' /\
  (0 < rt \/ 3 <= monitorCount (fst (Validate c)) ->
   rt' <= monitorCount (fst (Validate c))) /\
  (rt <= 0 -> rt' = 3).
Proof.
  apply (Validate_recoveryThreshold
           (minimal (RiskControl.mk true ["BTCUSDT"; "ETHUSDT"] "" 0 0 5)
                    takeProfitOff)).
  vm_compute. reflexivity.
Defined.

(** C4 (the code departs from the claim). A file that monitors the single
    symbol BTCUSDT and leaves [recovery_threshold] unset is accepted, and
    its threshold after validation is 3, above the number of monitored
    symbols, 1: the branch that writes the default 3 skips the clamp to
    [monitorCount]. *)
Theorem Validate_recoveryThreshold_unset_exceeds_count :
  let c := minimal (RiskControl.mk true ["BTCUSDT"] "" 0 0 0) takeProfitOff in
  snd (Validate c) = None /\
  RiskControl.RecoveryThreshold (RiskControl (fst (Validate c))) = 3 /\
  monitorCount (fst (Validate c)) = 1.
Proof. vm_compute. repeat split. Qed.

(** *** Defaults *)

Lemma orDefault_pos (v d : Z) : 0 < d -> 0 < orDefault v d.
Proof. unfold orDefault. intros Hd. destruct (Z.leb_spec v 0); lia. Qed.

Lemma requiredFields_BuyWindowSize (c : Config.t) :
  requiredFields c = None -> 0 < Trading.BuyWindowSize (Trading c).
Proof.
  unfold requiredFields.
  destruct (String.eqb _ _); [discriminate|].
  destruct (_ =? _)%nat; [discriminate|].
  destruct (Exchanges c !! _) as [exchangeCfg|]; [|discriminate].
  destruct (_ || _); [discriminate|].
  destruct (_ <? 0)%float; [discriminate|].
  destruct (String.eqb _ _); [discriminate|].
  destruct (_ <=? 0)%float; [discriminate|].
  destruct (Z.leb_spec (Trading.BuyWindowSize (Trading c)) 0);
    [discriminate | intros _; assumption].
Qed.

Lemma tradingDefaults_applied (tr : Trading.t) :
  0 < Trading.BuyWindowSize tr ->
  let tr' := tradingDefaults tr in
  0 < Trading.BuyWindowSize tr' /\ 0 < Trading.SellWindowSize tr' /\
  0 < Trading.CleanupBatchSize tr' /\ 0 < Trading.MaxLeverage tr' /\
  (Trading.MinOrderValue tr' <=? 0)%float = false.
Proof.
  intros Hb. unfold tradingDefaults; simpl.
  repeat split; auto using orDefault_pos; try (apply orDefault_pos; lia).
  destruct (Trading.MinOrderValue tr <=? 0)%float eqn:E; [reflexivity | exact E].
Qed.

Lemma riskControlDefaults_applied (rc : RiskControl.t) :
  let rc' := riskControlDefaults rc in
  RiskControl.MonitorSymbols rc' <> [] /\ RiskControl.Interval rc' <> "" /\
  (RiskControl.VolumeMultiplier rc' <=? 0)%float = false /\
  0 < RiskControl.AverageWindow rc' /\ 0 < RiskControl.RecoveryThreshold rc'.
Proof.
  pose proof (riskControlDefaults_monitorCount rc) as Hn.
  unfold riskControlDefaults in *; simpl in *.
  split; [|split; [|split; [|split]]].
  - destruct (RiskControl.MonitorSymbols rc); simpl; discriminate.
  - destruct (String.eqb_spec (RiskControl.Interval rc) "");
      [discriminate | assumption].
  - destruct (RiskControl.VolumeMultiplier rc <=? 0)%float eqn:E;
      [reflexivity | exact E].
  - apply orDefault_pos. lia.
  - pose proof (recoveryThreshold_lower (RiskControl.RecoveryThreshold rc) _ Hn).
    lia.
Qed.

Lemma timingDefaults_applied (tm : Timing.t) :
  let tm' := timingDefaults tm in
  0 < Timing.WebSocketReconnectDelay tm' /\ 0 < Timing.WebSocketWriteWait tm' /\
  0 < Timing.WebSocketPongWait tm' /\ 0 < Timing.WebSocketPingInterval tm' /\
  0 < Timing.ListenKeyKeepAliveInterval tm' /\ 0 < Timing.PriceSendInterval tm' /\
  0 < Timing.RateLimitRetryDelay tm' /\ 0 < Timing.OrderRetryDelay tm' /\
  0 < Timing.PricePollInterval tm' /\ 0 < Timing.StatusPrintInterval tm' /\
  0 < Timing.OrderCleanupInterval tm'.
Proof. unfold timingDefaults; simpl. repeat split; apply orDefault_pos; lia. Qed.

(** X5. In a configuration that [Validate] accepts, every field it has a
    default for holds a usable value after the call: the window sizes,
    the cleanup batch size, the maximum leverage, the average window, the
    recovery threshold and the eleven timing intervals are positive, the
    minimum order value and the volume multiplier are not [<= 0], and the
    monitored symbols and the candle interval are not empty. *)
Lemma Validate_defaultsApplied (c c' : Config.t) :
  Validate c = (c', None) -> defaultsApplied c'.
Proof.
  unfold Validate.
  destruct (requiredFields c) as [err|] eqn:Hreq; [discriminate|].
  pose proof (tradingDefaults_applied _ (requiredFields_BuyWindowSize c Hreq))
    as Htr.
  pose proof (riskControlDefaults_applied (RiskControl c)) as Hrc.
  pose proof (timingDefaults_applied (Timing c)) as Htm.
  cbv zeta in Htr, Hrc, Htm. simpl.
  destruct (TakeProfit.Enabled _).
  - destruct (takeProfitError _); [discriminate|].
    intros [= <-]. unfold defaultsApplied; simpl. auto.
  - intros [= <-]. unfold defaultsApplied; simpl. auto.
Qed.

(** A file that sets the required fields only. *)
Lemma Validate_defaultsApplied_witness :
  defaultsApplied
    (fst (Validate (minimal (RiskControl.mk true [] "" 0 0 0) takeProfitOff))).
Proof.
  apply (Validate_defaultsApplied
           (minimal (RiskControl.mk true [] "" 0 0 0) takeProfitOff)).
  vm_compute. reflexivity.
Defined.

(** *** The [take_profit] section *)

Lemma takeProfitError_Some_iff (tp : TakeProfit.t) :
  (exists err, takeProfitError tp = Some err) <-> takeProfitRejected tp.
Proof.
  unfold takeProfitError, takeProfitRejected.
  destruct (TakeProfit.TargetProfit tp <=? 0)%float;
    [split; eauto|].
  destruct (Z.ltb_spec (TakeProfit.CheckInterval tp) 10); simpl;
    [split; [intros _; right; left; lia | eauto]|].
  destruct (Z.ltb_spec 300 (TakeProfit.CheckInterval tp)); simpl;
    [split; [intros _; right; left; lia | eauto]|].
  destruct (String.eqb_spec (TakeProfit.BalanceMode tp) "auto") as [E|E]; simpl.
  - split; [intros [err [=]] | intros [[=] | [? | [? _]]]]; [lia | congruence].
  - destruct (String.eqb_spec (TakeProfit.BalanceMode tp) "precise") as [E'|E'];
      simpl.
    + split; [intros [err [=]] | intros [[=] | [? | [_ ?]]]]; [lia | congruence].
    + split; eauto.
Qed.

(** X4. The defaults of lines 228-234 never change a section that passed
    the three tests: a zero interval and an empty mode were rejected
    before. *)
Lemma takeProfitDefaults_dead (tp : TakeProfit.t) :
  takeProfitError tp = None -> takeProfitDefaults tp = tp.
Proof.
  unfold takeProfitError, takeProfitDefaults, orDefault.
  destruct (TakeProfit.TargetProfit tp <=? 0)%float; [discriminate|].
  destruct (Z.ltb_spec (TakeProfit.CheckInterval tp) 10); [discriminate|].
  destruct (Z.ltb_spec 300 (TakeProfit.CheckInterval tp)); [discriminate|].
  simpl.
  destruct (Z.leb_spec (TakeProfit.CheckInterval tp) 0); [lia|].
  destruct (String.eqb_spec (TakeProfit.BalanceMode tp) "") as [E|E].
  - rewrite E. simpl. discriminate.
  - intros _. destruct tp; reflexivity.
Qed.

Lemma takeProfitDefaults_dead_witness :
  takeProfitDefaults (TakeProfit.mk true 5 30 "auto")
  = TakeProfit.mk true 5 30 "auto".
Proof.
  exact (takeProfitDefaults_dead (TakeProfit.mk true 5 30 "auto") eq_refl).
Defined.

(** C7. For a configuration with [take_profit.enabled] true, [Validate]
    returns an error whenever [target_profit <= 0], or [check_interval] is
    outside [10, 300], or [balance_mode] is neither "auto" nor "precise";
    a zero interval and an empty mode are among these. When the required
    fields pass (lines 109-141), so that the [take_profit] section is
    reached, [Validate] returns an error if and only if one of the three
    holds, and otherwise returns [nil]. In every case the error is the one
    of the required fields if there is one, and else the one of the three
    tests. *)
Theorem Validate_takeProfit (c : Config.t) :
  TakeProfit.Enabled (Trading.TakeProfit (Trading c)) = true ->
  let tp := Trading.TakeProfit (Trading c) in
  (takeProfitRejected tp -> exists err, snd (Validate c) = Some err) /\
  (requiredFields c = None ->
   ((exists err, snd (Validate c) = Some err) <-> takeProfitRejected tp)) /\
  snd (Validate c)
  = match requiredFields c with
    | Some err => Some err
    | None => takeProfitError tp
    end /\
  (TakeProfit.CheckInterval tp = 0 -> takeProfitRejected tp) /\
  (TakeProfit.BalanceMode tp = "" -> takeProfitRejected tp).
Proof.
  intros Hen. cbv zeta.
  set (tp := Trading.TakeProfit (Trading c)) in *.
  assert (Hv : snd (Validate c)
               = match requiredFields c with
                 | Some err => Some err
                 | None => takeProfitError tp
                 end).
  { unfold Validate. destruct (requiredFields c) as [err|]; [reflexivity|].
    simpl. fold tp. rewrite Hen. destruct (takeProfitError tp); reflexivity. }
  rewrite Hv. split; [|split; [|split; [|split]]].
  - intros Hrej. destruct (requiredFields c) as [err|]; [eauto|].
    apply takeProfitError_Some_iff, Hrej.
  - intros Hreq. rewrite Hreq. apply takeProfitError_Some_iff.
  - reflexivity.
  - intros Hci. unfold takeProfitRejected. rewrite Hci. right; left; lia.
  - intros Hbm. unfold takeProfitRejected. rewrite Hbm.
    right; right; split; discriminate.
Qed.

(** A section with target 5, interval 30 and mode "auto". *)
Lemma Validate_takeProfit_witness :
  let c := minimal (RiskControl.mk true [] "" 0 0 0) (TakeProfit.mk true 5 30 "auto") in
  let tp := Trading.TakeProfit (Trading c) in
  (takeProfitRejected tp -> exists err, snd (Validate c) = Some err) /\
  (requiredFields c = None ->
   ((exists err, snd (Validate c) = Some err) <-> takeProfitRejected tp)) /\
  snd (Validate c)
  = match requiredFields c with
    | Some err => Some err
    | None => takeProfitError tp
    end /\
  (TakeProfit.CheckInterval tp = 0 -> takeProfitRejected tp) /\
  (TakeProfit.BalanceMode tp = "" -> takeProfitRejected tp).
Proof.
  exact (Validate_takeProfit
           (minimal (RiskControl.mk true [] "" 0 0 0)
                    (TakeProfit.mk true 5 30 "auto")) eq_refl).
Defined.

(** An unset interval, and an unset mode, in a section that is enabled. *)
Example Validate_takeProfit_unset_interval :
  snd (Validate (minimal (RiskControl.mk true [] "" 0 0 0)
                         (TakeProfit.mk true 5 0 "auto")))
  = Some ErrCheckInterval.
Proof. vm_compute. reflexivity. Qed.

Example Validate_takeProfit_unset_mode :
  snd (Validate (minimal (RiskControl.mk true [] "" 0 0 0)
                         (TakeProfit.mk true 5 30 "")))
  = Some ErrBalanceMode.
Proof. vm_compute. reflexivity. Qed.

End ConfigFacts.

(** ** The take-profit monitor *)

Module TakeProfitFacts.
Import TakeProfitMonitor Sample.

(** The effective balance does not read the configuration. *)
Lemma getEffectiveBalance_any_mode (m m' : t) (account : Account.t) :
  getEffectiveBalance m account = getEffectiveBalance m' account.
Proof. reflexivity. Qed.

(** C8. With [balance_mode] "auto", the effective balance of an account
    snapshot is its total margin balance when that is positive, otherwise
    its total wallet balance when that is positive, otherwise its
    available balance. *)
Theorem getEffectiveBalance_auto (m : t) (account : Account.t) :
  BalanceMode m = "auto" ->
  let margin := Account.TotalMarginBalance account in
  let wallet := Account.TotalWalletBalance account in
  (float_gtb margin 0 = true -> getEffectiveBalance m account = margin) /\
  (float_gtb margin 0 = false -> float_gtb wallet 0 = true ->
   getEffectiveBalance m account = wallet) /\
  (float_gtb margin 0 = false -> float_gtb wallet 0 = false ->
   getEffectiveBalance m account = Account.AvailableBalance account).
Proof.
  intros _. cbv zeta. unfold getEffectiveBalance.
  repeat split; intros; repeat match goal with H : _ = _ |- _ => rewrite H end;
    reflexivity.
Qed.

(** A snapshot with no margin balance, a wallet balance of 120 and 80
    available. *)
Lemma getEffectiveBalance_auto_witness :
  let m := monitorOf (TakeProfit.mk true 5 30 "auto") None false in
  let account := Account.mk 120 0 80 0 in
  (float_gtb 0 0 = true -> getEffectiveBalance m account = 0%float) /\
  (float_gtb 0 0 = false -> float_gtb 120 0 = true ->
   getEffectiveBalance m account = 120%float) /\
  (float_gtb 0 0 = false -> float_gtb 120 0 = false ->
   getEffectiveBalance m account = 80%float).
Proof.
  exact (getEffectiveBalance_auto
           (monitorOf (TakeProfit.mk true 5 30 "auto") None false)
           (Account.mk 120 0 80 0) eq_refl).
Defined.

(** *** One check *)

Lemma checkProfitAndTrigger_triggered (m : t) (reply : Result VenueError Account.t) :
  triggered m = true -> checkProfitAndTrigger m reply = Returns (false, m).
Proof. unfold checkProfitAndTrigger. intros ->. reflexivity. Qed.

Lemma checkProfitAndTrigger_true_iff (m : t) (initial : float64)
    (reply : Result VenueError Account.t) :
  initialBalance m = Some initial ->
  (exists m', checkProfitAndTrigger m reply = Returns (true, m')) <->
  fires m initial reply.
Proof.
  intros Hinit. unfold checkProfitAndTrigger, fires.
  destruct (triggered m).
  { split; [intros [m' [=]] | intros [[=] _]]. }
  destruct reply as [account|err].
  - simpl. rewrite Hinit. unfold TargetProfit at 1. simpl.
    fold (TargetProfit m).
    destruct (float_geb _ (TargetProfit m)) eqn:E.
    + split; eauto.
    + split; [intros [m' [=]] | intros [_ (a & [= <-] & H)]; congruence].
  - split; [intros [m' [=]] | intros [_ (a & [=] & _)]].
Qed.

(** A check that returns leaves the flag set when it returns true, and as
    it was when it returns false. *)
Lemma checkProfitAndTrigger_flag (m m' : t) (reply : Result VenueError Account.t)
    (b : bool) :
  checkProfitAndTrigger m reply = Returns (b, m') ->
  triggered m' = (b || triggered m) /\ cfg m' = cfg m /\
  isBalanceSet m' = isBalanceSet m /\ initialBalance m' = initialBalance m.
Proof.
  unfold checkProfitAndTrigger.
  destruct (triggered m) eqn:Ht.
  { intros [= <- <-]. rewrite Ht. auto. }
  destruct reply as [account|err].
  - simpl. destruct (initialBalance m); [|discriminate].
    destruct (float_geb _ _); intros [= <- <-]; simpl; auto.
  - intros [= <- <-]. rewrite Ht. auto.
Qed.

(** *** Runs of [Start] *)

Lemma loop_tick (m : t) (initial : float64)
    (reply : Result VenueError Account.t) (rest : list Event) :
  isBalanceSet m = true -> initialBalance m = Some initial ->
  (fires m initial reply /\
   exists m', checkProfitAndTrigger m reply = Returns (true, m') /\
              loop m (Tick reply :: rest) = mkRun m' 1 Returned rest) \/
  (~ fires m initial reply /\
   exists m', checkProfitAndTrigger m reply = Returns (false, m') /\
              loop m (Tick reply :: rest) = loop m' rest).
Proof.
  intros Hset Hinit. simpl. rewrite Hset. simpl.
  pose proof (checkProfitAndTrigger_true_iff m initial reply Hinit) as Hiff.
  destruct (checkProfitAndTrigger m reply) as [[[] m']|] eqn:E.
  - left. split; [apply Hiff|]; eauto.
  - right. split; [|eauto]. intros Hf. apply Hiff in Hf as [m'' [=]].
  - exfalso. revert E. unfold checkProfitAndTrigger.
    destruct (triggered m); [discriminate|].
    destruct reply; [|discriminate]. simpl. rewrite Hinit.
    destruct (float_geb _ _); discriminate.
Qed.

Lemma loop_calls_le_1 (events : list Event) (m : t) :
  (onTriggerCalls (loop m events) <= 1)%nat.
Proof.
  revert m. induction events as [|[|reply] rest IH]; intros m; simpl; [lia..|].
  destruct (negb (isBalanceSet m)); [apply IH|].
  destruct (checkProfitAndTrigger m reply) as [[[] m']|]; simpl;
    [lia | apply IH | lia].
Qed.

(** A run that called [onTrigger] has returned at the tick of the call:
    the events after it were not received, and the flag is set. *)
Lemma loop_called (events : list Event) (m : t) :
  onTriggerCalls (loop m events) = 1%nat ->
  status (loop m events) = Returned /\
  triggered (monitor (loop m events)) = true /\
  exists received reply,
    events = (received ++ Tick reply :: unreceived (loop m events))%list /\
    Forall (fun e => e <> CtxDone) received.
Proof.
  revert m. induction events as [|[|reply] rest IH]; intros m; simpl;
    [discriminate..|].
  destruct (negb (isBalanceSet m)).
  { intros H. destruct (IH m H) as (Hs & Ht & received & r & Hev & Hall).
    repeat split; auto. exists (Tick reply :: received), r.
    split; [simpl; f_equal; exact Hev|].
    constructor; [discriminate | exact Hall]. }
  destruct (checkProfitAndTrigger m reply) as [[[] m']|] eqn:E; simpl.
  - intros _. apply checkProfitAndTrigger_flag in E as (Ht & _).
    repeat split; auto. exists [], reply. split; [reflexivity | constructor].
  - intros H. destruct (IH m' H) as (Hs & Ht & received & r & Hev & Hall).
    repeat split; auto. exists (Tick reply :: received), r.
    split; [simpl; f_equal; exact Hev|].
    constructor; [discriminate | exact Hall].
  - discriminate.
Qed.

(** Once the flag is set, a run never calls [onTrigger] and leaves the
    flag set. *)
Lemma loop_triggered (events : list Event) (m : t) :
  triggered m = true ->
  onTriggerCalls (loop m events) = 0%nat /\
  triggered (monitor (loop m events)) = true.
Proof.
  revert m. induction events as [|[|reply] rest IH]; intros m Ht; simpl; auto.
  destruct (negb (isBalanceSet m)); [apply IH, Ht|].
  rewrite (checkProfitAndTrigger_triggered m reply Ht). apply IH, Ht.
Qed.

Lemma Start_calls_le_1 (m : t) (events : list Event) :
  (onTriggerCalls (Start m events) <= 1)%nat.
Proof.
  unfold Start. destruct (negb _); simpl; [lia | apply loop_calls_le_1].
Qed.

Lemma Start_triggered (m : t) (events : list Event) :
  triggered m = true ->
  onTriggerCalls (Start m events) = 0%nat /\
  triggered (monitor (Start m events)) = true.
Proof.
  unfold Start. destruct (negb _); simpl; auto using loop_triggered.
Qed.

Lemma Start_called (m : t) (events : list Event) :
  onTriggerCalls (Start m events) = 1%nat ->
  status (Start m events) = Returned /\
  triggered (monitor (Start m events)) = true /\
  exists received reply,
    events = (received ++ Tick reply :: unreceived (Start m events))%list /\
    Forall (fun e => e <> CtxDone) received.
Proof.
  unfold Start. destruct (negb _); simpl; [discriminate | apply loop_called].
Qed.

Lemma Starts_triggered (runs : list (list Event)) (m : t) :
  triggered m = true -> snd (Starts m runs) = 0%nat.
Proof.
  revert m. induction runs as [|events runs IH]; intros m Ht; simpl; auto.
  destruct (Start_triggered m events Ht) as [H0 Ht'].
  specialize (IH _ Ht'). destruct (Starts _ runs) as [m' n]. simpl in *. lia.
Qed.

Lemma Starts_calls_le_1 (runs : list (list Event)) (m : t) :
  (snd (Starts m runs) <= 1)%nat.
Proof.
  revert m. induction runs as [|events runs IH]; intros m; simpl; [lia|].
  pose proof (Start_calls_le_1 m events) as Hle.
  destruct (Nat.eq_dec (onTriggerCalls (Start m events)) 1%nat) as [E|E].
  - destruct (Start_called m events E) as (_ & Ht & _).
    pose proof (Starts_triggered runs _ Ht) as H0.
    destruct (Starts _ runs) as [m' n]. simpl in *. lia.
  - specialize (IH (monitor (Start m events))).
    destruct (Starts _ runs) as [m' n]. simpl in *. lia.
Qed.

(** *** The stored initial balance *)

(** A run of the loop changes neither the stored initial balance nor the
    flag that says it is stored. *)
Lemma loop_balance (events : list Event) (m : t) :
  initialBalance (monitor (loop m events)) = initialBalance m /\
  isBalanceSet (monitor (loop m events)) = isBalanceSet m.
Proof.
  revert m. induction events as [|[|reply] rest IH]; intros m; simpl; auto.
  destruct (negb (isBalanceSet m)); [apply IH|].
  destruct (checkProfitAndTrigger m reply) as [[b m']|] eqn:E; [|simpl; auto].
  apply checkProfitAndTrigger_flag in E as (_ & _ & Hset & Hinit).
  destruct b; simpl; [auto|].
  destruct (IH m') as [H1 H2]. split; congruence.
Qed.

(** On a reachable monitor the flag is set only when a balance is
    stored. *)
Lemma Reachable_balance (m : t) :
  Reachable m -> isBalanceSet m = true -> exists b, initialBalance m = Some b.
Proof.
  induction 1 as [cfg | m reply _ IH | m events _ IH]; simpl.
  - discriminate.
  - unfold SetInitialBalance. destruct reply as [account|err]; simpl; [|exact IH].
    destruct (_ <=? 0)%float; simpl; [exact IH | eauto].
  - unfold Start. destruct (negb _); simpl; [exact IH|].
    destruct (loop_balance events m) as [-> ->]. exact IH.
Qed.

Lemma loop_never_panics (events : list Event) (m : t) :
  (isBalanceSet m = true -> exists b, initialBalance m = Some b) ->
  panicked (status (loop m events)) = false.
Proof.
  revert m. induction events as [|[|reply] rest IH]; intros m Hinv; simpl; auto.
  destruct (isBalanceSet m) eqn:Hset; simpl; [|apply IH; rewrite Hset; discriminate].
  destruct (Hinv eq_refl) as [b Hb].
  destruct (loop_tick m b reply rest Hset Hb)
    as [(_ & m' & E & _) | (_ & m' & E & _)]; rewrite E; simpl; [reflexivity|].
  apply IH. apply checkProfitAndTrigger_flag in E as (_ & _ & _ & ->).
  intros _. eauto.
Qed.

(** C5. At a tick of a monitor that is enabled and has recorded its
    initial balance, [onTrigger] is called if and only if the monitor has
    not triggered before, the account fetch succeeded, and the effective
    balance of the snapshot minus the initial balance is [>=] the target
    profit. A failed account fetch calls nothing. *)
Theorem tick_calls_onTrigger_iff (m : t) (initial : float64)
    (reply : Result VenueError Account.t) :
  Enabled m = true -> isBalanceSet m = true ->
  initialBalance m = Some initial ->
  (onTriggerCalls (Start m [Tick reply]) = 1%nat <->
   triggered m = false /\
   exists account, reply = Ok account /\
     float_geb (getEffectiveBalance m account - initial)%float (TargetProfit m)
     = true) /\
  (forall err, reply = Err err ->
   onTriggerCalls (Start m [Tick reply]) = 0%nat).
Proof.
  intros Hen Hset Hinit.
  assert (Hstart : Start m [Tick reply] = loop m [Tick reply]).
  { unfold Start. rewrite Hen. reflexivity. }
  rewrite Hstart. fold (fires m initial reply).
  destruct (loop_tick m initial reply [] Hset Hinit)
    as [(Hf & m' & _ & ->) | (Hf & m' & _ & ->)]; simpl.
  - split; [tauto|]. intros err ->. destruct Hf as [_ (a & [=] & _)].
  - split; [split; [discriminate | tauto] | reflexivity].
Qed.

(** An initial balance of 1000, a target of 5, and a snapshot whose margin
    balance is 1006. *)
Lemma tick_calls_onTrigger_iff_witness :
  let m := monitorOf (TakeProfit.mk true 5 30 "auto") (Some 1000%float) false in
  let reply := Ok (Account.mk 1006 1006 900 0) in
  (onTriggerCalls (Start m [Tick reply]) = 1%nat <->
   triggered m = false /\
   exists account, reply = Ok account /\
     float_geb (getEffectiveBalance m account - 1000)%float (TargetProfit m)
     = true) /\
  (forall err, reply = Err err ->
   onTriggerCalls (Start m [Tick reply]) = 0%nat).
Proof.
  exact (tick_calls_onTrigger_iff
           (monitorOf (TakeProfit.mk true 5 30 "auto") (Some 1000%float) false)
           1000%float (Ok (Account.mk 1006 1006 900 0))
           eq_refl eq_refl eq_refl).
Defined.

Example tick_fires :
  onTriggerCalls
    (Start (monitorOf (TakeProfit.mk true 5 30 "auto") (Some 1000%float) false)
           [Tick (Ok (Account.mk 1006 1006 900 0))]) = 1%nat.
Proof. reflexivity. Qed.

Example tick_below_target :
  onTriggerCalls
    (Start (monitorOf (TakeProfit.mk true 5 30 "auto") (Some 1000%float) false)
           [Tick (Ok (Account.mk 1004 1004 900 0))]) = 0%nat.
Proof. reflexivity. Qed.

(** C9. [onTrigger] is called at most once. Once the flag is set, a check
    returns false and leaves the monitor as it was, whatever the venue
    would reply; a check that returns true sets the flag; a run of [Start]
    calls [onTrigger] at most once, and when it does it has returned at
    that tick, with the later events not received; and over any number of
    calls of [Start] on the same monitor, [onTrigger] is called at most
    once in total. *)
Theorem onTrigger_at_most_once :
  (forall (m : t) (reply : Result VenueError Account.t),
     triggered m = true ->
     checkProfitAndTrigger m reply = Returns (false, m)) /\
  (forall (m m' : t) (reply : Result VenueError Account.t),
     checkProfitAndTrigger m reply = Returns (true, m') ->
     triggered m' = true) /\
  (forall (m : t) (events : list Event),
     (onTriggerCalls (Start m events) <= 1)%nat) /\
  (forall (m : t) (events : list Event),
     onTriggerCalls (Start m events) = 1%nat ->
     status (Start m events) = Returned /\
     exists received reply,
       events = (received ++ Tick reply :: unreceived (Start m events))%list /\
       Forall (fun e => e <> CtxDone) received) /\
  (forall (m : t) (runs : list (list Event)),
     (snd (Starts m runs) <= 1)%nat).
Proof.
  split; [exact checkProfitAndTrigger_triggered|].
  split; [intros m m' reply H; apply checkProfitAndTrigger_flag in H; tauto|].
  split; [exact Start_calls_le_1|].
  split; [|intros m runs; apply Starts_calls_le_1].
  intros m events H. destruct (Start_called m events H) as (Hs & _ & Hev).
  split; assumption.
Qed.

(** A run that triggers at its second tick and leaves two events
    unreceived; and a check on a monitor that has triggered, with a
    snapshot far above the target. *)
Lemma onTrigger_at_most_once_witness :
  let m := monitorOf (TakeProfit.mk true 5 30 "auto") (Some 1000%float) false in
  let high := Ok (Account.mk 1006 1006 900 0) in
  let low := Ok (Account.mk 1001 1001 900 0) in
  checkProfitAndTrigger
    (monitorOf (TakeProfit.mk true 5 30 "auto") (Some 1000%float) true) high
  = Returns (false,
             monitorOf (TakeProfit.mk true 5 30 "auto") (Some 1000%float) true) /\
  status (Start m [Tick low; Tick high; Tick high; CtxDone]) = Returned /\
  exists received reply,
    [Tick low; Tick high; Tick high; CtxDone]
    = (received ++ Tick reply
         :: unreceived (Start m [Tick low; Tick high; Tick high; CtxDone]))%list /\
    Forall (fun e => e <> CtxDone) received.
Proof.
  split.
  - exact (proj1 onTrigger_at_most_once
             (monitorOf (TakeProfit.mk true 5 30 "auto") (Some 1000%float) true)
             (Ok (Account.mk 1006 1006 900 0)) eq_refl).
  - exact (proj1 (proj2 (proj2 (proj2 onTrigger_at_most_once)))
             (monitorOf (TakeProfit.mk true 5 30 "auto") (Some 1000%float) false)
             [Tick (Ok (Account.mk 1001 1001 900 0));
              Tick (Ok (Account.mk 1006 1006 900 0));
              Tick (Ok (Account.mk 1006 1006 900 0)); CtxDone]
             eq_refl).
Defined.

End TakeProfitFacts.

(** ** [ParseLogLevel] *)

Module LoggerFacts.
Import Logger.

Lemma toUpperByte_fixed (d : ascii) : toUpperByte d = d -> isLowerByte d = false.
Proof.
  destruct d as [b0 b1 b2 b3 b4 b5 b6 b7].
  destruct b0, b1, b2, b3, b4, b5, b6, b7; vm_compute; intros H;
    first [reflexivity | discriminate H].
Qed.

Lemma eqFoldByte_upper (c d : ascii) :
  toUpperByte d = d -> eqFoldByte c d = true <-> toUpperByte c = d.
Proof.
  intros Hd. unfold eqFoldByte. rewrite (toUpperByte_fixed d Hd). simpl.
  rewrite orb_false_r. unfold toUpperByte at 2.
  destruct (isLowerByte c) eqn:Hc; simpl.
  - destruct (Ascii.eqb_spec c d) as [->|Hne]; simpl.
    + rewrite (toUpperByte_fixed d Hd) in Hc. discriminate Hc.
    + fold (toUpperByte c). unfold toUpperByte. rewrite Hc.
      destruct (Ascii.eqb_spec (ascii_of_nat (nat_of_ascii c - 32)) d);
        split; congruence.
  - rewrite orb_false_r.
    destruct (Ascii.eqb_spec c d); split; congruence.
Qed.

(** Against a name written in capitals, equality up to case is equality
    after [ToUpper]. *)
Lemma EqualFold_asciiToUpper (s name : string) :
  asciiToUpper name = name ->
  EqualFold s name = true <-> asciiToUpper s = name.
Proof.
  revert name. induction s as [|c s IH]; intros [|d name]; simpl;
    try (split; [discriminate | discriminate]); [split; reflexivity|].
  intros [= Hd Hname]. rewrite andb_true_iff, (IH name Hname),
    (eqFoldByte_upper c d Hd).
  split; [intros [-> ->]; reflexivity | intros [= -> ->]; auto].
Qed.


Section Generic.

Variables TrimSpace ToUpper : string -> string.


End Generic.






Example ParseLogLevel_warning :
  ParseLogLevel asciiTrimSpace asciiToUpper
    (String " " ("Warning" ++ String (ascii_of_nat 10) EmptyString)) = WARN.
Proof. reflexivity. Qed.

Example ParseLogLevel_debug :
  ParseLogLevel asciiTrimSpace asciiToUpper "  debug " = DEBUG.
Proof. reflexivity. Qed.

End LoggerFacts.

(** ** The price-event loop *)

Module MainFacts.
Import Main.

(** After an iteration [lastTriggered] is the answer of the risk monitor
    at that event. *)
Lemma iteration_lastTriggered (lastTriggered : bool) (priceChange : PriceChange)
    (isTriggered : bool) :
  fst (iteration lastTriggered priceChange isTriggered) = isTriggered.
Proof. destruct lastTriggered, isTriggered; reflexivity. Qed.

(** The calls of an iteration, by the two answers. *)
Lemma iteration_calls (lastTriggered : bool) (priceChange : PriceChange)
    (isTriggered : bool) :
  snd (iteration lastTriggered priceChange isTriggered) =
  if isTriggered
  then if lastTriggered then [] else [CancelAllBuyOrders]
  else [AdjustOrders (NewPrice priceChange)].
Proof. destruct lastTriggered, isTriggered; reflexivity. Qed.

Lemma priceLoop_nth (events : list (PriceChange * bool)) (initial : bool)
    (i : nat) (priceChange : PriceChange) (isTriggered : bool) :
  nth_error events i = Some (priceChange, isTriggered) ->
  nth_error (priceLoop initial events) i =
  Some (snd (iteration (lastTriggeredAt initial events i) priceChange isTriggered)).
Proof.
  revert initial i. induction events as [|[pc trig] events IH];
    intros initial i; [destruct i; discriminate|].
  destruct i as [|i]; simpl.
  - intros [= -> ->]. destruct (iteration initial priceChange isTriggered).
    reflexivity.
  - intros H. pose proof (iteration_lastTriggered initial pc trig) as Hst.
    destruct (iteration initial pc trig) as [lt calls]. simpl in Hst. subst lt.
    simpl. rewrite (IH trig i H). destruct i as [|i]; reflexivity.
Qed.

Lemma priceLoop_cancels (events : list (PriceChange * bool)) (initial : bool) :
  length (filter isCancel (concat (priceLoop initial events)))
  = risingEdges initial events.
Proof.
  revert initial. induction events as [|[pc trig] events IH]; intros initial;
    [reflexivity|].
  simpl. pose proof (iteration_lastTriggered initial pc trig) as Hst.
  pose proof (iteration_calls initial pc trig) as Hc.
  destruct (iteration initial pc trig) as [lt calls]. simpl in Hst, Hc.
  subst lt calls. simpl. rewrite filter_app, length_app, IH.
  destruct trig, initial; reflexivity.
Qed.

(** C6. At every event of the loop: when the risk monitor is triggered,
    no [AdjustOrders] call is made; the calls contain
    [CancelAllBuyOrders] once when the event is a rising edge of the
    trigger (triggered here, and not at the event before, or first event)
    and not at all otherwise; when the risk monitor is not triggered, the
    one call made is [AdjustOrders] at the new price. Over the whole run,
    the number of [CancelAllBuyOrders] calls is the number of rising
    edges. *)
Theorem priceEventLoop_calls (events : list (PriceChange * bool)) :
  (forall (i : nat) (priceChange : PriceChange) (isTriggered : bool),
     nth_error events i = Some (priceChange, isTriggered) ->
     exists calls,
       nth_error (priceEventLoop events) i = Some calls /\
       (isTriggered = true -> filter isAdjust calls = []) /\
       length (filter isCancel calls)
         = (if risingEdge events i then 1 else 0)%nat /\
       (isTriggered = false ->
        calls = [AdjustOrders (NewPrice priceChange)])) /\
  length (filter isCancel (concat (priceEventLoop events)))
    = risingEdges false events.
Proof.
  split; [|apply priceLoop_cancels].
  intros i priceChange isTriggered H.
  unfold priceEventLoop. rewrite (priceLoop_nth events false i _ _ H).
  rewrite iteration_calls. eexists; split; [reflexivity|].
  assert (Hr : risingEdge events i
               = isTriggered && negb (lastTriggeredAt false events i)).
  { unfold risingEdge, triggeredAt. rewrite H. destruct i; reflexivity. }
  rewrite Hr.
  destruct isTriggered, (lastTriggeredAt false events i); simpl;
    repeat split; auto; discriminate.
Qed.

(** Five events with the answers false, true, true, false, true: two
    rising edges, at the second and at the fifth event. *)
Lemma priceEventLoop_calls_witness :
  let events :=
    [(mkPriceChange 3000 2999, false); (mkPriceChange 2999 2998, true);
     (mkPriceChange 2998 2997, true); (mkPriceChange 2997 2996, false);
     (mkPriceChange 2996 2995, true)] in
  exists calls,
    nth_error (priceEventLoop events) 1 = Some calls /\
    (true = true -> filter isAdjust calls = []) /\
    length (filter isCancel calls) = (if risingEdge events 1 then 1 else 0)%nat /\
    (true = false -> calls = [AdjustOrders (NewPrice (mkPriceChange 2999 2998))]).
Proof.
  exact (proj1 (priceEventLoop_calls
                  [(mkPriceChange 3000 2999, false);
                   (mkPriceChange 2999 2998, true);
                   (mkPriceChange 2998 2997, true);
                   (mkPriceChange 2997 2996, false);
                   (mkPriceChange 2996 2995, true)])
           1%nat (mkPriceChange 2999 2998) true eq_refl).
Defined.

Example priceEventLoop_run :
  priceEventLoop
    [(mkPriceChange 3000 2999, false); (mkPriceChange 2999 2998, true);
     (mkPriceChange 2998 2997, true); (mkPriceChange 2997 2996, false);
     (mkPriceChange 2996 2995, true)]
  = [[AdjustOrders 2999]; [CancelAllBuyOrders]; []; [AdjustOrders 2996];
     [CancelAllBuyOrders]].
Proof. reflexivity. Qed.

(** X26. The prices the loop hands to [AdjustOrders] are the new prices
    of the events at which the risk monitor is not triggered, each once
    and in the order of the events: no such event is skipped, whatever
    happened before it, and no event under a trigger gets through. *)
Theorem priceEventLoop_adjusts (events : list (PriceChange * bool)) :
  adjustedPrices (concat (priceEventLoop events))
  = map (fun e => NewPrice (fst e))
      (List.filter (fun e => negb (snd e)) events).
Proof.
  unfold priceEventLoop. generalize false.
  induction events as [|[pc trig] events IH]; intros initial; [reflexivity|].
  simpl. pose proof (iteration_lastTriggered initial pc trig) as Hst.
  pose proof (iteration_calls initial pc trig) as Hc.
  destruct (iteration initial pc trig) as [lt calls]. simpl in Hst, Hc.
  subst lt calls. simpl. unfold adjustedPrices in *.
  rewrite flat_map_app, IH. destruct trig, initial; reflexivity.
Qed.

End MainFacts.

(** ** [Config.Validate] as a whole, and [LoadConfig] *)

Module LoadFacts.
Import Config Sample.

(** The error of [Validate]: the one of the required fields if there is
    one, else the one of an enabled [take_profit] section. *)
Lemma Validate_error (c : Config.t) :
  snd (Validate c)
  = match requiredFields c with
    | Some err => Some err
    | None =>
      if TakeProfit.Enabled (Trading.TakeProfit (Trading c))
      then takeProfitError (Trading.TakeProfit (Trading c))
      else None
    end.
Proof.
  unfold Validate. destruct (requiredFields c); [reflexivity|]. simpl.
  destruct (TakeProfit.Enabled _); [|reflexivity].
  destruct (takeProfitError _); reflexivity.
Qed.

Lemma requiredFields_None_iff (c : Config.t) :
  requiredFields c = None <-> requiredFieldsPresent c.
Proof.
  unfold requiredFields, requiredFieldsPresent. cbv zeta.
  destruct (String.eqb_spec (App.CurrentExchange (App c)) "") as [E|E].
  { split; [discriminate | intros [H _]; contradiction]. }
  destruct (Nat.eqb_spec (size (Exchanges c)) 0) as [Hs|Hs].
  { split; [discriminate|]. intros (_ & (x & Hx & _) & _).
    apply map_size_empty_iff in Hs. rewrite Hs, lookup_empty in Hx.
    discriminate Hx. }
  destruct (Exchanges c !! App.CurrentExchange (App c)) as [x|];
    [|split; [discriminate | intros (_ & (x & [=] & _) & _)]].
  destruct (String.eqb_spec (ExchangeConfig.APIKey x) "") as [Ha|Ha]; simpl.
  { split; [discriminate|].
    intros (_ & (y & [= <-] & ? & _) & _). contradiction. }
  destruct (String.eqb_spec (ExchangeConfig.SecretKey x) "") as [Hk|Hk]; simpl.
  { split; [discriminate|].
    intros (_ & (y & [= <-] & _ & ? & _) & _). contradiction. }
  destruct (ExchangeConfig.FeeRate x <? 0)%float eqn:Hf.
  { split; [discriminate|].
    intros (_ & (y & [= <-] & _ & _ & ?) & _). congruence. }
  destruct (String.eqb_spec (Trading.Symbol (Trading c)) "") as [Hy|Hy].
  { split; [discriminate | intros (_ & _ & ? & _); contradiction]. }
  destruct (Trading.OrderQuantity (Trading c) <=? 0)%float eqn:Hq.
  { split; [discriminate | intros (_ & _ & _ & ? & _); discriminate]. }
  destruct (Z.leb_spec (Trading.BuyWindowSize (Trading c)) 0) as [Hb|Hb].
  { split; [discriminate | intros (_ & _ & _ & _ & ?); lia]. }
  split; [intros _ | reflexivity].
  repeat split; try assumption. exists x. auto.
Qed.

Lemma takeProfitError_None_iff (tp : TakeProfit.t) :
  takeProfitError tp = None <->
  (TakeProfit.TargetProfit tp <=? 0)%float = false /\
  10 <= TakeProfit.CheckInterval tp <= 300 /\
  (TakeProfit.BalanceMode tp = "auto" \/ TakeProfit.BalanceMode tp = "precise").
Proof.
  unfold takeProfitError.
  destruct (TakeProfit.TargetProfit tp <=? 0)%float;
    [split; [discriminate | intros [[=] _]]|].
  destruct (Z.ltb_spec (TakeProfit.CheckInterval tp) 10); simpl;
    [split; [discriminate | intros (_ & ? & _); lia]|].
  destruct (Z.ltb_spec 300 (TakeProfit.CheckInterval tp)); simpl;
    [split; [discriminate | intros (_ & ? & _); lia]|].
  destruct (String.eqb_spec (TakeProfit.BalanceMode tp) "auto") as [E|E]; simpl.
  { split; [intros _; repeat split; auto; lia | reflexivity]. }
  destruct (String.eqb_spec (TakeProfit.BalanceMode tp) "precise") as [E'|E'];
    simpl.
  { split; [intros _; repeat split; auto; lia | reflexivity]. }
  split; [discriminate | intros (_ & _ & [?|?]); contradiction].
Qed.

(** A section that passed the three tests is written back as it was. *)
Lemma withTakeProfit_accepted (tr : Trading.t) :
  takeProfitError (Trading.TakeProfit tr) = None ->
  withTakeProfit tr (takeProfitDefaults (Trading.TakeProfit tr)) = tr.
Proof.
  intros (_ & Hci & Hbm)%takeProfitError_None_iff.
  destruct tr as [? ? ? ? ? ? ? ? ? ? ? ? tp]. simpl in *.
  unfold withTakeProfit, takeProfitDefaults, orDefault; simpl. f_equal.
  destruct tp as [en target ci bm]; simpl in *. f_equal.
  - destruct (Z.leb_spec ci 0); [lia | reflexivity].
  - destruct Hbm as [-> | ->]; reflexivity.
Qed.

(** What an accepted configuration is, section by section. *)
Lemma Validate_accepted_sections (c c' : Config.t) :
  Validate c = (c', None) ->
  App c' = App c /\ Exchanges c' = Exchanges c /\
  Trading c' = tradingDefaults (Trading c) /\ System c' = System c /\
  RiskControl c' = riskControlDefaults (RiskControl c) /\
  Timing c' = timingDefaults (Timing c).
Proof.
  unfold Validate. destruct (requiredFields c); [discriminate|]. simpl.
  destruct (TakeProfit.Enabled _).
  - destruct (takeProfitError (Trading.TakeProfit (Trading c))) eqn:E;
      [discriminate|].
    intros [= <-]. simpl.
    pose proof (withTakeProfit_accepted (tradingDefaults (Trading c)) E) as H.
    simpl in H. rewrite H. auto 10.
  - intros [= <-]. simpl. auto 10.
Qed.

Lemma orDefault_idem (v d : Z) :
  0 < d -> orDefault (orDefault v d) d = orDefault v d.
Proof. unfold orDefault. intros H. repeat case_match; lia. Qed.

Lemma tradingDefaults_idem (tr : Trading.t) :
  0 < Trading.BuyWindowSize tr ->
  tradingDefaults (tradingDefaults tr) = tradingDefaults tr.
Proof.
  intros Hb. unfold tradingDefaults; simpl.
  rewrite !orDefault_idem by lia.
  destruct (Trading.MinOrderValue tr <=? 0)%float eqn:E.
  - reflexivity.
  - rewrite E. reflexivity.
Qed.

Lemma timingDefaults_idem (tm : Timing.t) :
  timingDefaults (timingDefaults tm) = timingDefaults tm.
Proof.
  unfold timingDefaults; simpl. rewrite !orDefault_idem by lia. reflexivity.
Qed.

Lemma recoveryThreshold_again (rt n : Z) :
  1 <= n ->
  recoveryThreshold (recoveryThreshold rt n) n = Z.min (recoveryThreshold rt n) n.
Proof. unfold recoveryThreshold. intros H. repeat case_match; lia. Qed.

(** A second pass over the [risk_control] section changes the threshold
    only, which it brings down to the number of monitored symbols. *)
Lemma riskControlDefaults_again (rc : RiskControl.t) :
  let rc' := riskControlDefaults rc in
  riskControlDefaults rc'
  = {| RiskControl.Enabled := RiskControl.Enabled rc';
       RiskControl.MonitorSymbols := RiskControl.MonitorSymbols rc';
       RiskControl.Interval := RiskControl.Interval rc';
       RiskControl.VolumeMultiplier := RiskControl.VolumeMultiplier rc';
       RiskControl.AverageWindow := RiskControl.AverageWindow rc';
       RiskControl.RecoveryThreshold :=
         Z.min (RiskControl.RecoveryThreshold rc')
               (Z.of_nat (length (RiskControl.MonitorSymbols rc'))) |}.
Proof.
  cbv zeta.
  pose proof (ConfigFacts.riskControlDefaults_monitorCount rc) as Hn.
  unfold riskControlDefaults in *; simpl in *.
  set (symbols := if (length (RiskControl.MonitorSymbols rc) =? 0)%nat
                  then defaultMonitorSymbols
                  else RiskControl.MonitorSymbols rc) in *.
  assert (Hlen : (length symbols =? 0)%nat = false)
    by (apply Nat.eqb_neq; lia).
  rewrite Hlen, orDefault_idem, recoveryThreshold_again by lia.
  f_equal.
  - destruct (String.eqb_spec (RiskControl.Interval rc) "") as [E|E];
      [reflexivity|].
    apply String.eqb_neq in E. rewrite E. reflexivity.
  - destruct (RiskControl.VolumeMultiplier rc <=? 0)%float eqn:E;
      [reflexivity | rewrite E; reflexivity].
Qed.

Lemma riskControlDefaults_fixed (rc : RiskControl.t) :
  riskControlDefaults (riskControlDefaults (riskControlDefaults rc))
  = riskControlDefaults (riskControlDefaults rc).
Proof.
  rewrite (riskControlDefaults_again (riskControlDefaults rc)). cbv zeta.
  rewrite (riskControlDefaults_again rc). cbv zeta. simpl.
  f_equal. lia.
Qed.

(** [Validate] on a configuration whose checks pass: the defaults of the
    three sections, and no error. *)
Lemma Validate_passes (d : Config.t) :
  requiredFields d = None ->
  (TakeProfit.Enabled (Trading.TakeProfit (Trading d)) = true ->
   takeProfitError (Trading.TakeProfit (Trading d)) = None) ->
  Validate d
  = ({| App := App d; Exchanges := Exchanges d;
        Trading := tradingDefaults (Trading d); System := System d;
        RiskControl := riskControlDefaults (RiskControl d);
        Timing := timingDefaults (Timing d) |}, None).
Proof.
  intros Hreq Htp. unfold Validate. rewrite Hreq. simpl.
  destruct (TakeProfit.Enabled _); [|reflexivity].
  specialize (Htp eq_refl). rewrite Htp. simpl.
  pose proof (withTakeProfit_accepted (tradingDefaults (Trading d)) Htp) as H.
  simpl in H. rewrite H. reflexivity.
Qed.

(** The checks of [Validate] read fields that its defaults leave alone:
    they pass after the call as they did before. *)
Lemma Validate_accepted_checks (c c' : Config.t) :
  Validate c = (c', None) ->
  requiredFields c' = None /\
  (TakeProfit.Enabled (Trading.TakeProfit (Trading c')) = true ->
   takeProfitError (Trading.TakeProfit (Trading c')) = None) /\
  0 < Trading.BuyWindowSize (Trading c).
Proof.
  intros H.
  destruct (Validate_accepted_sections c c' H)
    as (Ha & He & Ht & _ & _ & _).
  pose proof (f_equal snd H) as Herr. rewrite Validate_error in Herr.
  simpl in Herr.
  destruct (requiredFields c) eqn:Hreq; [discriminate|].
  pose proof (ConfigFacts.requiredFields_BuyWindowSize c Hreq) as Hb.
  split; [|split; [|exact Hb]].
  - apply requiredFields_None_iff. apply requiredFields_None_iff in Hreq.
    unfold requiredFieldsPresent in *. rewrite Ha, He, Ht. exact Hreq.
  - rewrite Ht. simpl. intros Hen. rewrite Hen in Herr. exact Herr.
Qed.

(** X7. [Validate] returns [nil] exactly for the files that name a
    configured exchange with its two keys and a fee rate that is not
    negative, a symbol, an order quantity that is not [<= 0] and a
    positive buy window, and whose [take_profit] section, when enabled,
    has a target that is not [<= 0], an interval within [10, 300] and one
    of the two balance modes. *)
Theorem Validate_accepts_iff (c : Config.t) :
  snd (Validate c) = None <->
  requiredFieldsPresent c /\
  (TakeProfit.Enabled (Trading.TakeProfit (Trading c)) = true ->
   ~ takeProfitRejected (Trading.TakeProfit (Trading c))).
Proof.
  rewrite Validate_error, <- requiredFields_None_iff.
  pose proof (ConfigFacts.takeProfitError_Some_iff
                (Trading.TakeProfit (Trading c))) as Hrej.
  destruct (requiredFields c) as [err|];
    [split; [discriminate | intros [[=] _]]|].
  destruct (TakeProfit.Enabled _).
  - destruct (takeProfitError _) as [err|].
    + split; [discriminate|]. intros [_ H]. exfalso. apply (H eq_refl).
      apply Hrej. eauto.
    + split; [|reflexivity]. intros _. split; [reflexivity|].
      intros _ [err [=]]%Hrej.
  - split; [|reflexivity]. intros _. split; [reflexivity | discriminate].
Qed.

(** A file with the required fields and an enabled section with target
    5, interval 30 and mode "precise". *)
Lemma Validate_accepts_iff_witness :
  snd (Validate (minimal (RiskControl.mk true [] "" 0 0 0)
                         (TakeProfit.mk true 5 30 "precise"))) = None.
Proof.
  apply (proj2 (Validate_accepts_iff
                  (minimal (RiskControl.mk true [] "" 0 0 0)
                           (TakeProfit.mk true 5 30 "precise")))).
  split.
  - apply requiredFields_None_iff. vm_compute. reflexivity.
  - intros _ [H | [H | [_ H]]].
    + vm_compute in H. discriminate H.
    + simpl in H. lia.
    + simpl in H. congruence.
Defined.

(** X8. A configuration that [Validate] has accepted is accepted again.
    The second call leaves every field as the first call left it, but for
    the recovery threshold, which it brings down to the number of
    monitored symbols: the configuration is unchanged when the file set a
    positive threshold or at least three symbols are monitored, and a
    third call changes nothing in any case. *)
Theorem Validate_again (c c' : Config.t) :
  Validate c = (c', None) ->
  let rc' := RiskControl c' in
  snd (Validate c') = None /\
  fst (Validate c')
  = {| App := App c'; Exchanges := Exchanges c'; Trading := Trading c';
       System := System c';
       RiskControl :=
         {| RiskControl.Enabled := RiskControl.Enabled rc';
            RiskControl.MonitorSymbols := RiskControl.MonitorSymbols rc';
            RiskControl.Interval := RiskControl.Interval rc';
            RiskControl.VolumeMultiplier := RiskControl.VolumeMultiplier rc';
            RiskControl.AverageWindow := RiskControl.AverageWindow rc';
            RiskControl.RecoveryThreshold :=
              Z.min (RiskControl.RecoveryThreshold rc') (monitorCount c') |};
       Timing := Timing c' |} /\
  (0 < RiskControl.RecoveryThreshold (RiskControl c) \/ 3 <= monitorCount c' ->
   fst (Validate c') = c') /\
  fst (Validate (fst (Validate c'))) = fst (Validate c').
Proof.
  intros H. cbv zeta.
  destruct (Validate_accepted_sections c c' H)
    as (Ha & He & Ht & Hs & Hr & Hm).
  destruct (Validate_accepted_checks c c' H) as (Hreq & Htp & Hb).
  pose proof (Validate_passes c' Hreq Htp) as Hv.
  assert (Htr : tradingDefaults (Trading c') = Trading c')
    by (rewrite Ht; apply tradingDefaults_idem, Hb).
  assert (Htm : timingDefaults (Timing c') = Timing c')
    by (rewrite Hm; apply timingDefaults_idem).
  rewrite Htr, Htm in Hv.
  assert (Hrc : riskControlDefaults (RiskControl c')
                = {| RiskControl.Enabled := RiskControl.Enabled (RiskControl c');
                     RiskControl.MonitorSymbols :=
                       RiskControl.MonitorSymbols (RiskControl c');
                     RiskControl.Interval := RiskControl.Interval (RiskControl c');
                     RiskControl.VolumeMultiplier :=
                       RiskControl.VolumeMultiplier (RiskControl c');
                     RiskControl.AverageWindow :=
                       RiskControl.AverageWindow (RiskControl c');
                     RiskControl.RecoveryThreshold :=
                       Z.min (RiskControl.RecoveryThreshold (RiskControl c'))
                             (monitorCount c') |}).
  { unfold monitorCount. rewrite Hr.
    exact (riskControlDefaults_again (RiskControl c)). }
  split; [rewrite Hv; reflexivity|].
  split; [rewrite Hv; simpl; rewrite Hrc; reflexivity|].
  split.
  - intros Hrt. rewrite Hv. simpl. rewrite Hrc.
    assert (Hle : RiskControl.RecoveryThreshold (RiskControl c')
                  <= monitorCount c').
    { revert Hrt. unfold monitorCount. rewrite Hr.
      unfold riskControlDefaults; simpl.
      apply ConfigFacts.recoveryThreshold_upper. }
    rewrite Z.min_l by exact Hle.
    destruct c' as [a e t s [] m]; reflexivity.
  - rewrite Hv. simpl.
    assert (Hreq2 : requiredFields
                      {| App := App c'; Exchanges := Exchanges c';
                         Trading := Trading c'; System := System c';
                         RiskControl := riskControlDefaults (RiskControl c');
                         Timing := Timing c' |} = None)
      by exact Hreq.
    rewrite (Validate_passes _ Hreq2 Htp). simpl.
    rewrite Htr, Htm, Hr, riskControlDefaults_fixed. reflexivity.
Qed.

(** One monitored symbol: with the threshold unset the first call writes
    3 and the second 1; with a threshold of 5 the first call writes 1 and
    the second changes nothing. *)
Lemma Validate_again_witness :
  let unset := minimal (RiskControl.mk true ["BTCUSDT"] "" 0 0 0) takeProfitOff in
  let five := minimal (RiskControl.mk true ["BTCUSDT"] "" 0 0 5) takeProfitOff in
  (RiskControl.RecoveryThreshold (RiskControl (fst (Validate unset))) = 3 /\
   RiskControl.RecoveryThreshold
     (RiskControl (fst (Validate (fst (Validate unset))))) = 1) /\
  fst (Validate (fst (Validate five))) = fst (Validate five).
Proof.
  cbv zeta. split; [split; reflexivity|].
  refine (proj1 (proj2 (proj2
            (Validate_again
               (minimal (RiskControl.mk true ["BTCUSDT"] "" 0 0 5) takeProfitOff)
               (fst (Validate (minimal (RiskControl.mk true ["BTCUSDT"] "" 0 0 5)
                                       takeProfitOff)))
               _))) _).
  - vm_compute. reflexivity.
  - left. simpl. lia.
Defined.

(** X9. [LoadConfig] returns a configuration only when the file was
    read, parsed and accepted by [Validate], and the configuration it
    returns is the one [Validate] has filled in: the exchange named by
    [app.current_exchange] is in the map with its keys, the fields with a
    default hold a usable value, an enabled [take_profit] section is
    within its bounds, and [Validate] accepts the result. *)
Theorem LoadConfig_ok (Unmarshal : string -> Result string Config.t)
    (ReadFile : Result string string) (cfg : Config.t) :
  LoadConfig Unmarshal ReadFile = Ok cfg ->
  (exists data parsed,
     ReadFile = Ok data /\ Unmarshal data = Ok parsed /\
     Validate parsed = (cfg, None)) /\
  requiredFieldsPresent cfg /\
  defaultsApplied cfg /\
  (TakeProfit.Enabled (Trading.TakeProfit (Trading cfg)) = true ->
   ~ takeProfitRejected (Trading.TakeProfit (Trading cfg))) /\
  snd (Validate cfg) = None.
Proof.
  unfold LoadConfig. destruct ReadFile as [data|err]; [|discriminate].
  destruct (Unmarshal data) as [parsed|err] eqn:Hu; [|discriminate].
  destruct (Validate parsed) as [cfg' [err|]] eqn:Hv; [discriminate|].
  intros [= ->].
  destruct (Validate_accepted_sections parsed cfg Hv)
    as (Ha & He & Ht & Hs & Hr & Hm).
  destruct (Validate_accepted_checks parsed cfg Hv) as (Hreq & Htp & Hb).
  split; [eauto|].
  split; [apply requiredFields_None_iff, Hreq|].
  split.
  { unfold defaultsApplied. rewrite Ht, Hr, Hm.
    pose proof (ConfigFacts.tradingDefaults_applied _ Hb).
    pose proof (ConfigFacts.riskControlDefaults_applied (RiskControl parsed)).
    pose proof (ConfigFacts.timingDefaults_applied (Timing parsed)).
    auto. }
  split.
  { intros Hen [err Hrej]%ConfigFacts.takeProfitError_Some_iff.
    rewrite (Htp Hen) in Hrej. discriminate Hrej. }
  rewrite (Validate_passes cfg Hreq Htp). reflexivity.
Qed.

(** A file that holds the required fields only, read and parsed. *)
Lemma LoadConfig_ok_witness :
  let parsed := minimal (RiskControl.mk true [] "" 0 0 0) takeProfitOff in
  let cfg := fst (Validate parsed) in
  requiredFieldsPresent cfg /\ defaultsApplied cfg /\ snd (Validate cfg) = None.
Proof.
  cbv zeta.
  destruct (LoadConfig_ok
              (fun _ => Ok (minimal (RiskControl.mk true [] "" 0 0 0)
                                    takeProfitOff))
              (Ok "app: {current_exchange: bitget}")
              (fst (Validate (minimal (RiskControl.mk true [] "" 0 0 0)
                                      takeProfitOff))))
    as (_ & H1 & H2 & _ & H3).
  - vm_compute. reflexivity.
  - auto.
Defined.

End LoadFacts.

(** ** The two tickers *)

Module TickerFacts.
Import Sample.

Lemma wrap64_small (z : Z) :
  - 9223372036854775808 <= z < 9223372036854775808 -> Time.wrap64 z = z.
Proof.
  unfold Time.wrap64. change (2 ^ 63) with 9223372036854775808.
  change (2 ^ 64) with 18446744073709551616.
  intros H. rewrite Z.mod_small; lia.
Qed.

(** A count of units that fits 64 bits once multiplied by the unit. *)
Lemma mul_Duration_small (n unit : Z) :
  0 < unit -> 0 <= n -> n * unit < 9223372036854775808 ->
  Time.mul (Time.Duration n) unit = n * unit.
Proof.
  intros Hu Hn Hlt. unfold Time.mul, Time.Duration.
  rewrite (wrap64_small n) by nia. apply wrap64_small. nia.
Qed.

(** The ticker is created for every interval of up to 9223372036
    seconds. *)
Lemma ticker_returns (m : TakeProfitMonitor.t) :
  TakeProfit.CheckInterval
    (Trading.TakeProfit (Config.Trading (TakeProfitMonitor.cfg m)))
  <= 9223372036 ->
  exists period, TakeProfitMonitor.ticker m = Returns period.
Proof.
  unfold TakeProfitMonitor.ticker. set (ci := TakeProfit.CheckInterval _).
  intros Hle.
  set (ci' := if ci <=? 0 then 30 else ci).
  assert (H : 0 < ci' <= 9223372036)
    by (unfold ci'; destruct (Z.leb_spec ci 0); lia).
  rewrite mul_Duration_small by (unfold Time.Second; lia).
  unfold Time.NewTicker, Time.Second.
  destruct (Z.leb_spec (ci' * 1000000000) 0); [lia | eauto].
Qed.

(** X6. A call of [Start], with the creation of its ticker, on a monitor
    built by [NewTakeProfitMonitor] and written through
    [SetInitialBalance] and [Start]: the call panics exactly when
    take-profit is enabled and [time.NewTicker] panics on the period. It
    never panics in the loop: whenever [isBalanceSet] is true an initial
    balance is stored, so the type assertion of line 103 finds its
    [float64]. So the call does not panic when the check interval is at
    most 9223372036 seconds, nor on a configuration [Validate] has
    accepted; and the monitor it leaves is again one the three functions
    reach. *)
Theorem StartWithTicker_panics_iff (m : TakeProfitMonitor.t)
    (events : list TakeProfitMonitor.Event) :
  TakeProfitMonitor.Reachable m ->
  let run := TakeProfitMonitor.StartWithTicker m events in
  (TakeProfitMonitor.panicked (TakeProfitMonitor.status run) = true <->
   TakeProfitMonitor.Enabled m = true /\ TakeProfitMonitor.ticker m = Panics) /\
  (TakeProfit.CheckInterval
     (Trading.TakeProfit (Config.Trading (TakeProfitMonitor.cfg m)))
   <= 9223372036 ->
   TakeProfitMonitor.panicked (TakeProfitMonitor.status run) = false) /\
  (forall c : Config.t,
     Config.Validate c = (TakeProfitMonitor.cfg m, None) ->
     TakeProfitMonitor.panicked (TakeProfitMonitor.status run) = false) /\
  TakeProfitMonitor.Reachable (TakeProfitMonitor.monitor run).
Proof.
  intros Hr. cbv zeta.
  assert (Hloop : TakeProfitMonitor.panicked
                    (TakeProfitMonitor.status (TakeProfitMonitor.loop m events))
                  = false)
    by (apply TakeProfitFacts.loop_never_panics,
          TakeProfitFacts.Reachable_balance, Hr).
  assert (Hiff : TakeProfitMonitor.panicked
                   (TakeProfitMonitor.status
                      (TakeProfitMonitor.StartWithTicker m events)) = true <->
                 TakeProfitMonitor.Enabled m = true /\
                 TakeProfitMonitor.ticker m = Panics).
  { unfold TakeProfitMonitor.StartWithTicker.
    destruct (TakeProfitMonitor.Enabled m); simpl.
    - destruct (TakeProfitMonitor.ticker m) as [period|]; simpl.
      + rewrite Hloop. split; [discriminate | intros [_ [=]]].
      + split; auto.
    - split; [discriminate | intros [[=] _]]. }
  assert (Hok : (exists period, TakeProfitMonitor.ticker m = Returns period) ->
                TakeProfitMonitor.panicked
                  (TakeProfitMonitor.status
                     (TakeProfitMonitor.StartWithTicker m events)) = false).
  { intros [period Hp]. apply not_true_is_false. intros E.
    apply Hiff in E as [_ E]. congruence. }
  split; [exact Hiff|]. split; [|split].
  - intros Hle. apply Hok, ticker_returns, Hle.
  - intros c Hv.
    destruct (TakeProfitMonitor.Enabled m) eqn:Hen.
    + apply Hok, ticker_returns.
      destruct (LoadFacts.Validate_accepted_checks c _ Hv) as (_ & Htp & _).
      apply Htp in Hen. apply LoadFacts.takeProfitError_None_iff in Hen.
      lia.
    + apply not_true_is_false. intros E.
      apply Hiff in E as [E _]. congruence.
  - unfold TakeProfitMonitor.StartWithTicker.
    destruct (TakeProfitMonitor.Enabled m) eqn:Hen; simpl; [|exact Hr].
    destruct (TakeProfitMonitor.ticker m); simpl; [|exact Hr].
    replace (TakeProfitMonitor.loop m events)
      with (TakeProfitMonitor.Start m events)
      by (unfold TakeProfitMonitor.Start; rewrite Hen; reflexivity).
    apply TakeProfitMonitor.Reachable_Start, Hr.
Qed.

(** A monitor on a validated configuration with an interval of 30
    seconds, which ticks once before its initial balance is recorded and
    twice after. *)
Lemma StartWithTicker_panics_iff_witness :
  let cfg := fst (Config.Validate
                    (minimal (RiskControl.mk true [] "" 0 0 0)
                             (TakeProfit.mk true 5 30 "auto"))) in
  let snapshot := Ok (Account.mk 1000 1000 900 0) in
  let m1 := TakeProfitMonitor.monitor
              (TakeProfitMonitor.Start
                 (TakeProfitMonitor.NewTakeProfitMonitor cfg)
                 [TakeProfitMonitor.Tick snapshot]) in
  let m2 := fst (TakeProfitMonitor.SetInitialBalance m1 snapshot) in
  TakeProfitMonitor.panicked
    (TakeProfitMonitor.status
       (TakeProfitMonitor.StartWithTicker m2
          [TakeProfitMonitor.Tick snapshot; TakeProfitMonitor.Tick snapshot]))
  = false.
Proof.
  cbv zeta.
  refine (proj1 (proj2 (proj2
            (StartWithTicker_panics_iff
               (fst (TakeProfitMonitor.SetInitialBalance
                       (TakeProfitMonitor.monitor
                          (TakeProfitMonitor.Start
                             (TakeProfitMonitor.NewTakeProfitMonitor
                                (fst (Config.Validate
                                        (minimal (RiskControl.mk true [] "" 0 0 0)
                                                 (TakeProfit.mk true 5 30 "auto")))))
                             [TakeProfitMonitor.Tick
                                (Ok (Account.mk 1000 1000 900 0))]))
                       (Ok (Account.mk 1000 1000 900 0))))
               [TakeProfitMonitor.Tick (Ok (Account.mk 1000 1000 900 0));
                TakeProfitMonitor.Tick (Ok (Account.mk 1000 1000 900 0))]
               _)))
            (minimal (RiskControl.mk true [] "" 0 0 0)
                     (TakeProfit.mk true 5 30 "auto"))
            _).
  - apply TakeProfitMonitor.Reachable_SetInitialBalance,
      TakeProfitMonitor.Reachable_Start, TakeProfitMonitor.Reachable_new.
  - vm_compute. reflexivity.
Defined.

(** A new monitor on a configuration that was not validated, with an
    interval of 9223372037 seconds: the call panics on its ticker. *)
Example StartWithTicker_wraps :
  TakeProfitMonitor.panicked
    (TakeProfitMonitor.status
       (TakeProfitMonitor.StartWithTicker
          (TakeProfitMonitor.NewTakeProfitMonitor
             (minimal (RiskControl.mk true [] "" 0 0 0)
                      (TakeProfit.mk true 5 9223372037 "auto")))
          [TakeProfitMonitor.Tick (Ok (Account.mk 1000 1000 900 0))]))
  = true.
Proof. vm_compute. reflexivity. Qed.

(** X10. The ticker of [TakeProfitMonitor.Start]. A check interval that
    is [<= 0] gives a period of 30 seconds; an interval of up to
    9223372036 seconds gives that many seconds; in both cases
    [time.NewTicker] returns. For a monitor whose configuration
    [Validate] has accepted with take-profit enabled, the period is the
    configured interval, between 10 and 300 seconds. *)
Theorem ticker_period (m : TakeProfitMonitor.t) :
  let checkInterval :=
    TakeProfit.CheckInterval
      (Trading.TakeProfit (Config.Trading (TakeProfitMonitor.cfg m))) in
  (checkInterval <= 0 ->
   TakeProfitMonitor.ticker m = Returns (30 * Time.Second)) /\
  (0 < checkInterval <= 9223372036 ->
   TakeProfitMonitor.ticker m = Returns (checkInterval * Time.Second)) /\
  (forall c : Config.t,
     Config.Validate c = (TakeProfitMonitor.cfg m, None) ->
     TakeProfitMonitor.Enabled m = true ->
     TakeProfitMonitor.ticker m = Returns (checkInterval * Time.Second) /\
     10 * Time.Second <= checkInterval * Time.Second <= 300 * Time.Second).
Proof.
  cbv zeta. unfold TakeProfitMonitor.ticker.
  set (ci := TakeProfit.CheckInterval _).
  assert (Hpos : 0 < ci <= 9223372036 ->
                 Time.NewTicker (Time.mul (Time.Duration ci) Time.Second)
                 = Returns (ci * Time.Second)).
  { intros H. rewrite mul_Duration_small by (unfold Time.Second; lia).
    unfold Time.NewTicker, Time.Second.
    destruct (Z.leb_spec (ci * 1000000000) 0); [lia | reflexivity]. }
  split; [|split].
  - intros H. destruct (Z.leb_spec ci 0); [reflexivity | lia].
  - intros H. destruct (Z.leb_spec ci 0); [lia | apply Hpos, H].
  - intros c Hv Hen.
    destruct (LoadFacts.Validate_accepted_checks c _ Hv) as (_ & Htp & _).
    apply Htp in Hen. apply LoadFacts.takeProfitError_None_iff in Hen.
    destruct Hen as (_ & Hci & _). fold ci in Hci.
    split; [|unfold Time.Second; lia].
    destruct (Z.leb_spec ci 0); [lia | apply Hpos; lia].
Qed.

(** A validated section with an interval of 45 seconds. *)
Lemma ticker_period_witness :
  let cfg := fst (Config.Validate
                    (minimal (RiskControl.mk true [] "" 0 0 0)
                             (TakeProfit.mk true 5 45 "auto"))) in
  TakeProfitMonitor.ticker (TakeProfitMonitor.NewTakeProfitMonitor cfg)
  = Returns (45 * Time.Second) /\
  10 * Time.Second <= 45 * Time.Second <= 300 * Time.Second.
Proof.
  exact (proj2 (proj2
           (ticker_period
              (TakeProfitMonitor.NewTakeProfitMonitor
                 (fst (Config.Validate
                         (minimal (RiskControl.mk true [] "" 0 0 0)
                                  (TakeProfit.mk true 5 45 "auto")))))))
           (minimal (RiskControl.mk true [] "" 0 0 0)
                    (TakeProfit.mk true 5 45 "auto"))
           eq_refl eq_refl).
Defined.

(** Without validation, an interval of 9223372037 seconds wraps around to
    a negative number of nanoseconds. *)
Example ticker_wraps :
  TakeProfitMonitor.ticker
    (monitorOf (TakeProfit.mk true 5 9223372037 "auto") None false)
  = Panics.
Proof. vm_compute. reflexivity. Qed.

(** X11. The ticker of the status goroutine of [main.go], for a
    configuration [Validate] has accepted: its period is the configured
    number of minutes, or one minute for a number that is [<= 0], and
    [time.NewTicker] returns, as long as that number is at most
    153722867 (some 292 years). *)
Theorem statusTicker_period (c cfg : Config.t) :
  Config.Validate c = (cfg, None) ->
  Timing.StatusPrintInterval (Config.Timing c) <= 153722867 ->
  let minutes := Timing.StatusPrintInterval (Config.Timing cfg) in
  minutes = Config.orDefault (Timing.StatusPrintInterval (Config.Timing c)) 1 /\
  0 < minutes /\
  Main.statusTicker cfg = Returns (minutes * Time.Minute).
Proof.
  intros Hv Hle. cbv zeta. unfold Main.statusTicker.
  destruct (LoadFacts.Validate_accepted_sections c cfg Hv)
    as (_ & _ & _ & _ & _ & ->).
  simpl. set (spi := Timing.StatusPrintInterval (Config.Timing c)) in *.
  assert (H : 0 < Config.orDefault spi 1 <= 153722867).
  { unfold Config.orDefault. destruct (Z.leb_spec spi 0); lia. }
  split; [reflexivity|]. split; [lia|].
  rewrite mul_Duration_small by (unfold Time.Minute; lia).
  unfold Time.NewTicker, Time.Minute.
  destruct (Z.leb_spec (Config.orDefault spi 1 * 60000000000) 0);
    [lia | reflexivity].
Qed.

(** A file that leaves [status_print_interval] unset. *)
Lemma statusTicker_period_witness :
  Main.statusTicker
    (fst (Config.Validate (minimal (RiskControl.mk true [] "" 0 0 0)
                                   takeProfitOff)))
  = Returns (1 * Time.Minute).
Proof.
  apply (statusTicker_period
           (minimal (RiskControl.mk true [] "" 0 0 0) takeProfitOff)).
  - vm_compute. reflexivity.
  - simpl. lia.
Defined.

(** [Validate] puts no upper bound on the interval: a file that asks for
    153722868 minutes is accepted, and the ticker panics. *)
Example statusTicker_wraps :
  let c :=
    {| Config.App := Config.App (minimal (RiskControl.mk true [] "" 0 0 0)
                                         takeProfitOff);
       Config.Exchanges :=
         Config.Exchanges (minimal (RiskControl.mk true [] "" 0 0 0)
                                   takeProfitOff);
       Config.Trading :=
         Config.Trading (minimal (RiskControl.mk true [] "" 0 0 0)
                                 takeProfitOff);
       Config.System := System.mk "" false;
       Config.RiskControl := RiskControl.mk true [] "" 0 0 0;
       Config.Timing := Timing.mk 0 0 0 0 0 0 0 0 0 153722868 0 |} in
  snd (Config.Validate c) = None /\
  Main.statusTicker (fst (Config.Validate c)) = Panics.
Proof. vm_compute. split; reflexivity. Qed.

End TickerFacts.

(** ** The balances of the take-profit monitor *)

Module ProfitFacts.
Import TakeProfitMonitor Sample.

(** A check that returns true has stored the balance it compared. *)
Lemma checkProfitAndTrigger_true (m m' : t)
    (reply : Result VenueError Account.t) :
  checkProfitAndTrigger m reply = Returns (true, m') ->
  exists initial current,
    initialBalance m' = Some initial /\ lastBalance m' = Some current /\
    float_geb (current - initial)%float (TargetProfit m) = true.
Proof.
  unfold checkProfitAndTrigger.
  destruct (triggered m); [discriminate|].
  destruct reply as [account|err]; [|discriminate]. simpl.
  destruct (initialBalance m) as [initial|]; [|discriminate].
  unfold TargetProfit at 1. simpl. fold (TargetProfit m).
  destruct (float_geb _ (TargetProfit m)) eqn:E; [|discriminate].
  intros [= <-]. simpl. eauto.
Qed.

(** A check never empties the stored last balance. *)
Lemma checkProfitAndTrigger_lastBalance (m m' : t)
    (reply : Result VenueError Account.t) (b : bool) :
  checkProfitAndTrigger m reply = Returns (b, m') ->
  lastBalance m <> None -> lastBalance m' <> None.
Proof.
  unfold checkProfitAndTrigger.
  destruct (triggered m); [intros [= <- <-]; auto|].
  destruct reply as [account|err]; [|intros [= <- <-]; auto]. simpl.
  destruct (initialBalance m); [|discriminate].
  destruct (float_geb _ _); intros [= <- <-]; simpl; discriminate.
Qed.

Lemma loop_lastBalance (events : list Event) (m : t) :
  lastBalance m <> None -> lastBalance (monitor (loop m events)) <> None.
Proof.
  revert m. induction events as [|[|reply] rest IH]; intros m H; simpl; auto.
  destruct (negb (isBalanceSet m)); [apply IH, H|].
  destruct (checkProfitAndTrigger m reply) as [[[] m']|] eqn:E; simpl; auto.
  - exact (checkProfitAndTrigger_lastBalance _ _ _ _ E H).
  - apply IH. exact (checkProfitAndTrigger_lastBalance _ _ _ _ E H).
Qed.

(** Before an initial balance is recorded, the loop leaves the monitor
    alone. *)
Lemma loop_unset (events : list Event) (m : t) :
  isBalanceSet m = false -> monitor (loop m events) = m.
Proof.
  intros H. induction events as [|[|reply] rest IH]; simpl; auto.
  rewrite H. exact IH.
Qed.

(** The two balances of a reachable monitor are stored together, when
    [SetInitialBalance] succeeds, and the initial one is not [<= 0]. *)
Lemma Reachable_balances (m : t) :
  Reachable m ->
  (isBalanceSet m = true ->
   exists initial current,
     initialBalance m = Some initial /\ lastBalance m = Some current /\
     (initial <=? 0)%float = false) /\
  (isBalanceSet m = false -> initialBalance m = None /\ lastBalance m = None).
Proof.
  induction 1 as [cfg | m reply _ [IHt IHf] | m events _ [IHt IHf]].
  - split; [discriminate | auto].
  - unfold SetInitialBalance. destruct reply as [account|err]; simpl; auto.
    destruct (getEffectiveBalance m account <=? 0)%float eqn:E; simpl; auto.
    split; [eauto | discriminate].
  - unfold Start. destruct (negb (Enabled m)); simpl; auto.
    destruct (isBalanceSet m) eqn:Hset.
    + destruct (TakeProfitFacts.loop_balance events m) as [Hi Hs].
      rewrite Hi, Hs, Hset. split; [|discriminate]. intros _.
      destruct (IHt eq_refl) as (initial & current & Hinit & Hlast & Hpos).
      assert (Hl : lastBalance m <> None) by congruence.
      apply (loop_lastBalance events) in Hl.
      destruct (lastBalance (monitor (loop m events))) as [current'|];
        [eauto | contradiction].
    + rewrite (loop_unset events m Hset), Hset. auto.
Qed.

(** X12. On a monitor built by [NewTakeProfitMonitor] and written through
    [SetInitialBalance] and [Start], [GetCurrentProfit] panics until
    [SetInitialBalance] has succeeded, and from then on returns the
    initial balance, the last balance fetched and their difference; the
    initial balance is not [<= 0]. *)
Theorem GetCurrentProfit_reachable (m : t) :
  Reachable m ->
  (isBalanceSet m = false -> GetCurrentProfit m = Panics) /\
  (isBalanceSet m = true ->
   exists initial current,
     GetCurrentProfit m = Returns (initial, current, (current - initial)%float) /\
     initialBalance m = Some initial /\ lastBalance m = Some current /\
     (initial <=? 0)%float = false).
Proof.
  intros [Ht Hf]%Reachable_balances. unfold GetCurrentProfit. split.
  - intros [-> _]%Hf. reflexivity.
  - intros (initial & current & -> & -> & Hpos)%Ht. eauto 6.
Qed.

(** A new monitor, and one that recorded 1000 and then fetched 1003. *)
Lemma GetCurrentProfit_reachable_witness :
  let m0 := NewTakeProfitMonitor
              (minimal (RiskControl.mk true [] "" 0 0 0)
                       (TakeProfit.mk true 5 30 "auto")) in
  let m1 := fst (SetInitialBalance m0 (Ok (Account.mk 1000 1000 900 0))) in
  let m2 := monitor (Start m1 [Tick (Ok (Account.mk 1003 1003 900 0))]) in
  GetCurrentProfit m0 = Panics /\
  exists initial current,
    GetCurrentProfit m2 = Returns (initial, current, (current - initial)%float) /\
    initialBalance m2 = Some initial /\ lastBalance m2 = Some current /\
    (initial <=? 0)%float = false.
Proof.
  cbv zeta. split.
  - apply (GetCurrentProfit_reachable
             (NewTakeProfitMonitor
                (minimal (RiskControl.mk true [] "" 0 0 0)
                         (TakeProfit.mk true 5 30 "auto")))).
    + apply Reachable_new.
    + reflexivity.
  - apply (GetCurrentProfit_reachable
             (monitor
                (Start
                   (fst (SetInitialBalance
                           (NewTakeProfitMonitor
                              (minimal (RiskControl.mk true [] "" 0 0 0)
                                       (TakeProfit.mk true 5 30 "auto")))
                           (Ok (Account.mk 1000 1000 900 0))))
                   [Tick (Ok (Account.mk 1003 1003 900 0))]))).
    + apply Reachable_Start, Reachable_SetInitialBalance, Reachable_new.
    + reflexivity.
Defined.

(** A run that called [onTrigger] left the two balances of the check that
    fired in the monitor. *)
Lemma loop_called_balances (events : list Event) (m : t) :
  onTriggerCalls (loop m events) = 1%nat ->
  exists initial current,
    initialBalance (monitor (loop m events)) = Some initial /\
    lastBalance (monitor (loop m events)) = Some current /\
    float_geb (current - initial)%float (TargetProfit m) = true.
Proof.
  revert m. induction events as [|[|reply] rest IH]; intros m; simpl;
    [discriminate..|].
  destruct (negb (isBalanceSet m)); [apply IH|].
  destruct (checkProfitAndTrigger m reply) as [[[] m']|] eqn:E; simpl.
  - intros _. exact (checkProfitAndTrigger_true _ _ _ E).
  - intros H. apply TakeProfitFacts.checkProfitAndTrigger_flag in E
      as (_ & Hcfg & _).
    destruct (IH m' H) as (initial & current & Hi & Hl & Hge).
    exists initial, current. repeat split; auto.
    unfold TargetProfit in *. rewrite <- Hcfg. exact Hge.
  - discriminate.
Qed.

(** X13. When a run of [Start] has called [onTrigger], what
    [GetCurrentProfit] returns inside the callback is the profit that
    fired: the call does not panic, its third result is the second minus
    the first, and it is [>=] the target; [IsTriggered] is true. *)
Theorem GetCurrentProfit_at_trigger (m : t) (events : list Event) :
  onTriggerCalls (Start m events) = 1%nat ->
  let m' := monitor (Start m events) in
  IsTriggered m' = true /\
  exists initial current,
    GetCurrentProfit m' = Returns (initial, current, (current - initial)%float) /\
    float_geb (current - initial)%float (TargetProfit m) = true.
Proof.
  intros H. cbv zeta. split.
  - apply (TakeProfitFacts.Start_called m events H).
  - revert H. unfold Start. destruct (negb (Enabled m)); simpl; [discriminate|].
    intros (initial & current & Hi & Hl & Hge)%loop_called_balances.
    exists initial, current. unfold GetCurrentProfit. rewrite Hi, Hl. auto.
Qed.

(** An initial balance of 1000, a target of 5, and ticks at 1001 and
    1006. *)
Lemma GetCurrentProfit_at_trigger_witness :
  let m := monitorOf (TakeProfit.mk true 5 30 "auto") (Some 1000%float) false in
  let events := [Tick (Ok (Account.mk 1001 1001 900 0));
                 Tick (Ok (Account.mk 1006 1006 900 0))] in
  IsTriggered (monitor (Start m events)) = true /\
  exists initial current,
    GetCurrentProfit (monitor (Start m events))
    = Returns (initial, current, (current - initial)%float) /\
    float_geb (current - initial)%float (TargetProfit m) = true.
Proof.
  exact (GetCurrentProfit_at_trigger
           (monitorOf (TakeProfit.mk true 5 30 "auto") (Some 1000%float) false)
           [Tick (Ok (Account.mk 1001 1001 900 0));
            Tick (Ok (Account.mk 1006 1006 900 0))]
           eq_refl).
Defined.

(** What a call of [SetInitialBalance] that returns [nil] has stored. *)
Lemma SetInitialBalance_nil (m m' : t) (reply : Result VenueError Account.t) :
  SetInitialBalance m reply = (m', None) ->
  exists account,
    reply = Ok account /\
    (getEffectiveBalance m' account <=? 0)%float = false /\
    initialBalance m' = Some (getEffectiveBalance m' account) /\
    isBalanceSet m' = true.
Proof.
  unfold SetInitialBalance. destruct reply as [account|err]; [|discriminate].
  destruct (getEffectiveBalance m account <=? 0)%float eqn:Hpos;
    [discriminate|].
  intros [= <-]. exists account. simpl. auto.
Qed.

(** X14. In [main.go] the status goroutine never panics in
    [GetCurrentProfit]: [main] goes on past line 226 only with
    take-profit disabled or with an initial balance recorded, and
    whatever [Start] has received since, a tick of the status goroutine
    returns. With take-profit enabled its last line shows the balance
    recorded at startup, which is not [<= 0], the last balance fetched,
    their difference and the percentage computed from them. *)
Theorem statusTick_returns (cfg : Config.t)
    (reply : Result VenueError Account.t) (m : t) (events : list Event)
    (riskTriggered : bool) :
  Main.setupTakeProfit cfg reply = Main.Proceeds m ->
  exists lines,
    Main.statusTick cfg riskTriggered (monitor (Start m events))
    = Returns lines /\
    (TakeProfit.Enabled (Trading.TakeProfit (Config.Trading cfg)) = true ->
     exists account current,
       reply = Ok account /\
       (getEffectiveBalance m account <=? 0)%float = false /\
       last lines
       = let initial := getEffectiveBalance m account in
         let profit := (current - initial)%float in
         Some (Main.TakeProfitStatus initial current profit
                 (profit / initial * 100)%float)).
Proof.
  unfold Main.setupTakeProfit, Main.statusTick.
  destruct (TakeProfit.Enabled _) eqn:Hen.
  - destruct (SetInitialBalance (NewTakeProfitMonitor cfg) reply)
      as [m1 [err|]] eqn:Hset; [discriminate|].
    intros [= <-].
    assert (Hr : Reachable (monitor (Start m1 events))).
    { replace m1 with (fst (SetInitialBalance (NewTakeProfitMonitor cfg) reply))
        by (rewrite Hset; reflexivity).
      apply Reachable_Start, Reachable_SetInitialBalance, Reachable_new. }
    destruct (SetInitialBalance_nil _ _ _ Hset)
      as (account & -> & Hpos & Hi1 & Hs1).
    assert (Hb : initialBalance (monitor (Start m1 events)) = initialBalance m1 /\
                 isBalanceSet (monitor (Start m1 events)) = isBalanceSet m1).
    { unfold Start. destruct (negb (Enabled m1)); simpl; [auto|].
      apply (TakeProfitFacts.loop_balance events m1). }
    destruct Hb as [Hi Hs]. rewrite Hi1 in Hi. rewrite Hs1 in Hs.
    destruct (proj1 (Reachable_balances _ Hr) Hs)
      as (initial & current & _ & Hl & _).
    unfold GetCurrentProfit. rewrite Hi, Hl.
    eexists. split; [reflexivity|]. intros _.
    exists account, current. split; [reflexivity|]. split; [exact Hpos|].
    rewrite last_snoc. reflexivity.
  - intros [= <-]. eexists. split; [reflexivity | discriminate].
Qed.

(** Startup with a margin balance of 1000, then two ticks of [Start]. *)
Lemma statusTick_returns_witness :
  let cfg := minimal (RiskControl.mk true [] "" 0 0 0)
                     (TakeProfit.mk true 5 30 "auto") in
  let m := fst (SetInitialBalance (NewTakeProfitMonitor cfg)
                  (Ok (Account.mk 1000 1000 900 0))) in
  let events := [Tick (Ok (Account.mk 1001 1001 900 0));
                 Tick (Err "timeout")] in
  exists lines,
    Main.statusTick cfg false (monitor (Start m events)) = Returns lines /\
    (true = true ->
     exists account current,
       @Ok VenueError _ (Account.mk 1000 1000 900 0) = Ok account /\
       (getEffectiveBalance m account <=? 0)%float = false /\
       last lines
       = let initial := getEffectiveBalance m account in
         let profit := (current - initial)%float in
         Some (Main.TakeProfitStatus initial current profit
                 (profit / initial * 100)%float)).
Proof.
  exact (statusTick_returns
           (minimal (RiskControl.mk true [] "" 0 0 0)
                    (TakeProfit.mk true 5 30 "auto"))
           (Ok (Account.mk 1000 1000 900 0))
           (fst (SetInitialBalance
                   (NewTakeProfitMonitor
                      (minimal (RiskControl.mk true [] "" 0 0 0)
                               (TakeProfit.mk true 5 30 "auto")))
                   (Ok (Account.mk 1000 1000 900 0))))
           [Tick (Ok (Account.mk 1001 1001 900 0)); Tick (Err "timeout")]
           false eq_refl).
Defined.

(** *** The last balance *)

Lemma lastFetched_app (m : t) (events events' : list Event)
    (previous : option float64) :
  lastFetched m (events ++ events') previous
  = lastFetched m events' (lastFetched m events previous).
Proof.
  revert previous. induction events as [|[|[account|err]] events IH];
    intros previous; simpl; auto.
Qed.

Lemma lastFetched_any (m m' : t) (events : list Event)
    (previous : option float64) :
  lastFetched m events previous = lastFetched m' events previous.
Proof.
  revert previous. induction events as [|[|[account|err]] events IH];
    intros previous; simpl; auto.
Qed.

(** What a check that returns leaves as the last balance. *)
Lemma checkProfitAndTrigger_fetched (m m' : t)
    (reply : Result VenueError Account.t) (b : bool) :
  triggered m = false ->
  checkProfitAndTrigger m reply = Returns (b, m') ->
  lastBalance m' = lastFetched m [Tick reply] (lastBalance m).
Proof.
  unfold checkProfitAndTrigger. intros ->.
  destruct reply as [account|err]; [|intros [= <- <-]; reflexivity]. simpl.
  destruct (initialBalance m); [|discriminate].
  destruct (float_geb _ _); intros [= <- <-]; reflexivity.
Qed.

Lemma loop_lastFetched (events : list Event) (m : t) (initial : float64) :
  isBalanceSet m = true -> triggered m = false ->
  initialBalance m = Some initial ->
  exists received,
    events = (received ++ unreceived (loop m events))%list /\
    lastBalance (monitor (loop m events))
    = lastFetched m received (lastBalance m).
Proof.
  revert m. induction events as [|[|reply] rest IH]; intros m Hset Ht Hinit.
  - exists []. auto.
  - exists [CtxDone]. auto.
  - simpl. rewrite Hset. simpl.
    destruct (TakeProfitFacts.loop_tick m initial reply rest Hset Hinit)
      as [(_ & m' & E & _) | (_ & m' & E & _)]; rewrite E.
    + exists [Tick reply]. split; [reflexivity|].
      exact (checkProfitAndTrigger_fetched _ _ _ _ Ht E).
    + pose proof (checkProfitAndTrigger_fetched _ _ _ _ Ht E) as Hl.
      apply TakeProfitFacts.checkProfitAndTrigger_flag in E
        as (Ht' & _ & Hset' & Hinit').
      rewrite Ht in Ht'. simpl in Ht'.
      destruct (IH m') as (received & Hev & Hlast); try congruence.
      exists (Tick reply :: received). split; [simpl; f_equal; exact Hev|].
      rewrite Hlast, Hl, (lastFetched_any m' m).
      change (Tick reply :: received) with ([Tick reply] ++ received)%list.
      rewrite lastFetched_app. reflexivity.
Qed.

(** X27. The last balance of a monitor, which [GetCurrentProfit] reports
    as the current one. After a run of [Start] on an enabled monitor that
    has recorded its initial balance and has not triggered, it is the
    effective balance of the last account the venue sent in reply to a
    tick the run received, the tick that fired included; a tick whose
    account request failed leaves it as it was, so the status can show a
    balance that is older than its line. On a monitor that has triggered,
    a run fetches nothing and the last balance stays. *)
Theorem lastBalance_lastFetched (m : t) (initial : float64)
    (events : list Event) :
  isBalanceSet m = true -> initialBalance m = Some initial ->
  (triggered m = false -> Enabled m = true ->
   exists received,
     events = (received ++ unreceived (Start m events))%list /\
     lastBalance (monitor (Start m events))
     = lastFetched m received (lastBalance m)) /\
  (triggered m = true ->
   lastBalance (monitor (Start m events)) = lastBalance m).
Proof.
  intros Hset Hinit. split.
  - intros Ht Hen. unfold Start. rewrite Hen. simpl.
    exact (loop_lastFetched events m initial Hset Ht Hinit).
  - intros Ht. unfold Start. destruct (negb (Enabled m)); [reflexivity|].
    clear Hinit. induction events as [|[|reply] rest IH]; simpl; auto.
    rewrite Hset. simpl.
    rewrite (TakeProfitFacts.checkProfitAndTrigger_triggered m reply Ht).
    exact IH.
Qed.

(** A fetch of 1003, a fetch that fails, and the end of the context. *)
Lemma lastBalance_lastFetched_witness :
  let m := monitorOf (TakeProfit.mk true 5 30 "auto") (Some 1000%float) false in
  let events := [Tick (Ok (Account.mk 1003 1003 900 0)); Tick (Err "timeout");
                 CtxDone; Tick (Ok (Account.mk 1004 1004 900 0))] in
  exists received,
    events = (received ++ unreceived (Start m events))%list /\
    lastBalance (monitor (Start m events))
    = lastFetched m received (lastBalance m).
Proof.
  exact (proj1 (lastBalance_lastFetched
                  (monitorOf (TakeProfit.mk true 5 30 "auto")
                             (Some 1000%float) false)
                  1000%float
                  [Tick (Ok (Account.mk 1003 1003 900 0)); Tick (Err "timeout");
                   CtxDone; Tick (Ok (Account.mk 1004 1004 900 0))]
                  eq_refl eq_refl)
           eq_refl eq_refl).
Defined.

Example lastBalance_after_failed_fetch :
  lastBalance
    (monitor
       (Start (monitorOf (TakeProfit.mk true 5 30 "auto") (Some 1000%float) false)
          [Tick (Ok (Account.mk 1003 1003 900 0)); Tick (Err "timeout");
           CtxDone; Tick (Ok (Account.mk 1004 1004 900 0))]))
  = Some 1003%float.
Proof. reflexivity. Qed.

(** *** A monitor that has triggered stays so *)

Lemma SetInitialBalance_triggered (m : t) (reply : Result VenueError Account.t) :
  triggered (fst (SetInitialBalance m reply)) = triggered m.
Proof.
  unfold SetInitialBalance. destruct reply as [account|err]; [|reflexivity].
  destruct (_ <=? 0)%float; reflexivity.
Qed.

Lemma uses_triggered (calls : list Use) (m : t) :
  triggered m = true ->
  snd (uses m calls) = 0%nat /\ triggered (fst (uses m calls)) = true.
Proof.
  revert m. induction calls as [|[reply|events] calls IH]; intros m Ht; simpl;
    [auto| |].
  - apply IH. rewrite SetInitialBalance_triggered. exact Ht.
  - destruct (TakeProfitFacts.Start_triggered m events Ht) as [H0 Ht'].
    specialize (IH _ Ht'). destruct (uses _ calls) as [m' n]. simpl in *.
    split; [lia | tauto].
Qed.

(** X24. [IsTriggered] never goes back to false, and [onTrigger] is
    called at most once over the life of a monitor: over any sequence of
    calls of [SetInitialBalance] and [Start], with any replies of the
    venue, the callback runs at most once; on a monitor that has
    triggered it never runs, recording a new initial balance does not arm
    the monitor again, and after a run that called it [IsTriggered] is
    true for good. *)
Theorem IsTriggered_for_good (m : t) (calls : list Use) :
  (snd (uses m calls) <= 1)%nat /\
  (IsTriggered m = true ->
   snd (uses m calls) = 0%nat /\ IsTriggered (fst (uses m calls)) = true) /\
  (snd (uses m calls) = 1%nat -> IsTriggered (fst (uses m calls)) = true).
Proof.
  unfold IsTriggered. split; [|split; [apply uses_triggered|]].
  - revert m. induction calls as [|[reply|events] calls IH]; intros m; simpl;
      [lia | apply IH |].
    pose proof (TakeProfitFacts.Start_calls_le_1 m events) as Hle.
    destruct (Nat.eq_dec (onTriggerCalls (Start m events)) 1%nat) as [E|E].
    + destruct (TakeProfitFacts.Start_called m events E) as (_ & Ht & _).
      destruct (uses_triggered calls _ Ht) as [H0 _].
      destruct (uses _ calls) as [m' n]. simpl in *. lia.
    + specialize (IH (monitor (Start m events))).
      destruct (uses _ calls) as [m' n]. simpl in *. lia.
  - revert m. induction calls as [|[reply|events] calls IH]; intros m; simpl;
      [discriminate | apply IH |].
    destruct (Nat.eq_dec (onTriggerCalls (Start m events)) 1%nat) as [E|E].
    + destruct (TakeProfitFacts.Start_called m events E) as (_ & Ht & _).
      destruct (uses_triggered calls _ Ht) as [_ Ht'].
      destruct (uses _ calls) as [m' n]. simpl in *. intros _. exact Ht'.
    + pose proof (TakeProfitFacts.Start_calls_le_1 m events) as Hle.
      specialize (IH (monitor (Start m events))).
      destruct (uses _ calls) as [m' n]. simpl in *. intros H. apply IH. lia.
Qed.

(** A monitor that triggers, records a new and lower initial balance,
    and is started again on a balance far above it. *)
Lemma IsTriggered_for_good_witness :
  let m := monitorOf (TakeProfit.mk true 5 30 "auto") (Some 1000%float) false in
  let calls := [UseStart [Tick (Ok (Account.mk 1006 1006 900 0))];
                UseSetInitialBalance (Ok (Account.mk 500 500 500 0));
                UseStart [Tick (Ok (Account.mk 1006 1006 900 0))]] in
  snd (uses m calls) = 1%nat /\ IsTriggered (fst (uses m calls)) = true.
Proof.
  cbv zeta. split; [reflexivity|].
  apply (proj2 (proj2 (IsTriggered_for_good
                         (monitorOf (TakeProfit.mk true 5 30 "auto")
                                    (Some 1000%float) false)
                         [UseStart [Tick (Ok (Account.mk 1006 1006 900 0))];
                          UseSetInitialBalance (Ok (Account.mk 500 500 500 0));
                          UseStart [Tick (Ok (Account.mk 1006 1006 900 0))]]))).
  reflexivity.
Defined.

(** *** Balances that are not numbers *)

(** A comparison that holds has two numbers to compare, and a difference
    that is a number is one of two numbers. *)
Lemma float_leb_numbers (x y : float64) :
  (x <=? y)%float = true -> is_nan x = false /\ is_nan y = false.
Proof.
  rewrite FloatAxioms.leb_spec, !is_nan_false. unfold SFleb.
  destruct (Prim2SF x), (Prim2SF y); simpl; try discriminate;
    intros _; split; discriminate.
Qed.

Lemma float_sub_numbers (x y : float64) :
  is_nan (x - y)%float = false -> is_nan x = false /\ is_nan y = false.
Proof.
  rewrite !is_nan_false, sub_spec. unfold SF64sub, SFsub.
  destruct (Prim2SF x), (Prim2SF y); simpl; try congruence;
    intros _; split; discriminate.
Qed.

(** With a balance or a target that is NaN, no check fires. *)
Lemma checkProfitAndTrigger_nan (m m' : t) (initial : float64)
    (reply : Result VenueError Account.t) (b : bool) :
  initialBalance m = Some initial ->
  is_nan initial = true \/ is_nan (TargetProfit m) = true ->
  checkProfitAndTrigger m reply = Returns (b, m') -> b = false.
Proof.
  intros Hinit Hnan. destruct b; [|reflexivity]. intros E.
  destruct (proj1 (TakeProfitFacts.checkProfitAndTrigger_true_iff
                     m initial reply Hinit) (ex_intro _ m' E))
    as (_ & account & _ & Hge).
  unfold float_geb in Hge. apply float_leb_numbers in Hge as [Ht Hd].
  apply float_sub_numbers in Hd as [_ Hi]. destruct Hnan; congruence.
Qed.

Lemma loop_nan (events : list Event) (m : t) (initial : float64) :
  initialBalance m = Some initial ->
  is_nan initial = true \/ is_nan (TargetProfit m) = true ->
  onTriggerCalls (loop m events) = 0%nat.
Proof.
  revert m. induction events as [|[|reply] rest IH]; intros m Hinit Hnan;
    simpl; auto.
  destruct (negb (isBalanceSet m)); [apply IH; assumption|].
  destruct (checkProfitAndTrigger m reply) as [[b m']|] eqn:E; [|reflexivity].
  pose proof (checkProfitAndTrigger_nan _ _ _ _ _ Hinit Hnan E) as ->.
  apply TakeProfitFacts.checkProfitAndTrigger_flag in E
    as (_ & Hcfg & _ & Hinit').
  apply IH; [congruence|]. unfold TargetProfit in *. rewrite Hcfg. exact Hnan.
Qed.

(** X25. The monitor fires on numbers only. A check that fires has
    compared a fetched balance, an initial balance and a target none of
    which is NaN; with an initial balance or a target that is NaN, no run
    of [Start] ever calls [onTrigger]. [SetInitialBalance] does record a
    balance that is NaN, its test [balance <= 0] being false on it. *)
Theorem fires_on_numbers (m : t) (initial : float64) :
  initialBalance m = Some initial ->
  (forall reply,
     fires m initial reply ->
     is_nan initial = false /\ is_nan (TargetProfit m) = false /\
     exists account,
       reply = Ok account /\ is_nan (getEffectiveBalance m account) = false) /\
  (is_nan initial = true \/ is_nan (TargetProfit m) = true ->
   forall events, onTriggerCalls (Start m events) = 0%nat) /\
  (forall account,
     is_nan (getEffectiveBalance m account) = true ->
     snd (SetInitialBalance m (Ok account)) = None /\
     initialBalance (fst (SetInitialBalance m (Ok account)))
     = Some (getEffectiveBalance m account)).
Proof.
  intros Hinit. split; [|split].
  - intros reply (_ & account & -> & Hge).
    unfold float_geb in Hge. apply float_leb_numbers in Hge as [Ht Hd].
    apply float_sub_numbers in Hd as [Hc Hi]. eauto.
  - intros Hnan events. unfold Start.
    destruct (negb (Enabled m)); [reflexivity|].
    exact (loop_nan events m initial Hinit Hnan).
  - intros account Hnan. unfold SetInitialBalance.
    destruct (getEffectiveBalance m account <=? 0)%float eqn:E; [|auto].
    apply float_leb_numbers in E as [E _]. congruence.
Qed.

(** An initial balance that is NaN, and ticks far above any target. *)
Lemma fires_on_numbers_witness :
  let m := monitorOf (TakeProfit.mk true 5 30 "auto") (Some nan) false in
  onTriggerCalls
    (Start m [Tick (Ok (Account.mk 1000000 1000000 1000000 0));
              Tick (Ok (Account.mk 2000000 2000000 2000000 0))]) = 0%nat.
Proof.
  cbv zeta.
  apply (proj1 (proj2 (fires_on_numbers
                         (monitorOf (TakeProfit.mk true 5 30 "auto")
                                    (Some nan) false)
                         nan eq_refl))).
  left. reflexivity.
Defined.

End ProfitFacts.

(** ** The startup of [main.go] *)

Module StartupFacts.
Import Main Sample.

(** A value above zero is not [<= 0]; a value that is neither is NaN. *)
Lemma float_gtb_not_leb (x : float64) :
  float_gtb x 0 = true -> (x <=? 0)%float = false.
Proof.
  unfold float_gtb. rewrite FloatAxioms.ltb_spec, FloatAxioms.leb_spec.
  unfold SFltb, SFleb.
  rewrite (SFcompare_antisym (Prim2SF 0) (Prim2SF x)).
  destruct (SFcompare (Prim2SF 0) (Prim2SF x)) as [[]|]; simpl; congruence.
Qed.

Lemma float_not_gtb_not_leb (x : float64) :
  float_gtb x 0 = false -> (x <=? 0)%float = false -> is_nan x = true.
Proof.
  unfold float_gtb. intros Hgt Hle.
  destruct (is_nan x) eqn:Hx; [reflexivity|].
  apply (float_leb_false x 0 Hx eq_refl) in Hle. congruence.
Qed.

(** The loop stops at the first price above zero, or runs out of
    iterations with the last price it fetched. *)
Lemma pollPrice_spec (GetLastPrice : nat -> float64) (fuel i : nat)
    (currentPrice : float64) (sleeps : nat) :
  (exists k, (k < fuel)%nat /\
     float_gtb (GetLastPrice (i + k)%nat) 0 = true /\
     (forall j, (j < k)%nat -> float_gtb (GetLastPrice (i + j)%nat) 0 = false) /\
     pollPrice GetLastPrice i fuel currentPrice sleeps
     = (GetLastPrice (i + k)%nat, (sleeps + k)%nat)) \/
  ((forall j, (j < fuel)%nat -> float_gtb (GetLastPrice (i + j)%nat) 0 = false) /\
   pollPrice GetLastPrice i fuel currentPrice sleeps
   = (match fuel with
      | O => currentPrice
      | S n => GetLastPrice (i + n)%nat
      end, (sleeps + fuel)%nat)).
Proof.
  revert i currentPrice sleeps.
  induction fuel as [|fuel IH]; intros i currentPrice sleeps; simpl.
  { right. split; [intros j Hj; lia|]. rewrite Nat.add_0_r. reflexivity. }
  destruct (float_gtb (GetLastPrice i) 0) eqn:E.
  { left. exists 0%nat. rewrite !Nat.add_0_r.
    repeat split; [lia | exact E | intros j Hj; lia]. }
  destruct (IH (S i) (GetLastPrice i) (S sleeps))
    as [(k & Hk & Hpos & Hbefore & ->) | (Hnone & ->)].
  - left. exists (S k).
    replace (i + S k)%nat with (S i + k)%nat by lia.
    replace (sleeps + S k)%nat with (S sleeps + k)%nat by lia.
    repeat split; [lia | exact Hpos |].
    intros [|j] Hj; [rewrite Nat.add_0_r; exact E|].
    replace (i + S j)%nat with (S i + j)%nat by lia. apply Hbefore. lia.
  - right. split.
    + intros [|j] Hj; [rewrite Nat.add_0_r; exact E|].
      replace (i + S j)%nat with (S i + j)%nat by lia. apply Hnone. lia.
    + replace (sleeps + S fuel)%nat with (S sleeps + fuel)%nat by lia.
      f_equal. destruct fuel as [|n]; [rewrite Nat.add_0_r; reflexivity|].
      f_equal. lia.
Qed.

(** X15. The wait for the first price at startup. [main] goes on with the
    first price above zero among at most ten fetched, having slept once
    for each fetch before it. When none of the ten is above zero it has
    slept ten times, and it ends in [Fatalf] if the tenth is [<= 0]; a
    tenth price that is NaN is neither, and [main] goes on with it. So a
    price [main] goes on with is above zero or NaN, after at most ten
    sleeps. *)
Theorem firstPrice_spec (GetLastPrice : nat -> float64) :
  (forall k,
     (k < 10)%nat -> float_gtb (GetLastPrice k) 0 = true ->
     (forall j, (j < k)%nat -> float_gtb (GetLastPrice j) 0 = false) ->
     firstPrice GetLastPrice = (Proceeds (GetLastPrice k), k)) /\
  ((forall j, (j < 10)%nat -> float_gtb (GetLastPrice j) 0 = false) ->
   firstPrice GetLastPrice
   = (if (GetLastPrice 9%nat <=? 0)%float then Fatal
      else Proceeds (GetLastPrice 9%nat), 10%nat) /\
   ((GetLastPrice 9%nat <=? 0)%float = false ->
    is_nan (GetLastPrice 9%nat) = true)) /\
  (forall price sleeps,
     firstPrice GetLastPrice = (Proceeds price, sleeps) ->
     (sleeps <= 10)%nat /\ (float_gtb price 0 = true \/ is_nan price = true)).
Proof.
  unfold firstPrice.
  destruct (pollPrice_spec GetLastPrice 10 0 0%float 0)
    as [(k & Hk & Hpos & Hbefore & ->) | (Hnone & ->)]; simpl in *.
  - rewrite (float_gtb_not_leb _ Hpos). split; [|split].
    + intros k' Hk' Hpos' Hbefore'.
      assert (k' = k); [|subst; reflexivity].
      destruct (Nat.lt_trichotomy k' k) as [Hlt|[Heq|Hgt]]; [|exact Heq|].
      * rewrite (Hbefore k' Hlt) in Hpos'. discriminate.
      * rewrite (Hbefore' k Hgt) in Hpos. discriminate.
    + intros Hnone. rewrite (Hnone k Hk) in Hpos. discriminate.
    + intros price sleeps [= <- <-]. split; [lia | left; exact Hpos].
  - split; [|split].
    + intros k Hk Hpos _. rewrite (Hnone k Hk) in Hpos. discriminate.
    + intros _. split.
      * destruct (GetLastPrice 9%nat <=? 0)%float; reflexivity.
      * apply float_not_gtb_not_leb, Hnone. lia.
    + intros price sleeps.
      destruct (GetLastPrice 9%nat <=? 0)%float eqn:Hle; [discriminate|].
      intros [= <- <-]. split; [lia|]. right.
      apply float_not_gtb_not_leb; [apply Hnone; lia | exact Hle].
Qed.

(** The stream has no price for three fetches, then 2999.5. *)
Lemma firstPrice_spec_witness :
  firstPrice (fun i => if (i <? 3)%nat then 0%float else 2999.5%float)
  = (Proceeds 2999.5%float, 3%nat).
Proof.
  apply (proj1 (firstPrice_spec
                  (fun i => if (i <? 3)%nat then 0%float else 2999.5%float))
           3%nat).
  - lia.
  - reflexivity.
  - intros [|[|[|j]]] Hj; [reflexivity.. | lia].
Defined.

(** No price in ten fetches ends the program; ten fetches that end on a
    NaN do not. *)
Example firstPrice_timeout :
  firstPrice (fun _ => 0%float) = (Fatal, 10%nat) /\
  firstPrice (fun _ => nan) = (Proceeds nan, 10%nat).
Proof. split; reflexivity. Qed.

(** X16. The limits [main] checks the account against. For a
    configuration [Validate] has accepted, an account that was fetched and
    no open position in the symbol, [main] gets past the safety check
    exactly when the available balance is not [<= 0], the leverage is at
    most [max_leverage], or 10 when the file leaves it unset, the
    capacity is not below [position_safety_check], or 100 when the file
    leaves it unset, and the net profit at the fee rate of the current
    exchange, which the map holds, is not [<= 0]. *)
Theorem safetyCheck_limits (c cfg : Config.t) (ex : IExchange.t)
    (account : Account.t) (currentPrice : float64) (priceDecimals : Z) :
  Config.Validate c = (cfg, None) ->
  IExchange.GetAccount ex = Ok account ->
  float_neq (Safety.positionAmt ex (Trading.Symbol (Config.Trading c))) 0
  = false ->
  let tr := Config.Trading c in
  let maxLeverage := Config.orDefault (Trading.MaxLeverage tr) 10 in
  let required := Config.orDefault (Trading.PositionSafetyCheck tr) 100 in
  let accountBalance := Account.AvailableBalance account in
  let leverage := Safety.determinedLeverage ex (Trading.Symbol tr) account in
  exists exchangeCfg,
    Config.Exchanges c !! App.CurrentExchange (Config.App c) = Some exchangeCfg /\
    (ExchangeConfig.FeeRate exchangeCfg <? 0)%float = false /\
    (safetyCheck cfg ex currentPrice priceDecimals = Proceeds tt <->
     (accountBalance <=? 0)%float = false /\
     leverage <= maxLeverage /\
     (Safety.maxPositions accountBalance leverage (Trading.OrderQuantity tr)
      <? float64_of_int required)%float = false /\
     (Safety.netProfit
        (Safety.feeAnalysis currentPrice (Trading.OrderQuantity tr)
           (Trading.PriceInterval tr) (ExchangeConfig.FeeRate exchangeCfg))
      <=? 0)%float = false).
Proof.
  intros Hv Hacc Hzero. cbv zeta.
  destruct (LoadFacts.Validate_accepted_sections c cfg Hv)
    as (Ha & He & Ht & _ & _ & _).
  pose proof (f_equal snd Hv) as Herr. simpl in Herr.
  rewrite LoadFacts.Validate_error in Herr.
  destruct (Config.requiredFields c) eqn:Hreq; [discriminate|].
  apply LoadFacts.requiredFields_None_iff in Hreq.
  destruct Hreq as (_ & (exchangeCfg & Hx & _ & _ & Hfee) & _).
  exists exchangeCfg. split; [exact Hx|]. split; [exact Hfee|].
  unfold safetyCheck, feeRate, requiredPositions.
  rewrite Ha, He, Hx, Ht. simpl.
  fold (Config.orDefault (Trading.PositionSafetyCheck (Config.Trading c)) 100).
  rewrite <- (SafetyFacts.CheckAccountSafety_nil_iff ex
                (Trading.Symbol (Config.Trading c)) currentPrice
                (Trading.OrderQuantity (Config.Trading c))
                (Trading.PriceInterval (Config.Trading c))
                (ExchangeConfig.FeeRate exchangeCfg)
                (Config.orDefault
                   (Trading.PositionSafetyCheck (Config.Trading c)) 100)
                priceDecimals
                (Config.orDefault (Trading.MaxLeverage (Config.Trading c)) 10)
                account Hacc Hzero).
  destruct (Safety.CheckAccountSafety _ _ _ _ _ _ _ _ _);
    split; congruence.
Qed.

(** The file of the samples, which sets neither limit, at a price of 300,
    against an account with 3000 available at leverage 1 and no
    position. *)
Lemma safetyCheck_limits_witness :
  let c := minimal (RiskControl.mk true [] "" 0 0 0) takeProfitOff in
  safetyCheck (fst (Config.Validate c)) (venue 3000 0 []) 300 2 = Proceeds tt.
Proof.
  cbv zeta.
  destruct (safetyCheck_limits
              (minimal (RiskControl.mk true [] "" 0 0 0) takeProfitOff)
              (fst (Config.Validate
                      (minimal (RiskControl.mk true [] "" 0 0 0) takeProfitOff)))
              (venue 3000 0 []) (Account.mk 3000 3000 3000 0) 300 2)
    as (exchangeCfg & Hx & _ & Hiff).
  - vm_compute. reflexivity.
  - reflexivity.
  - reflexivity.
  - apply Hiff. vm_compute in Hx. injection Hx as <-.
    repeat split; first [reflexivity | vm_compute; discriminate].
Defined.

End StartupFacts.

(** ** [closeAllPositionsMarket] *)

Module CloseFacts.
Import Main Sample.

Lemma closeLoop_orders
    (PlaceOrder' : nat -> OrderRequest.t -> Result VenueError Order.t)
    (symbol : string) (positions : list Position.t) (placed : nat) :
  ordersPlaced (closeLoop PlaceOrder' symbol positions placed)
  = map (marketCloseRequest symbol)
      (List.filter (fun pos => float_gtb (Position.Size pos) 0) positions).
Proof.
  revert placed. induction positions as [|pos positions IH]; intros placed;
    [reflexivity|].
  simpl. destruct (float_gtb (Position.Size pos) 0); [|apply IH].
  destruct (PlaceOrder' placed _); unfold ordersPlaced in *; simpl;
    rewrite IH; reflexivity.
Qed.

Lemma closeLoop_replies
    (PlaceOrder' : nat -> OrderRequest.t -> Result VenueError Order.t)
    (symbol : string) (positions : list Position.t) (placed : nat) :
  let effects := closeLoop PlaceOrder' symbol positions placed in
  (closeFailures effects + closeSuccesses effects)%nat
  = length (ordersPlaced effects).
Proof.
  cbv zeta. revert placed.
  induction positions as [|pos positions IH]; intros placed; [reflexivity|].
  simpl. destruct (float_gtb (Position.Size pos) 0); [|apply IH].
  specialize (IH (S placed)).
  destruct (PlaceOrder' placed _);
    unfold closeFailures, closeSuccesses, ordersPlaced in *; simpl; lia.
Qed.

Lemma ordersPlaced_app (es es' : list CloseEffect) :
  ordersPlaced (es ++ es') = (ordersPlaced es ++ ordersPlaced es')%list.
Proof. apply flat_map_app. Qed.

(** The two lines around the loop place and log no order. *)
Lemma closeEffects_wrap (count : nat) (es : list CloseEffect) (d : Z) :
  let all := (LogClosing count :: es ++ [Sleep d])%list in
  ordersPlaced all = ordersPlaced es /\
  closeFailures all = closeFailures es /\
  closeSuccesses all = closeSuccesses es.
Proof.
  cbv zeta. unfold closeFailures, closeSuccesses.
  change (ordersPlaced (LogClosing count :: es ++ [Sleep d]))
    with (ordersPlaced (es ++ [Sleep d])).
  rewrite ordersPlaced_app. simpl.
  rewrite !List.filter_app, !length_app, app_nil_r. simpl.
  repeat split; lia.
Qed.

(** X17. [closeAllPositionsMarket] never returns an error, whatever the
    venue replies. It places one order for each position the venue
    reports with a size above zero, in the order reported and whatever
    the replies to the earlier orders were: a reduce-only market sell,
    immediate-or-cancel, of the size of the position, under the symbol
    the function was given. Positions of size zero, below zero or NaN
    get no order, and a failed [GetPositions] is taken as no position.
    Each order is logged once, as placed or as failed. *)
Theorem closeAllPositionsMarket_orders
    (GetPositions : Result VenueError (list Position.t))
    (PlaceOrder' : nat -> OrderRequest.t -> Result VenueError Order.t)
    (symbol : string) :
  let positions :=
    match GetPositions with Ok positions => positions | Err _ => [] end in
  let run := closeAllPositionsMarket GetPositions PlaceOrder' symbol in
  fst run = None /\
  ordersPlaced (snd run)
  = map (marketCloseRequest symbol)
      (List.filter (fun pos => float_gtb (Position.Size pos) 0) positions) /\
  (closeFailures (snd run) + closeSuccesses (snd run))%nat
  = length (ordersPlaced (snd run)).
Proof.
  cbv zeta. unfold closeAllPositionsMarket.
  destruct GetPositions as [positions|err]; [|repeat split].
  destruct positions as [|pos positions]; [repeat split|].
  set (ps := pos :: positions).
  change ((length ps =? 0)%nat) with false. cbv iota.
  destruct (closeEffects_wrap (length ps)
              (closeLoop PlaceOrder' symbol ps 0) (Time.mul 2 Time.Second))
    as (Ho & Hf & Hs).
  unfold fst, snd. rewrite Ho, Hf, Hs.
  split; [reflexivity|]. split.
  - apply closeLoop_orders.
  - apply closeLoop_replies.
Qed.

(** A long position of 0.25, a flat entry and a short one; the venue
    refuses the order. *)
Lemma closeAllPositionsMarket_orders_witness :
  let positions := [Position.mk "ETHUSDT" 0.25 5; Position.mk "ETHUSDT" 0 5;
                    Position.mk "ETHUSDT" (-0.5) 5] in
  let run := closeAllPositionsMarket (Ok positions)
               (fun _ _ => Err "insufficient margin") "ETHUSDT" in
  fst run = None /\
  ordersPlaced (snd run)
  = [OrderRequest.mk "ETHUSDT" Exchange.SideSell Exchange.OrderTypeMarket
       Exchange.TimeInForceIOC 0.25 true] /\
  (closeFailures (snd run) + closeSuccesses (snd run))%nat
  = length (ordersPlaced (snd run)).
Proof.
  exact (closeAllPositionsMarket_orders
           (Ok [Position.mk "ETHUSDT" 0.25 5; Position.mk "ETHUSDT" 0 5;
                Position.mk "ETHUSDT" (-0.5) 5])
           (fun _ _ => Err "insufficient margin") "ETHUSDT").
Defined.

End CloseFacts.

(** ** The levels and the log file of the [logger] package *)

Module FileLogFacts.
Import Logger.

(** X18. [ParseLogLevel] undoes [String]: the name of a level, in any
    case and with any white space around it, is parsed to that level,
    whatever the two library functions are as long as they bring the text
    to the name, and in particular for ASCII text. The level is DEBUG,
    which is what turns file logging on, only for a text that normalises
    to "DEBUG". *)
Theorem ParseLogLevel_String (l : LogLevel) :
  (forall (TrimSpace ToUpper : string -> string) (s : string),
     ToUpper (TrimSpace s) = LogLevel_String l ->
     ParseLogLevel TrimSpace ToUpper s = l) /\
  (forall s : string,
     EqualFold (asciiTrimSpace s) (LogLevel_String l) = true ->
     ParseLogLevel asciiTrimSpace asciiToUpper s = l) /\
  ParseLogLevel asciiTrimSpace asciiToUpper (LogLevel_String l) = l /\
  (forall (TrimSpace ToUpper : string -> string) (s : string),
     ParseLogLevel TrimSpace ToUpper s = DEBUG <->
     ToUpper (TrimSpace s) = "DEBUG").
Proof.
  assert (H : forall (TrimSpace ToUpper : string -> string) (s : string),
            ToUpper (TrimSpace s) = LogLevel_String l ->
            ParseLogLevel TrimSpace ToUpper s = l).
  { intros TrimSpace ToUpper s E. unfold ParseLogLevel. rewrite E.
    destruct l; reflexivity. }
  split; [exact H|]. split; [|split].
  - intros s E. apply H.
    apply (LoggerFacts.EqualFold_asciiToUpper (asciiTrimSpace s)); [|exact E].
    destruct l; reflexivity.
  - destruct l; reflexivity.
  - intros TrimSpace ToUpper s. unfold ParseLogLevel.
    destruct (String.eqb_spec (ToUpper (TrimSpace s)) "DEBUG") as [E|E];
      [split; auto|].
    split; [|contradiction].
    repeat match goal with
           | |- context [if ?b then _ else _] => destruct b
           end; discriminate.
Qed.

(** "  Error" followed by a line feed. *)
Lemma ParseLogLevel_String_witness :
  ParseLogLevel asciiTrimSpace asciiToUpper
    ("  Error" ++ String (ascii_of_nat 10) EmptyString) = ERROR.
Proof.
  apply (proj1 (proj2 (ParseLogLevel_String ERROR))). reflexivity.
Defined.

Lemma File_eqb_refl (f : File) : File_eqb f f = true.
Proof. unfold File_eqb. rewrite String.eqb_refl, Nat.eqb_refl. reflexivity. Qed.

Lemma openFiles_app (es es' : list Effect) :
  openFiles (es ++ es') = fold_left openAfter es' (openFiles es).
Proof. apply fold_left_app. Qed.

Lemma opened_app (es es' : list Effect) :
  opened (es ++ es') = (opened es + opened es')%nat.
Proof. unfold opened. rewrite List.filter_app, length_app. reflexivity. Qed.

Lemma orderlyFrom_app (es es' : list Effect) (open : list File) (next : nat) :
  orderlyFrom open next (es ++ es')
  = orderlyFrom open next es
    && orderlyFrom (fold_left openAfter es open) (next + opened es) es'.
Proof.
  revert open next. induction es as [|ef es IH]; intros open next; simpl.
  - rewrite Nat.add_0_r. reflexivity.
  - rewrite IH, andb_assoc. f_equal. f_equal.
    destruct ef as [| |name [file|]| |]; unfold opened; simpl; lia.
Qed.

Lemma orderly_app (es es' : list Effect) :
  orderly (es ++ es')
  = orderly es && orderlyFrom (openFiles es) (opened es) es'.
Proof. unfold orderly. rewrite orderlyFrom_app. reflexivity. Qed.

Lemma lostFrom_app (es es' : list Effect) (open : list File) :
  lostFrom open (es ++ es')
  = (lostFrom open es ++ lostFrom (fold_left openAfter es open) es')%list.
Proof.
  revert open. induction es as [|ef es IH]; intros open; simpl;
    [reflexivity|].
  rewrite IH, app_assoc. reflexivity.
Qed.

Lemma lost_app (es es' : list Effect) :
  lost (es ++ es') = (lost es ++ lostFrom (openFiles es) es')%list.
Proof. unfold lost. apply lostFrom_app. Qed.

(** *** The record stays orderly *)

(** [closeOld] leaves an orderly record with no file open. *)
Lemma closeOld_closed (s : State) :
  consistent s ->
  orderly (effects (closeOld s)) = true /\
  openFiles (effects (closeOld s)) = [] /\
  logFile (closeOld s) = None /\
  globalLevel (closeOld s) = globalLevel s /\
  fileLogger (closeOld s) = fileLogger s /\
  currentDate (closeOld s) = currentDate s.
Proof.
  intros (Hord & Hopen & _). unfold closeOld.
  destruct (logFile s) as [file|] eqn:Hf; simpl; [|rewrite Hf; auto 6].
  rewrite orderly_app, openFiles_app, Hord, Hopen. simpl.
  rewrite File_eqb_refl. simpl. auto 6.
Qed.

(** Opening the file of the day on a record with no file open. *)
Lemma useFile_consistent (s : State) (day : string) (notice : list Effect) :
  orderly (effects s) = true -> openFiles (effects s) = [] ->
  globalLevel s = DEBUG ->
  notice = [] \/ (exists line, notice = [Console line]) ->
  let file := mkFile (logFileName day) (opened (effects s)) in
  consistent
    (useFile s file day
       (MkdirAll true :: OpenFile (logFileName day) (Some file) :: notice)).
Proof.
  intros Hord Hopen Hlevel Hnotice. cbv zeta.
  unfold consistent, useFile; simpl.
  rewrite orderly_app, openFiles_app, Hord, Hopen. simpl.
  rewrite String.eqb_refl, Nat.eqb_refl. simpl.
  destruct Hnotice as [-> | [line ->]]; simpl;
    (split; [reflexivity|]; split; [reflexivity|]);
    intros file [= <-]; auto.
Qed.

(** A failed attempt on a record with no file open. *)
Lemma does_closed (s : State) (es : list Effect) :
  orderly (effects s) = true -> openFiles (effects s) = [] ->
  logFile s = None ->
  orderlyFrom [] (opened (effects s)) es = true ->
  fold_left openAfter es [] = [] ->
  consistent (does s es).
Proof.
  intros Hord Hopen Hf Hes Hfold. unfold consistent, does; simpl.
  rewrite orderly_app, openFiles_app, Hord, Hopen, Hes, Hfold, Hf.
  repeat split; discriminate.
Qed.

Lemma initFileLogger_consistent (e : Env) (s : State) :
  consistent s -> globalLevel s = DEBUG -> consistent (initFileLogger e s).
Proof.
  intros Hs Hlevel. unfold initFileLogger.
  destruct (_ && _); [exact Hs|].
  destruct (closeOld_closed s Hs) as (Hord & Hopen & Hf & Hl & _).
  rewrite Hlevel in Hl.
  destruct (mkdirOk e); simpl; [|apply does_closed; auto].
  destruct (openOk e); simpl; [|apply does_closed; auto].
  apply useFile_consistent; eauto.
Qed.

Lemma checkAndRotateLog_consistent (e : Env) (s : State) :
  consistent s -> globalLevel s = DEBUG -> consistent (checkAndRotateLog e s).
Proof.
  intros Hs Hlevel. unfold checkAndRotateLog.
  destruct (negb _); [|exact Hs].
  destruct (closeOld_closed s Hs) as (Hord & Hopen & Hf & Hl & _).
  rewrite Hlevel in Hl.
  destruct (mkdirOk e); simpl; [|apply does_closed; auto].
  destruct (openOk e); simpl; [|apply does_closed; auto].
  apply useFile_consistent; eauto.
Qed.

Lemma closeFileLogger_closed (s : State) :
  orderly (effects s) = true ->
  openFiles (effects s)
  = match logFile s with Some file => [file] | None => [] end ->
  consistent (closeFileLogger s) /\ logFile (closeFileLogger s) = None /\
  openFiles (effects (closeFileLogger s)) = [].
Proof.
  intros Hord Hopen. unfold closeFileLogger.
  destruct (logFile s) as [file|] eqn:Hf.
  - unfold consistent; simpl.
    rewrite orderly_app, openFiles_app, Hord, Hopen. simpl.
    rewrite File_eqb_refl. simpl. repeat split; discriminate.
  - unfold consistent. rewrite Hf. repeat split; auto; discriminate.
Qed.

Lemma SetLevel_consistent (e : Env) (level : LogLevel) (s : State) :
  consistent s -> consistent (SetLevel e level s).
Proof.
  intros (Hord & Hopen & Hfile). unfold SetLevel.
  destruct level;
    try (apply closeFileLogger_closed; [exact Hord | exact Hopen]).
  apply initFileLogger_consistent; [|reflexivity].
  unfold consistent; simpl. split; [exact Hord|]. split; [exact Hopen|].
  intros file Hf. destruct (Hfile file Hf) as (_ & ? & ?). auto.
Qed.

(** Lines that open and close nothing keep the agreement. *)
Lemma does_consistent (s : State) (es : list Effect) :
  consistent s ->
  (forall open next, orderlyFrom open next es = true) ->
  (forall open, fold_left openAfter es open = open) ->
  consistent (does s es).
Proof.
  intros (Hord & Hopen & Hfile) Hes Hfold. unfold consistent, does; simpl.
  rewrite orderly_app, openFiles_app, Hord, Hes, Hfold. auto.
Qed.

Lemma logf_consistent (e : Env) (level : LogLevel) (text : string) (s : State) :
  consistent s -> consistent (logf e level text s).
Proof.
  intros Hs. unfold logf. destruct (negb _); [exact Hs|].
  set (s1 := does s _).
  assert (H1 : consistent s1) by (apply does_consistent; auto).
  destruct (globalLevel s1) eqn:Hlevel; try exact H1.
  pose proof (checkAndRotateLog_consistent e s1 H1 Hlevel) as H2.
  destruct (fileLogger _); [|exact H2].
  apply does_consistent; auto.
Qed.

Lemma call_consistent (s : State) (c : Env * Call) :
  consistent s -> consistent (call s c).
Proof.
  intros Hs. destruct c as [e [level|level text|]]; simpl.
  - apply SetLevel_consistent, Hs.
  - apply logf_consistent, Hs.
  - destruct Hs as (Hord & Hopen & _).
    apply closeFileLogger_closed; assumption.
Qed.

Lemma fold_call_consistent (calls : list (Env * Call)) (s : State) :
  consistent s -> consistent (fold_left call calls s).
Proof.
  revert s. induction calls as [|c calls IH]; intros s Hs; simpl; [exact Hs|].
  apply IH, call_consistent, Hs.
Qed.

Lemma initial_consistent : consistent initial.
Proof. unfold consistent; simpl. repeat split; discriminate. Qed.

(** X19. Whatever calls a program makes on the package, and whatever
    fails outside, the package handles its log file in order: it closes
    only a file that is open, opens a file only while none is open, so
    that at most one file is open at any time, and the one left open is
    [logFile]; a file is open only while the level is DEBUG, and none is
    left open by [Close] or by [SetLevel] to another level. *)
Theorem files_orderly (calls : list (Env * Call)) :
  let s := run calls in
  consistent s /\
  (length (openFiles (effects s)) <= 1)%nat /\
  (logFile s <> None -> globalLevel s = DEBUG) /\
  openFiles (effects (Close s)) = [] /\
  (forall e level,
     level <> DEBUG -> openFiles (effects (SetLevel e level s)) = []).
Proof.
  cbv zeta.
  pose proof (fold_call_consistent calls initial initial_consistent) as Hs.
  fold (run calls) in Hs. pose proof Hs as (Hord & Hopen & Hfile).
  split; [exact Hs|]. split; [|split; [|split]].
  - rewrite Hopen. destruct (logFile (run calls)); simpl; lia.
  - destruct (logFile (run calls)) as [file|]; [|congruence].
    intros _. apply (Hfile file eq_refl).
  - apply closeFileLogger_closed; assumption.
  - intros e level Hlevel. unfold SetLevel.
    destruct level; try contradiction;
      apply closeFileLogger_closed; assumption.
Qed.

(** A program that logs at DEBUG over two days, while the directory
    cannot be created on the second, and then closes. *)
Lemma files_orderly_witness :
  let monday := mkEnv "2024-03-04" "2024/03/04 23:59:58" true true in
  let tuesday := mkEnv "2024-03-05" "2024/03/05 00:00:01" false true in
  let s := run [(monday, CallSetLevel DEBUG); (monday, CallLog INFO "start");
                (tuesday, CallLog WARN "risk"); (tuesday, CallClose)] in
  consistent s /\ (length (openFiles (effects s)) <= 1)%nat.
Proof.
  cbv zeta.
  destruct (files_orderly
              [(mkEnv "2024-03-04" "2024/03/04 23:59:58" true true,
                CallSetLevel DEBUG);
               (mkEnv "2024-03-04" "2024/03/04 23:59:58" true true,
                CallLog INFO "start");
               (mkEnv "2024-03-05" "2024/03/05 00:00:01" false true,
                CallLog WARN "risk");
               (mkEnv "2024-03-05" "2024/03/05 00:00:01" false true,
                CallClose)])
    as (H1 & H2 & _).
  split; [exact H1 | exact H2].
Defined.

(** After a rotation that failed, [fileLogger] still writes to the file
    that was closed: the line of Tuesday is printed on the console and
    lost for the files, no file is open, and [Close] leaves [fileLogger]
    as it is. *)
Example logf_after_failed_rotation :
  let monday := mkEnv "2024-03-04" "2024/03/04 23:59:58" true true in
  let tuesday := mkEnv "2024-03-05" "2024/03/05 00:00:01" false true in
  let s := run [(monday, CallSetLevel DEBUG); (monday, CallLog INFO "start");
                (tuesday, CallLog WARN "risk"); (tuesday, CallClose)] in
  lost (effects s) = ["2024/03/05 00:00:01 [WARN] risk"] /\
  openFiles (effects s) = [] /\
  logFile s = None /\
  fileLogger s = Some (mkFile "log/opensqt-2024-03-04.log" 0) /\
  effects s
  = [MkdirAll true;
     OpenFile "log/opensqt-2024-03-04.log"
       (Some (mkFile "log/opensqt-2024-03-04.log" 0));
     Console (InfoFileLogging "log/opensqt-2024-03-04.log");
     Console (Message "[INFO] start");
     FilePrintf (mkFile "log/opensqt-2024-03-04.log" 0)
       "2024/03/04 23:59:58 [INFO] start";
     Console (Message "[WARN] risk");
     FileClose (mkFile "log/opensqt-2024-03-04.log" 0);
     MkdirAll false;
     FilePrintf (mkFile "log/opensqt-2024-03-04.log" 0)
       "2024/03/05 00:00:01 [WARN] risk"].
Proof. vm_compute. repeat split. Qed.

(** *** When nothing fails outside *)

Lemma closeOld_lost (s : State) :
  consistent s -> lost (effects (closeOld s)) = lost (effects s).
Proof.
  intros _. unfold closeOld. destruct (logFile s); [|reflexivity]. simpl.
  rewrite lost_app. simpl. apply app_nil_r.
Qed.

(** Opening the file of the day when nothing fails. *)
Lemma open_healthy (s : State) (day : string) (notice : list Effect) :
  lost (effects s) = [] ->
  notice = [] \/ (exists line, notice = [Console line]) ->
  let file := mkFile (logFileName day) (opened (effects s)) in
  let s' := useFile s file day
              (MkdirAll true :: OpenFile (logFileName day) (Some file) :: notice) in
  healthy s' /\ logFile s' = Some file.
Proof.
  intros Hlost Hnotice. cbv zeta. unfold healthy, useFile; simpl.
  rewrite lost_app, Hlost.
  destruct Hnotice as [-> | [line ->]]; simpl; repeat split; discriminate.
Qed.

Lemma initFileLogger_healthy (e : Env) (s : State) :
  consistent s -> healthy s -> succeeds e -> globalLevel s = DEBUG ->
  healthy (initFileLogger e s) /\
  exists file,
    logFile (initFileLogger e s) = Some file /\
    fileName file = logFileName (today e).
Proof.
  intros Hs (Hlog & Hdate & Hlost) (Hmk & Hop & Hday) Hlevel.
  pose proof Hs as (_ & _ & Hfile). unfold initFileLogger.
  destruct (fileLogger s) as [file|] eqn:Hfl; simpl.
  - destruct (String.eqb_spec (currentDate s) (today e)) as [E|E].
    + split; [unfold healthy; rewrite Hfl; auto|].
      exists file. symmetry in Hlog. destruct (Hfile file Hlog) as (_ & _ & Hn).
      rewrite <- E. auto.
    + rewrite Hmk, Hop. simpl.
      destruct (open_healthy (closeOld s) (today e)
                  [Console (InfoFileLogging (logFileName (today e)))])
        as [Hh Hf]; [rewrite closeOld_lost; auto | eauto |].
      split; [exact Hh|]. eexists. split; [exact Hf | reflexivity].
  - rewrite Hmk, Hop. simpl.
    destruct (open_healthy (closeOld s) (today e)
                [Console (InfoFileLogging (logFileName (today e)))])
      as [Hh Hf]; [rewrite closeOld_lost; auto | eauto |].
    split; [exact Hh|]. eexists. split; [exact Hf | reflexivity].
Qed.

Lemma checkAndRotateLog_healthy (e : Env) (s : State) :
  consistent s -> healthy s -> succeeds e ->
  healthy (checkAndRotateLog e s) /\
  exists file,
    logFile (checkAndRotateLog e s) = Some file /\
    fileName file = logFileName (today e) /\
    (String.eqb (currentDate s) (today e) = false ->
     fileNumber file = opened (effects (closeOld s))).
Proof.
  intros Hs (Hlog & Hdate & Hlost) (Hmk & Hop & Hday).
  pose proof Hs as (_ & _ & Hfile). unfold checkAndRotateLog.
  destruct (String.eqb_spec (currentDate s) (today e)) as [E|E]; simpl.
  - split; [unfold healthy; auto|].
    destruct (logFile s) as [file|] eqn:Hf.
    + exists file. destruct (Hfile file eq_refl) as (_ & _ & Hn).
      rewrite <- E. repeat split; auto. discriminate.
    + rewrite (Hdate eq_refl) in E. congruence.
  - rewrite Hmk, Hop. simpl.
    destruct (open_healthy (closeOld s) (today e) [])
      as [Hh Hf]; [rewrite closeOld_lost; auto | auto |].
    split; [exact Hh|]. eexists. split; [exact Hf|]. split; reflexivity.
Qed.

Lemma closeFileLogger_healthy (s : State) :
  healthy s -> healthy (closeFileLogger s).
Proof.
  intros (Hlog & Hdate & Hlost). unfold closeFileLogger.
  destruct (logFile s) as [file|] eqn:Hf.
  - unfold healthy; simpl. rewrite lost_app, Hlost. simpl. auto.
  - unfold healthy. rewrite Hf. auto.
Qed.

Lemma does_healthy (s : State) (es : list Effect) :
  healthy s -> (forall open, lostFrom open es = []) -> healthy (does s es).
Proof.
  intros (Hlog & Hdate & Hlost) Hes. unfold healthy, does; simpl.
  rewrite lost_app, Hlost, Hes. auto.
Qed.

(** What a call of [logf] does when nothing fails. *)
Lemma logf_healthy (e : Env) (level : LogLevel) (text : string) (s : State) :
  consistent s -> healthy s -> succeeds e ->
  let s' := logf e level text s in
  healthy s' /\
  (globalLevel s = DEBUG ->
   exists file,
     logFile s' = Some file /\ fileName file = logFileName (today e) /\
     openFiles (effects s') = [file] /\
     last (effects s')
     = Some (FilePrintf file
               (clock e ++ " " ++ ("[" ++ LogLevel_String level ++ "] ") ++ text)) /\
     (String.eqb (currentDate s) (today e) = false ->
      opened (effects s) <= fileNumber file)%nat).
Proof.
  intros Hs Hh He. cbv zeta. unfold logf, shouldLog.
  assert (Hg : forall es, globalLevel (does s es) = globalLevel s)
    by reflexivity.
  rewrite Hg.
  destruct (globalLevel s) eqn:Hlevel.
  2-5: split; [|discriminate];
       destruct (negb _); [exact Hh | apply does_healthy; auto].
  replace (LogLevel_int DEBUG <=? LogLevel_int level) with true
    by (destruct level; reflexivity).
  simpl negb. cbv iota.
  set (s1 := does s _).
  assert (H1 : consistent s1) by (apply does_consistent; auto).
  assert (Hh1 : healthy s1) by (apply does_healthy; auto).
  assert (Hl1 : globalLevel s1 = DEBUG) by exact Hlevel.
  pose proof (checkAndRotateLog_consistent e s1 H1 Hl1) as H2.
  destruct (checkAndRotateLog_healthy e s1 H1 Hh1 He)
    as (Hh2 & file & Hf2 & Hname & Hnum).
  set (s2 := checkAndRotateLog e s1) in *.
  pose proof Hh2 as (Hlog2 & _ & _). rewrite Hf2 in Hlog2. rewrite Hlog2.
  pose proof H2 as (_ & Hopen2 & _). rewrite Hf2 in Hopen2.
  split.
  - destruct Hh2 as (Hl2 & Hd2 & Hlost2). unfold healthy, does; simpl.
    rewrite lost_app, Hlost2, Hopen2. simpl. rewrite File_eqb_refl. auto.
  - intros _. exists file. simpl.
    rewrite openFiles_app, Hopen2, last_snoc. simpl.
    repeat split; auto.
    intros Hdate. rewrite (Hnum Hdate). unfold closeOld, s1, does.
    destruct (logFile s); simpl; rewrite !opened_app; simpl; lia.
Qed.

Lemma SetLevel_healthy (e : Env) (level : LogLevel) (s : State) :
  consistent s -> healthy s -> succeeds e -> healthy (SetLevel e level s).
Proof.
  intros Hs Hh He. unfold SetLevel.
  destruct level; try (apply closeFileLogger_healthy; exact Hh).
  apply initFileLogger_healthy; [|exact Hh|exact He|reflexivity].
  destruct Hs as (Hord & Hopen & Hfile). unfold consistent; simpl.
  split; [exact Hord|]. split; [exact Hopen|].
  intros file Hf. destruct (Hfile file Hf) as (_ & ? & ?). auto.
Qed.

Lemma call_healthy (s : State) (c : Env * Call) :
  consistent s -> healthy s -> succeeds (fst c) -> healthy (call s c).
Proof.
  intros Hs Hh He. destruct c as [e [level|level text|]]; simpl in *.
  - apply SetLevel_healthy; assumption.
  - apply logf_healthy; assumption.
  - apply closeFileLogger_healthy, Hh.
Qed.

Lemma fold_call_healthy (calls : list (Env * Call)) (s : State) :
  consistent s -> healthy s -> Forall (fun c => succeeds (fst c)) calls ->
  healthy (fold_left call calls s).
Proof.
  revert s. induction calls as [|c calls IH]; intros s Hs Hh Hall; simpl;
    [exact Hh|].
  inversion Hall as [|? ? Hc Hrest]; subst.
  apply IH; [apply call_consistent, Hs | apply call_healthy; assumption
            | exact Hrest].
Qed.

Lemma initial_healthy : healthy initial.
Proof. unfold healthy; simpl. auto. Qed.

(** X20. File logging when nothing fails outside. Over calls that find
    the directory and the file available, no line is ever written to a
    file that is not open, and at the level DEBUG every call of [logf]
    ends by writing its line, under the clock of the call, to the file
    named by the date of the call, which is then the open file: the file
    changes when the date does. *)
Theorem logf_writes_today (calls : list (Env * Call)) (e : Env)
    (level : LogLevel) (text : string) :
  Forall (fun c => succeeds (fst c)) calls -> succeeds e ->
  globalLevel (run calls) = DEBUG ->
  let s' := logf e level text (run calls) in
  lost (effects s') = [] /\
  exists file,
    logFile s' = Some file /\ fileName file = logFileName (today e) /\
    openFiles (effects s') = [file] /\
    last (effects s')
    = Some (FilePrintf file
              (clock e ++ " " ++ ("[" ++ LogLevel_String level ++ "] ") ++ text)).
Proof.
  intros Hall He Hlevel. cbv zeta.
  pose proof (fold_call_consistent calls initial initial_consistent) as Hs.
  pose proof (fold_call_healthy calls initial initial_consistent
                initial_healthy Hall) as Hh.
  fold (run calls) in Hs, Hh.
  destruct (logf_healthy e level text (run calls) Hs Hh He)
    as ((_ & _ & Hlost) & Hfile).
  split; [exact Hlost|].
  destruct (Hfile Hlevel) as (file & ? & ? & ? & ? & _). eauto 6.
Qed.

(** A message before midnight and one after. *)
Lemma logf_writes_today_witness :
  let monday := mkEnv "2024-03-04" "2024/03/04 23:59:58" true true in
  let tuesday := mkEnv "2024-03-05" "2024/03/05 00:00:01" true true in
  let s' := logf tuesday WARN "risk"
              (run [(monday, CallSetLevel DEBUG);
                    (monday, CallLog INFO "start")]) in
  lost (effects s') = [] /\
  exists file,
    logFile s' = Some file /\
    fileName file = "log/opensqt-2024-03-05.log" /\
    openFiles (effects s') = [file] /\
    last (effects s')
    = Some (FilePrintf file "2024/03/05 00:00:01 [WARN] risk").
Proof.
  apply (logf_writes_today
           [(mkEnv "2024-03-04" "2024/03/04 23:59:58" true true,
             CallSetLevel DEBUG);
            (mkEnv "2024-03-04" "2024/03/04 23:59:58" true true,
             CallLog INFO "start")]
           (mkEnv "2024-03-05" "2024/03/05 00:00:01" true true)
           WARN "risk").
  - repeat constructor; discriminate.
  - repeat constructor; discriminate.
  - reflexivity.
Defined.

(** *** [Close] *)

Lemma logf_quiet (e : Env) (level : LogLevel) (text : string) (s : State) :
  globalLevel s <> DEBUG ->
  logf e level text s
  = if shouldLog level s
    then does s [Console (Message (("[" ++ LogLevel_String level ++ "] ") ++ text))]
    else s.
Proof.
  intros Hlevel. unfold logf. destruct (shouldLog level s); [|reflexivity].
  simpl. destruct (globalLevel s); [contradiction | reflexivity..].
Qed.

(** X21. [Close] leaves no file open, but it ends file logging only at a
    level other than DEBUG, where the next call of [logf] prints on the
    console at most. At the level DEBUG, when nothing fails outside, the
    next call of [logf] opens a file again and leaves it open. *)
Theorem Close_then_logf (calls : list (Env * Call)) (e : Env)
    (level : LogLevel) (text : string) :
  let s := Close (run calls) in
  let s' := logf e level text s in
  openFiles (effects s) = [] /\
  (globalLevel s <> DEBUG ->
   openFiles (effects s') = [] /\
   effects s'
   = (effects s ++
      if shouldLog level s
      then [Console (Message (("[" ++ LogLevel_String level ++ "] ") ++ text))]
      else [])%list) /\
  (globalLevel s = DEBUG ->
   Forall (fun c => succeeds (fst c)) calls -> succeeds e ->
   exists file,
     logFile s' = Some file /\ openFiles (effects s') = [file] /\
     (opened (effects s) <= fileNumber file)%nat).
Proof.
  cbv zeta.
  pose proof (fold_call_consistent calls initial initial_consistent) as Hs.
  fold (run calls) in Hs. pose proof Hs as (Hord & Hopen & _).
  destruct (closeFileLogger_closed (run calls) Hord Hopen)
    as (Hc & Hnone & Hclosed).
  fold (Close (run calls)) in Hc, Hnone, Hclosed.
  split; [exact Hclosed|]. split.
  - intros Hlevel. rewrite (logf_quiet e level text _ Hlevel).
    destruct (shouldLog level (Close (run calls))); simpl.
    + rewrite openFiles_app, Hclosed. auto.
    + rewrite app_nil_r. auto.
  - intros Hlevel Hall He.
    pose proof (fold_call_healthy calls initial initial_consistent
                  initial_healthy Hall) as Hh.
    fold (run calls) in Hh. apply closeFileLogger_healthy in Hh.
    fold (Close (run calls)) in Hh.
    destruct (logf_healthy e level text _ Hc Hh He) as (_ & Hfile).
    destruct (Hfile Hlevel) as (file & Hf & _ & Hopen' & _ & Hnum).
    exists file. repeat split; auto. apply Hnum.
    destruct Hh as (_ & Hdate & _). rewrite (Hdate Hnone).
    destruct He as (_ & _ & Hday). apply String.eqb_neq. congruence.
Qed.

(** The end of [main]: [logger.Close()], then one more line, at the
    level DEBUG. *)
Lemma Close_then_logf_witness :
  let today := mkEnv "2024-03-04" "2024/03/04 12:00:00" true true in
  let s := Close (run [(today, CallSetLevel DEBUG)]) in
  openFiles (effects s) = [] /\
  exists file,
    logFile (logf today INFO "exit" s) = Some file /\
    openFiles (effects (logf today INFO "exit" s)) = [file] /\
    (opened (effects s) <= fileNumber file)%nat.
Proof.
  cbv zeta.
  destruct (Close_then_logf
              [(mkEnv "2024-03-04" "2024/03/04 12:00:00" true true,
                CallSetLevel DEBUG)]
              (mkEnv "2024-03-04" "2024/03/04 12:00:00" true true)
              INFO "exit")
    as (H1 & _ & H2).
  split; [exact H1|]. apply H2.
  - reflexivity.
  - repeat constructor; discriminate.
  - repeat constructor; discriminate.
Defined.

(** *** Levels other than DEBUG *)

Lemma call_console (s : State) (c : Env * Call) :
  (forall level, snd c = CallSetLevel level -> level <> DEBUG) ->
  globalLevel s <> DEBUG -> logFile s = None ->
  Forall (fun ef => exists message, ef = Console (Message message)) (effects s) ->
  let s' := call s c in
  globalLevel s' <> DEBUG /\ logFile s' = None /\
  Forall (fun ef => exists message, ef = Console (Message message)) (effects s').
Proof.
  intros Hc Hlevel Hf Hall. cbv zeta.
  destruct c as [e [level|level text|]]; simpl in *.
  - specialize (Hc level eq_refl). unfold SetLevel, closeFileLogger.
    destruct level; try contradiction; simpl; rewrite Hf; simpl; auto.
  - rewrite (logf_quiet e level text s Hlevel).
    destruct (shouldLog level s); simpl; auto.
    repeat split; auto. apply Forall_app. split; [exact Hall|].
    constructor; [eauto | constructor].
  - unfold Close, closeFileLogger. rewrite Hf. auto.
Qed.

(** X22. A program that never sets the level to DEBUG never touches the
    file system through the package: whatever it logs, the package
    creates no directory, opens no file and writes to none; all it does
    is print messages on the console. *)
Theorem no_files_below_debug (calls : list (Env * Call)) :
  (forall e level, In (e, CallSetLevel level) calls -> level <> DEBUG) ->
  Forall (fun ef => exists message, ef = Console (Message message))
    (effects (run calls)) /\
  logFile (run calls) = None /\ globalLevel (run calls) <> DEBUG.
Proof.
  unfold run.
  assert (H : forall s,
            globalLevel s <> DEBUG -> logFile s = None ->
            Forall (fun ef => exists message, ef = Console (Message message))
              (effects s) ->
            (forall e level, In (e, CallSetLevel level) calls -> level <> DEBUG) ->
            Forall (fun ef => exists message, ef = Console (Message message))
              (effects (fold_left call calls s)) /\
            logFile (fold_left call calls s) = None /\
            globalLevel (fold_left call calls s) <> DEBUG).
  { induction calls as [|c calls IH]; intros s Hlevel Hf Hall Hcalls; simpl;
      [auto|].
    destruct (call_console s c) as (Hl' & Hf' & Hall'); auto.
    { intros level Hc. destruct c as [e op]. simpl in Hc. subst op.
      apply (Hcalls e). left. reflexivity. }
    apply IH; auto. intros e level Hin. apply (Hcalls e). right. exact Hin. }
  apply H; simpl; [discriminate | reflexivity | constructor].
Qed.

(** A program that raises the level to WARN and logs twice, with the
    file system refusing everything. *)
Lemma no_files_below_debug_witness :
  let e := mkEnv "2024-03-04" "2024/03/04 12:00:00" false false in
  let s := run [(e, CallSetLevel WARN); (e, CallLog INFO "start");
                (e, CallLog ERROR "order failed"); (e, CallClose)] in
  Forall (fun ef => exists message, ef = Console (Message message)) (effects s) /\
  logFile s = None /\ globalLevel s <> DEBUG.
Proof.
  apply (no_files_below_debug
           [(mkEnv "2024-03-04" "2024/03/04 12:00:00" false false,
             CallSetLevel WARN);
            (mkEnv "2024-03-04" "2024/03/04 12:00:00" false false,
             CallLog INFO "start");
            (mkEnv "2024-03-04" "2024/03/04 12:00:00" false false,
             CallLog ERROR "order failed");
            (mkEnv "2024-03-04" "2024/03/04 12:00:00" false false,
             CallClose)]).
  intros e level [H | [H | [H | [H | []]]]]; inversion H; discriminate.
Defined.

Example below_debug_run :
  let e := mkEnv "2024-03-04" "2024/03/04 12:00:00" false false in
  effects (run [(e, CallSetLevel WARN); (e, CallLog INFO "start");
                (e, CallLog ERROR "order failed"); (e, CallClose)])
  = [Console (Message "[ERROR] order failed")].
Proof. reflexivity. Qed.

(** *** The console *)



End FileLogFacts.
